(** * PyMIC: semi-supervised and weakly-supervised training epochs

    A shallow embedding of
      - [pymic/net_run_ssl/ssl_em.py]          (class [SSLSegAgent])
      - [pymic/net_run_wsl/wsl_mumford_shah.py] (class [WSL_MumfordShah])

    Conventions of the embedding.
      - Python floats are idealised as real numbers ([R]); Python ints are [Z].
      - A tensor is the list of its slices along axis 0 (the sample axis); the
        slice types are abstract.  Conversions of dtype and device
        ([convert_tensor_type], [.to(device)]) keep the sample sequence and are
        left out.
      - Python exceptions are the [Error] results of the [result] monad.
      - Everything the two files reach only through collaborators (network,
        optimizer, scheduler, loss objects, Dice helpers, and the attributes of
        the base agent) is a field of the class [Collaborators]. *)

From Stdlib Require Import Reals ZArith List Bool Lia Lra.
From Stdlib Require String Ascii DecimalString DecimalNat.
Import ListNotations.
Import String.StringSyntax.
Delimit Scope string_scope with string.
Open Scope R_scope.

(** ** Exceptions and the error monad *)

Inductive exn : Type :=
| StopIteration
| TypeError
| IndexError
| ValueError
| ZeroDivisionError
| UnboundLocalError.

Inductive result (A : Type) : Type :=
| OK (a : A)
| Error (e : exn).
Arguments OK {A} a.
Arguments Error {A} e.

Definition bind {A B : Type} (m : result A) (k : A -> result B) : result B :=
  match m with
  | OK a => k a
  | Error e => Error e
  end.

Notation "x <- m ;; k" := (bind m (fun x => k))
  (at level 61, m at next level, right associativity).
Notation "' p <- m ;; k" := (bind m (fun x => match x with p => k end))
  (at level 61, p pattern, m at next level, right associativity).

(** ** The ramp-up scheduler ([ssl_em.py], lines 92-101) *)

(** [np.clip(x, lo, hi)] on integers: [minimum(maximum(x, lo), hi)]. *)
Definition np_clip (x lo hi : Z) : Z := Z.min (Z.max x lo) hi.

(** [rampup_length] is [None] for Python's [None]. *)
Definition get_consistency_weight_with_rampup
    (w0 : R) (current : Z) (rampup_length : option Z) : R :=
  match rampup_length with
  | None => w0
  | Some len =>
      if (len =? 0)%Z then w0
      else
        let current := np_clip current 0 len in
        let phase := 1 - (IZR current + 0) / IZR len in
        w0 * exp (-5 * phase * phase)
  end.

(** The curve in the words of the specification. *)
Definition rampup_curve (base : R) (step ramp_length : Z) : R :=
  base * exp (-5 * (1 - IZR step / IZR ramp_length) ^ 2).


(** ** Tensors, batches and network outputs *)

(** What [self.net(inputs)] returns: one prediction tensor, or a tuple or list
    of prediction tensors (a multi-head network). *)
Inductive NetOut (P : Type) : Type :=
| Tensor (t : list P)
| Heads (hs : list (list P)).
Arguments Tensor {P} t.
Arguments Heads {P} hs.

(** A batch dictionary; [label_prob] has type [unit] in the unlabeled stream,
    whose dataset is built with [with_label = False]. *)
Record Batch (I L : Type) : Type := { image : list I; label_prob : L }.
Arguments image {I L} b.
Arguments label_prob {I L} b.

(** [torch.tensor_split(input, [n0,], dim = 0)]: [input[:n0]] and
    [input[n0:]]; the input has to be a tensor. *)
Definition tensor_split {P : Type} (input : NetOut P) (n0 : nat)
  : result (list P * list P) :=
  match input with
  | Tensor t => OK (firstn n0 t, skipn n0 t)
  | Heads _ => Error TypeError
  end.

(** [if isinstance(p, tuple) or isinstance(p, list): p = p[0]]. *)
Definition primary {P : Type} (p : NetOut P) : result (list P) :=
  match p with
  | Tensor t => OK t
  | Heads [] => Error IndexError
  | Heads (h :: _) => OK h
  end.

(** ** Data loaders and their iterators *)

(** A loader with [shuffle = True] yields its batches in an order of its own
    each time it is iterated: [ld k] is the batch sequence of the [k]-th
    iterator made from it. *)
Definition Loader (B : Type) : Type := nat -> list B.

(** A live iterator: the batches it has not yielded yet, and how many
    iterators its loader has made so far. *)
Record Cursor (B : Type) : Type := { pending : list B; made : nat }.
Arguments pending {B} c.
Arguments made {B} c.

Definition iter {B : Type} (ld : Loader B) (k : nat) : Cursor B :=
  {| pending := ld k; made := S k |}.

Definition next {B : Type} (c : Cursor B) : result (B * Cursor B) :=
  match pending c with
  | [] => Error StopIteration
  | b :: rest => OK (b, {| pending := rest; made := made c |})
  end.

(** [try: data = next(it)]
    [except StopIteration: it = iter(loader); data = next(it)] *)
Definition next_or_restart {B : Type} (ld : Loader B) (c : Cursor B)
  : result (B * Cursor B) :=
  match next c with
  | OK r => OK r
  | Error StopIteration => next (iter ld (made c))
  | Error e => Error e
  end.

(** [n] successive pulls from one stream. *)
Fixpoint draw {B : Type} (ld : Loader B) (n : nat) (c : Cursor B)
  : result (list B * Cursor B) :=
  match n with
  | O => OK ([], c)
  | S n' =>
      '(b, c1) <- next_or_restart ld c ;;
      '(bs, c2) <- draw ld n' c1 ;;
      OK (b :: bs, c2)
  end.

(** ** Configuration *)

(** [d.get(key, default)]: [None] is an absent key. *)
Definition dict_get {A : Type} (entry : option A) (default : A) : A :=
  match entry with
  | Some a => a
  | None => default
  end.

Module ssl_cfg.
Record t : Type := {
  consis_w : option R;
  iter_sup : option Z;
  ramp_up_length : option (option Z)   (* [Some None]: the key is set to None *)
}.
End ssl_cfg.

Module wsl_cfg.
Record t : Type := {
  regularize_w : option R;
  iter_sup : option Z;
  ramp_up_length : option (option Z)
}.
End wsl_cfg.

Record config : Type := {
  class_num : Z;                          (* config['network']['class_num'] *)
  iter_valid : Z;                         (* config['training']['iter_valid'] *)
  iter_max : Z;                           (* config['training']['iter_max'] *)
  semi_supervised_learning : ssl_cfg.t;
  weakly_supervised_learning : wsl_cfg.t
}.

(** ** Numeric helpers of the epoch aggregator *)

Definition rsum (l : list R) : R := fold_right Rplus 0 l.

(** Python's [x / n] for an int [n]. *)
Definition py_div (x : R) (n : Z) : result R :=
  if (n =? 0)%Z then Error ZeroDivisionError else OK (x / IZR n).

Definition vadd (u v : list R) : list R :=
  map (fun ab => fst ab + snd ab) (combine u v).

(** [np.asarray(rows).mean(axis = 0)] for a list of vectors: the rows must have
    one length.  For no row at all numpy returns nan; [training] only gets there
    when the loop body never ran, and then fails on the unbound weight variable
    before the value is used. *)
Definition np_mean_axis0 (rows : list (list R)) : result (list R) :=
  match rows with
  | [] => OK []
  | r :: rs =>
      if forallb (fun r' => Nat.eqb (length r') (length r)) rs
      then OK (map (fun x => x / INR (length rows)) (fold_left vadd rs r))
      else Error ValueError
  end.

(** [v.mean()] of a vector. *)
Definition np_mean (v : list R) : R := rsum v / INR (length v).

(** Reading a local variable that may not have been assigned. *)
Definition read_local {A : Type} (v : option A) : result A :=
  match v with
  | Some a => OK a
  | None => Error UnboundLocalError
  end.

(** ** Collaborators

    What the two training loops consume through narrow interfaces.  [Ext] is
    the part of the agent ([self]) that the loops only touch through
    collaborators: network parameters, optimizer and scheduler state, and the
    global step [self.glob_it], which the training driver of the base agent
    owns and the loops read at every iteration. *)
Class Collaborators : Type := {
  Img : Type;                       (* a sample of an image tensor *)
  Lab : Type;                       (* a sample of a label tensor *)
  Prd : Type;                       (* a sample of a prediction tensor *)
  ArgMax : Type;                    (* result of [torch.argmax] *)
  Soft : Type;                      (* result of [get_soft_label] *)
  Flat : Type;                      (* a tensor reshaped for Dice *)
  Ext : Type;
  glob_it : Ext -> Z;                                   (* self.glob_it *)
  train_loader : Loader (Batch Img (list Lab));         (* self.train_loader *)
  (* self.train_loader_unlab *)
  train_loader_unlab : Loader (Batch Img unit);
  net_train : Ext -> Ext;                               (* self.net.train() *)
  zero_grad : Ext -> Ext;                       (* self.optimizer.zero_grad() *)
  net : Ext -> list Img -> Ext * NetOut Prd;            (* self.net(inputs) *)
  (* loss.backward() for loss = loss_sup + w * loss_aux: the autograd graph is
     in the state the forward pass left; the batch and the weight [w] are what
     else the gradient depends on *)
  backward : Ext -> Batch Img (list Lab) -> R -> Ext;
  optimizer_step : Ext -> Ext;                  (* self.optimizer.step() *)
  scheduler_step : Ext -> Ext;                  (* self.scheduler.step() *)
  (* SSLSegAgent: self.get_loss_value(data_lab, x0, p0, y0) *)
  ssl_get_loss_value :
    Batch Img (list Lab) -> list Img -> list Prd -> list Lab -> R;
  (* EntropyLoss()({"prediction": p, 'softmax': b}) *)
  EntropyLoss : NetOut Prd -> bool -> R;
  (* WSL_MumfordShah: self.get_loss_value(data, outputs, y) *)
  wsl_get_loss_value : Batch Img (list Lab) -> NetOut Prd -> list Lab -> R;
  (* MumfordShahLoss(wsl_cfg)({"prediction": p, 'image': x}) *)
  MumfordShahLoss : wsl_cfg.t -> NetOut Prd -> list Img -> R;
  sigmoid_rampup : Z -> Z -> R;                         (* pymic.util.ramps *)
  (* torch.argmax(p, dim = 1, keepdim = True) *)
  torch_argmax : list Prd -> ArgMax;
  get_soft_label : ArgMax -> Z -> Soft;
  reshape_prediction_and_ground_truth : Soft -> list Lab -> Flat * Flat;
  get_classwise_dice : Flat -> Flat -> list R
}.

(** The agent: [ext] and the live iterators.  [net_calls] is a ghost log of
    the inputs of every forward pass, the latest first. *)
Record Agent `{Collaborators} : Type := {
  ext : Ext;
  trainIter : Cursor (Batch Img (list Lab));
  trainIter_unlab : Cursor (Batch Img unit);
  net_calls : list (list Img)
}.

Definition with_ext `{Collaborators} (s : Agent) (e : Ext) : Agent :=
  {| ext := e; trainIter := trainIter s;
     trainIter_unlab := trainIter_unlab s; net_calls := net_calls s |}.

(** ** [SSLSegAgent.training] ([ssl_em.py], lines 103-190) *)

Module SSL.

(** The local variables of one loop iteration. *)
Record locals `{Collaborators} : Type := {
  data_lab : Batch Img (list Lab);
  data_unlab : Batch Img unit;
  inputs : list Img;
  outputs : NetOut Prd;
  p0 : list Prd;
  p1 : list Prd;
  loss_sup : R;
  loss_unsup : R;
  glob_it_read : Z;           (* the value of self.glob_it at lines 161-163 *)
  consis_w : R;
  loss : R;
  dice_list : list R
}.

(** The variables that live across iterations; [consis_w] is assigned in the
    loop body only and is unbound ([None]) until the body has run. *)
Record vars : Type := {
  train_loss : R;
  train_loss_sup : R;
  train_loss_unsup : R;
  train_dice_list : list (list R);
  live_consis_w : option R
}.

Module train_scalers.
Record t : Type := {
  loss : R;
  loss_sup : R;
  loss_unsup : R;
  consis_w : R;
  avg_dice : R;
  class_dice : list R
}.
End train_scalers.

(** Lines 157-163: the weight applied at global step [g]. *)
Definition applied_consis_w (cfg : config) (g : Z) : R :=
  let ssl_cfg := semi_supervised_learning cfg in
  let consis_w0 := dict_get (ssl_cfg.consis_w ssl_cfg) (1 / 10) in
  let iter_sup := dict_get (ssl_cfg.iter_sup ssl_cfg) 0%Z in
  let iter_max := iter_max cfg in
  let ramp_up_length :=
    dict_get (ssl_cfg.ramp_up_length ssl_cfg) (Some iter_max) in
  let consis_w :=
    get_consistency_weight_with_rampup consis_w0 g ramp_up_length in
  if (g <? iter_sup)%Z then 0 else consis_w.

(** Lines 113-168 and 174-179: one iteration, without the running sums. *)
Definition step `{Collaborators} (cfg : config) (s : Agent)
  : result (Agent * locals) :=
  '(data_lab, it_lab) <- next_or_restart train_loader (trainIter s) ;;
  '(data_unlab, it_unlab) <-
     next_or_restart train_loader_unlab (trainIter_unlab s) ;;
  let x0 := image data_lab in
  let y0 := label_prob data_lab in
  let x1 := image data_unlab in
  let inputs := x0 ++ x1 in
  let e := zero_grad (ext s) in
  let '(e, outputs) := net e inputs in
  let n0 := length x0 in
  '(p0, p1) <- tensor_split outputs n0 ;;
  let loss_sup := ssl_get_loss_value data_lab x0 p0 y0 in
  let loss_unsup := EntropyLoss outputs true in
  let g := glob_it e in
  let consis_w := applied_consis_w cfg g in
  let loss := loss_sup + consis_w * loss_unsup in
  let e := scheduler_step (optimizer_step (backward e data_lab consis_w)) in
  (* [p0] is a tensor here, whatever the network returned *)
  p0' <- primary (Tensor p0) ;;
  let p0_argmax := torch_argmax p0' in
  let p0_soft := get_soft_label p0_argmax (class_num cfg) in
  let '(p0_soft, y0') := reshape_prediction_and_ground_truth p0_soft y0 in
  let dice_list := get_classwise_dice p0_soft y0' in
  OK ({| ext := e; trainIter := it_lab; trainIter_unlab := it_unlab;
         net_calls := inputs :: net_calls s |},
      {| data_lab := data_lab; data_unlab := data_unlab; inputs := inputs;
         outputs := outputs; p0 := p0; p1 := p1; loss_sup := loss_sup;
         loss_unsup := loss_unsup; glob_it_read := g; consis_w := consis_w;
         loss := loss; dice_list := dice_list |}).

(** Lines 170-172 and 180. *)
Definition accumulate `{Collaborators} (a : vars) (l : locals) : vars :=
  {| train_loss := train_loss a + loss l;
     train_loss_sup := train_loss_sup a + loss_sup l;
     train_loss_unsup := train_loss_unsup a + loss_unsup l;
     train_dice_list := train_dice_list a ++ [dice_list l];
     live_consis_w := Some (consis_w l) |}.

(** Lines 107-110. *)
Definition vars0 : vars :=
  {| train_loss := 0; train_loss_sup := 0; train_loss_unsup := 0;
     train_dice_list := []; live_consis_w := None |}.

(** [for it in range(n)]: the body does not use [it]. *)
Fixpoint loop `{Collaborators} (cfg : config) (n : nat) (s : Agent) (a : vars)
  : result (Agent * vars) :=
  match n with
  | O => OK (s, a)
  | S n' =>
      '(s1, l) <- step cfg s ;;
      loop cfg n' s1 (accumulate a l)
  end.

(** Ghost: the locals of the [n] iterations, in order. *)
Fixpoint run `{Collaborators} (cfg : config) (n : nat) (s : Agent)
  : result (Agent * list locals) :=
  match n with
  | O => OK (s, [])
  | S n' =>
      '(s1, l) <- step cfg s ;;
      '(s2, ls) <- run cfg n' s1 ;;
      OK (s2, l :: ls)
  end.

Definition training `{Collaborators} (cfg : config) (s : Agent)
  : result (Agent * train_scalers.t) :=
  let iter_valid := iter_valid cfg in
  let s := with_ext s (net_train (ext s)) in
  '(s, a) <- loop cfg (Z.to_nat iter_valid) s vars0 ;;
  train_avg_loss <- py_div (train_loss a) iter_valid ;;
  train_avg_loss_sup <- py_div (train_loss_sup a) iter_valid ;;
  train_avg_loss_unsup <- py_div (train_loss_unsup a) iter_valid ;;
  train_cls_dice <- np_mean_axis0 (train_dice_list a) ;;
  let train_avg_dice := np_mean train_cls_dice in
  consis_w <- read_local (live_consis_w a) ;;
  OK (s, {| train_scalers.loss := train_avg_loss;
            train_scalers.loss_sup := train_avg_loss_sup;
            train_scalers.loss_unsup := train_avg_loss_unsup;
            train_scalers.consis_w := consis_w;
            train_scalers.avg_dice := train_avg_dice;
            train_scalers.class_dice := train_cls_dice |}).

End SSL.

(** ** [WSL_MumfordShah.training] ([wsl_mumford_shah.py], lines 24-90) *)

Module WSL.

Record locals `{Collaborators} : Type := {
  data : Batch Img (list Lab);
  inputs : list Img;
  outputs : NetOut Prd;
  loss_sup : R;
  loss_reg : R;
  glob_it_read : Z;           (* the value of self.glob_it at lines 60-63 *)
  regular_w : R;
  loss : R;
  dice_list : list R
}.

Record vars : Type := {
  train_loss : R;
  train_loss_sup : R;
  train_loss_reg : R;
  train_dice_list : list (list R);
  live_regular_w : option R
}.

Module train_scalers.
Record t : Type := {
  loss : R;
  loss_sup : R;
  loss_reg : R;
  regular_w : R;
  avg_dice : R;
  class_dice : list R
}.
End train_scalers.

(** Lines 57-63: the weight applied at global step [g]. *)
Definition applied_regular_w `{Collaborators} (cfg : config) (g : Z) : R :=
  let wsl_cfg := weakly_supervised_learning cfg in
  let iter_max := iter_max cfg in
  let ramp_up_length :=
    dict_get (wsl_cfg.ramp_up_length wsl_cfg) (Some iter_max) in
  let regular_w := 0 in
  if (g >? dict_get (wsl_cfg.iter_sup wsl_cfg) 0)%Z then
    let regular_w := dict_get (wsl_cfg.regularize_w wsl_cfg) (1 / 10) in
    match ramp_up_length with
    | Some len =>
        if (g <? len)%Z then regular_w * sigmoid_rampup g len else regular_w
    | None => regular_w
    end
  else regular_w.

(** Lines 36-68 and 74-79: one iteration, without the running sums. *)
Definition step `{Collaborators} (cfg : config) (s : Agent)
  : result (Agent * locals) :=
  let wsl_cfg := weakly_supervised_learning cfg in
  '(data, it) <- next_or_restart train_loader (trainIter s) ;;
  let inputs := image data in
  let y := label_prob data in
  let e := zero_grad (ext s) in
  let '(e, outputs) := net e inputs in
  let loss_sup := wsl_get_loss_value data outputs y in
  let loss_reg := MumfordShahLoss wsl_cfg outputs inputs in
  let g := glob_it e in
  let regular_w := applied_regular_w cfg g in
  let loss := loss_sup + regular_w * loss_reg in
  let e := scheduler_step (optimizer_step (backward e data regular_w)) in
  outputs' <- primary outputs ;;
  let p_argmax := torch_argmax outputs' in
  let p_soft := get_soft_label p_argmax (class_num cfg) in
  let '(p_soft, y') := reshape_prediction_and_ground_truth p_soft y in
  let dice_list := get_classwise_dice p_soft y' in
  OK ({| ext := e; trainIter := it; trainIter_unlab := trainIter_unlab s;
         net_calls := inputs :: net_calls s |},
      {| data := data; inputs := inputs; outputs := outputs;
         loss_sup := loss_sup; loss_reg := loss_reg; glob_it_read := g;
         regular_w := regular_w; loss := loss; dice_list := dice_list |}).

(** Lines 70-72 and 80. *)
Definition accumulate `{Collaborators} (a : vars) (l : locals) : vars :=
  {| train_loss := train_loss a + loss l;
     train_loss_sup := train_loss_sup a + loss_sup l;
     train_loss_reg := train_loss_reg a + loss_reg l;
     train_dice_list := train_dice_list a ++ [dice_list l];
     live_regular_w := Some (regular_w l) |}.

(** Lines 28-31. *)
Definition vars0 : vars :=
  {| train_loss := 0; train_loss_sup := 0; train_loss_reg := 0;
     train_dice_list := []; live_regular_w := None |}.

Fixpoint loop `{Collaborators} (cfg : config) (n : nat) (s : Agent) (a : vars)
  : result (Agent * vars) :=
  match n with
  | O => OK (s, a)
  | S n' =>
      '(s1, l) <- step cfg s ;;
      loop cfg n' s1 (accumulate a l)
  end.

(** Ghost: the locals of the [n] iterations, in order. *)
Fixpoint run `{Collaborators} (cfg : config) (n : nat) (s : Agent)
  : result (Agent * list locals) :=
  match n with
  | O => OK (s, [])
  | S n' =>
      '(s1, l) <- step cfg s ;;
      '(s2, ls) <- run cfg n' s1 ;;
      OK (s2, l :: ls)
  end.

Definition training `{Collaborators} (cfg : config) (s : Agent)
  : result (Agent * train_scalers.t) :=
  let iter_valid := iter_valid cfg in
  let s := with_ext s (net_train (ext s)) in
  '(s, a) <- loop cfg (Z.to_nat iter_valid) s vars0 ;;
  train_avg_loss <- py_div (train_loss a) iter_valid ;;
  train_avg_loss_sup <- py_div (train_loss_sup a) iter_valid ;;
  train_avg_loss_reg <- py_div (train_loss_reg a) iter_valid ;;
  train_cls_dice <- np_mean_axis0 (train_dice_list a) ;;
  let train_avg_dice := np_mean train_cls_dice in
  regular_w <- read_local (live_regular_w a) ;;
  OK (s, {| train_scalers.loss := train_avg_loss;
            train_scalers.loss_sup := train_avg_loss_sup;
            train_scalers.loss_reg := train_avg_loss_reg;
            train_scalers.regular_w := regular_w;
            train_scalers.avg_dice := train_avg_dice;
            train_scalers.class_dice := train_cls_dice |}).

End WSL.

(** ** A concrete instance *)

(** Modelled from the spec: [pymic.util.ramps.sigmoid_rampup] is imported by
    [wsl_mumford_shah.py] and is missing from the sources; the specification
    gives the weak-supervision ramp the mechanics of the ramp-up scheduler
    (clamp the step to [0, ramp_length], [phase = 1 - step / ramp_length],
    a smooth ramp [exp (-5 * phase^2)] from near 0 to 1, and no ramp for a
    zero length). *)
Definition sigmoid_rampup_spec (current rampup_length : Z) : R :=
  get_consistency_weight_with_rampup 1 current (Some rampup_length).

Definition same_samples (p y : list nat) : bool :=
  if list_eq_dec Nat.eq_dec p y then true else false.

(** Samples are numbers; the network returns its input unchanged ([multi]:
    as the first of two heads); there are two classes and the Dice of a
    prediction is 1 for both when it equals the label and 0 otherwise; the
    supervised loss is 0 for a prediction equal to the label; the entropy term
    is the number of samples it is given.  [Ext] is the global step alone,
    which stays as the training driver left it. *)
Definition toy (multi : bool) : Collaborators :=
  {| Img := nat; Lab := nat; Prd := nat;
     ArgMax := list nat; Soft := list nat; Flat := list nat;
     Ext := Z;
     glob_it := fun e => e;
     train_loader := fun _ =>
       [ {| image := [1; 2]%nat; label_prob := [1; 2]%nat |} ];
     train_loader_unlab := fun _ =>
       [ {| image := [7]%nat; label_prob := tt |} ];
     net_train := fun e => e;
     zero_grad := fun e => e;
     net := fun e x => (e, if multi then Heads [x; x] else Tensor x);
     backward := fun e _ _ => e;
     optimizer_step := fun e => e;
     scheduler_step := fun e => e;
     ssl_get_loss_value := fun _ _ p y => if same_samples p y then 0 else 1;
     EntropyLoss := fun o _ =>
       match o with Tensor t => INR (length t) | Heads _ => 0 end;
     wsl_get_loss_value := fun _ o y =>
       match o with
       | Tensor t => if same_samples t y then 0 else 1
       | Heads _ => 1
       end;
     MumfordShahLoss := fun _ _ x => INR (length x);
     sigmoid_rampup := sigmoid_rampup_spec;
     torch_argmax := fun p => p;
     get_soft_label := fun a _ => a;
     reshape_prediction_and_ground_truth := fun p y => (p, y);
     get_classwise_dice := fun p y =>
       if same_samples p y then [1; 1] else [0; 0] |}.

(** The agent as the driver leaves it at global step [g]: both iterators
    fresh. *)
Definition toy_agent (multi : bool) (g : Z) : @Agent (toy multi) :=
  @Build_Agent (toy multi) g
    (iter (@train_loader (toy multi)) 0)
    (iter (@train_loader_unlab (toy multi)) 0)
    [].

(** Two classes, [n] iterations per epoch, base weight 1, the auxiliary weight
    gated at global step [sup], ramp length [ramp] (0: no ramp). *)
Definition toy_config (n sup ramp : Z) : config :=
  {| class_num := 2; iter_valid := n; iter_max := 1000;
     semi_supervised_learning :=
       {| ssl_cfg.consis_w := Some 1; ssl_cfg.iter_sup := Some sup;
          ssl_cfg.ramp_up_length := Some (Some ramp) |};
     weakly_supervised_learning :=
       {| wsl_cfg.regularize_w := Some 1; wsl_cfg.iter_sup := Some sup;
          wsl_cfg.ramp_up_length := Some (Some ramp) |} |}.

(** The end-to-end scenario of the specification: [consis_w = 0.2],
    [iter_sup = 100], [iter_max = 1000], [ramp_up_length] unset. *)
Definition scenario_config : config :=
  {| class_num := 2; iter_valid := 10; iter_max := 1000;
     semi_supervised_learning :=
       {| ssl_cfg.consis_w := Some (1 / 5); ssl_cfg.iter_sup := Some 100%Z;
          ssl_cfg.ramp_up_length := None |};
     weakly_supervised_learning :=
       {| wsl_cfg.regularize_w := None; wsl_cfg.iter_sup := None;
          wsl_cfg.ramp_up_length := None |} |}.

(** ** Vocabulary of the step-level statements *)

(** The Dice vector of lines 174-179 for a prediction tensor and labels. *)
Definition dice_of `{Collaborators} (cfg : config)
    (p : list Prd) (y : list Lab) : list R :=
  let soft := get_soft_label (torch_argmax p) (class_num cfg) in
  get_classwise_dice
    (fst (reshape_prediction_and_ground_truth soft y))
    (snd (reshape_prediction_and_ground_truth soft y)).

(** What a step computes, from the two batches it pulled and the tensor the
    network returned in state [e1]. *)
Definition ssl_locals_of `{Collaborators} (cfg : config)
    (dl : Batch Img (list Lab)) (du : Batch Img unit)
    (e1 : Ext) (out : list Prd) : SSL.locals :=
  let n0 := length (image dl) in
  let w := SSL.applied_consis_w cfg (glob_it e1) in
  let sup :=
    ssl_get_loss_value dl (image dl) (firstn n0 out) (label_prob dl) in
  let unsup := EntropyLoss (Tensor out) true in
  {| SSL.data_lab := dl; SSL.data_unlab := du;
     SSL.inputs := image dl ++ image du;
     SSL.outputs := Tensor out;
     SSL.p0 := firstn n0 out; SSL.p1 := skipn n0 out;
     SSL.loss_sup := sup; SSL.loss_unsup := unsup;
     SSL.glob_it_read := glob_it e1; SSL.consis_w := w;
     SSL.loss := sup + w * unsup;
     SSL.dice_list := dice_of cfg (firstn n0 out) (label_prob dl) |}.

(** What a step computes, from the batch it pulled, the network output [o]
    returned in state [e1] and its primary segmentation map [p]. *)
Definition wsl_locals_of `{Collaborators} (cfg : config)
    (d : Batch Img (list Lab)) (e1 : Ext) (o : NetOut Prd) (p : list Prd)
  : WSL.locals :=
  let w := WSL.applied_regular_w cfg (glob_it e1) in
  let sup := wsl_get_loss_value d o (label_prob d) in
  let reg := MumfordShahLoss (weakly_supervised_learning cfg) o (image d) in
  {| WSL.data := d; WSL.inputs := image d; WSL.outputs := o;
     WSL.loss_sup := sup; WSL.loss_reg := reg;
     WSL.glob_it_read := glob_it e1; WSL.regular_w := w;
     WSL.loss := sup + w * reg;
     WSL.dice_list := dice_of cfg p (label_prob d) |}.

(** ** Vocabulary of the epoch-level statements *)

(** The epoch means of [n] iterations over [K] classes: each scalar is the sum
    of its per-step values divided by [n]; [class_dice] has [K] entries, the
    [k]-th being the mean over the steps of the [k]-th Dice entries; and
    [avg_dice] is the mean of [class_dice]. *)
Definition epoch_means (n : Z) (K : nat)
    (losses sups auxs : list R) (dices : list (list R))
    (loss loss_sup loss_aux avg_dice : R) (class_dice : list R) : Prop :=
  loss = rsum losses / IZR n /\
  loss_sup = rsum sups / IZR n /\
  loss_aux = rsum auxs / IZR n /\
  length class_dice = K /\
  (forall k : nat, (k < K)%nat ->
     nth k class_dice 0 = rsum (map (fun d => nth k d 0) dices) / IZR n) /\
  avg_dice = rsum class_dice / INR (length class_dice).

(** The state in which the loop of [training] starts. *)
Definition epoch_start `{Collaborators} (s : Agent) : Agent :=
  with_ext s (net_train (ext s)).

(** The training driver owns [self.glob_it]: neither file assigns it, and the
    collaborators the two loops call leave it as they find it. *)
Definition glob_it_read_only (C : Collaborators) : Prop :=
  forall e : Ext,
    glob_it (net_train e) = glob_it e /\
    glob_it (zero_grad e) = glob_it e /\
    (forall x : list Img, glob_it (fst (net e x)) = glob_it e) /\
    (forall (b : Batch Img (list Lab)) (w : R),
       glob_it (backward e b w) = glob_it e) /\
    glob_it (optimizer_step e) = glob_it e /\
    glob_it (scheduler_step e) = glob_it e.

(** [cfg] with the base weight of the auxiliary loss set to [w], in both
    variants; nothing else changes. *)
Definition with_aux_weight (cfg : config) (w : R) : config :=
  let cs := semi_supervised_learning cfg in
  let cw := weakly_supervised_learning cfg in
  {| class_num := class_num cfg; iter_valid := iter_valid cfg;
     iter_max := iter_max cfg;
     semi_supervised_learning :=
       {| ssl_cfg.consis_w := Some w;
          ssl_cfg.iter_sup := ssl_cfg.iter_sup cs;
          ssl_cfg.ramp_up_length := ssl_cfg.ramp_up_length cs |};
     weakly_supervised_learning :=
       {| wsl_cfg.regularize_w := Some w;
          wsl_cfg.iter_sup := wsl_cfg.iter_sup cw;
          wsl_cfg.ramp_up_length := wsl_cfg.ramp_up_length cw |} |}.

(** "The reported auxiliary-loss average is independent of the weight
    schedule", for an epoch from the state [s] under two base weights. *)
Definition ssl_aux_average_independent_of_weight
    (C : Collaborators) (cfg : config) (s : Agent) : Prop :=
  forall (w w' : R) (s1 s2 : Agent) (r1 r2 : SSL.train_scalers.t),
    SSL.training (with_aux_weight cfg w) s = OK (s1, r1) ->
    SSL.training (with_aux_weight cfg w') s = OK (s2, r2) ->
    SSL.train_scalers.loss_unsup r1 = SSL.train_scalers.loss_unsup r2.

Definition wsl_aux_average_independent_of_weight
    (C : Collaborators) (cfg : config) (s : Agent) : Prop :=
  forall (w w' : R) (s1 s2 : Agent) (r1 r2 : WSL.train_scalers.t),
    WSL.training (with_aux_weight cfg w) s = OK (s1, r1) ->
    WSL.training (with_aux_weight cfg w') s = OK (s2, r2) ->
    WSL.train_scalers.loss_reg r1 = WSL.train_scalers.loss_reg r2.

(** ** A network that learns

    One parameter [theta], trained by gradient descent with learning rate 1.
    Every prediction is [theta]; the supervised loss is 0 and both auxiliary
    losses are the first prediction, so the gradient of
    [loss_sup + w * loss_aux] in [theta] is [w].  The global step is a field
    of its own, which neither the network nor the optimizer nor the scheduler
    writes. *)
Record learner_state : Type := {
  driver_step : Z;
  theta : R;
  grad : R
}.

Definition first_prediction (o : NetOut R) : R :=
  match o with
  | Tensor (p :: _) => p
  | _ => 0
  end.

Definition learner : Collaborators :=
  {| Img := nat; Lab := nat; Prd := R;
     ArgMax := unit; Soft := unit; Flat := unit;
     Ext := learner_state;
     glob_it := driver_step;
     train_loader := fun _ =>
       [ {| image := [1; 2]%nat; label_prob := [1; 2]%nat |} ];
     train_loader_unlab := fun _ =>
       [ {| image := [7]%nat; label_prob := tt |} ];
     net_train := fun e => e;
     zero_grad := fun e =>
       {| driver_step := driver_step e; theta := theta e; grad := 0 |};
     net := fun e x => (e, Tensor (map (fun _ => theta e) x));
     backward := fun e _ w =>
       {| driver_step := driver_step e; theta := theta e;
          grad := grad e + w |};
     optimizer_step := fun e =>
       {| driver_step := driver_step e; theta := theta e - grad e;
          grad := grad e |};
     scheduler_step := fun e => e;
     ssl_get_loss_value := fun _ _ _ _ => 0;
     EntropyLoss := fun o _ => first_prediction o;
     wsl_get_loss_value := fun _ _ _ => 0;
     MumfordShahLoss := fun _ o _ => first_prediction o;
     sigmoid_rampup := sigmoid_rampup_spec;
     torch_argmax := fun _ => tt;
     get_soft_label := fun _ _ => tt;
     reshape_prediction_and_ground_truth := fun _ _ => (tt, tt);
     get_classwise_dice := fun _ _ => [1; 1] |}.

(** The learner as the driver leaves it at global step [g], with the
    parameter [th] and both iterators fresh. *)
Definition learner_agent (g : Z) (th : R) : @Agent learner :=
  @Build_Agent learner
    {| driver_step := g; theta := th; grad := 0 |}
    (iter (@train_loader learner) 0)
    (iter (@train_loader_unlab learner) 0)
    [].

(** ** Entering training ([ssl_em.py], lines 214-216)

    [train_valid] makes a fresh iterator over the unlabeled loader, the
    [k]-th the loader makes, and hands over to the base agent. *)
Definition ssl_train_valid_enter `{Collaborators} (k : nat) (s : Agent)
  : Agent :=
  {| ext := ext s; trainIter := trainIter s;
     trainIter_unlab := iter train_loader_unlab k;
     net_calls := net_calls s |}.

(** ** Building the unlabeled dataset ([ssl_em.py], lines 43-90) *)

Module Setup.
Local Open Scope string_scope.

(** The exceptions of the set-up code; [UndefinedTransform name] is
    [ValueError("Undefined transform <name>")], and [LibraryError cls] is an
    exception of class [cls] raised inside a library constructor. *)
Inductive raised : Type :=
| KeyError (key : String.string)
| UndefinedTransform (name : String.string)
| LibraryError (cls : String.string).

(** [config['dataset']], with [None] for an absent key;
    [train_transform_unlab = Some None] is the key set to None. *)
Record dataset_cfg : Type := {
  root_dir : option String.string;
  modal_num : option Z;
  train_transform_unlab : option (option (list String.string));
  train_csv_unlab : option String.string;
  train_batch_size_unlab : option Z;
  num_workder : option Z;
  task : option String.string
}.

(** [transform_param['task'] = 'segmentation'] *)
Definition set_task (c : dataset_cfg) (v : String.string) : dataset_cfg :=
  {| root_dir := root_dir c; modal_num := modal_num c;
     train_transform_unlab := train_transform_unlab c;
     train_csv_unlab := train_csv_unlab c;
     train_batch_size_unlab := train_batch_size_unlab c;
     num_workder := num_workder c; task := Some v |}.

(** The arguments a [NiftyDataset] is built with; [transform] is the list
    given to [transforms.Compose], or [None]. *)
Module NiftyDataset.
Record t (T : Type) : Type := {
  root_dir : String.string;
  csv_file : option String.string;
  modal_num : Z;
  with_label : bool;
  transform : option (list T)
}.
Arguments root_dir {T} _.
Arguments csv_file {T} _.
Arguments modal_num {T} _.
Arguments with_label {T} _.
Arguments transform {T} _.
End NiftyDataset.

(** The arguments a [DataLoader] is built with; [worker_init_fn] is [true]
    for the function that seeds a worker and [false] for None. *)
Module DataLoader.
Record t (T : Type) : Type := {
  dataset : NiftyDataset.t T;
  batch_size : Z;
  shuffle : bool;
  num_workers : Z;
  worker_init_fn : bool
}.
Arguments dataset {T} _.
Arguments batch_size {T} _.
Arguments shuffle {T} _.
Arguments num_workers {T} _.
Arguments worker_init_fn {T} _.
End DataLoader.

(** The attributes of the agent that the set-up code reads and writes. *)
Record agent (T : Type) : Type := {
  config_dataset : dataset_cfg;              (* self.config['dataset'] *)
  stage : String.string;
  deterministic : bool;
  random_seed : Z;
  transform_list : list T;
  train_set_unlab : option (NiftyDataset.t T);
  train_loader_unlab : option (DataLoader.t T)
}.
Arguments config_dataset {T} _.
Arguments stage {T} _.
Arguments deterministic {T} _.
Arguments random_seed {T} _.
Arguments transform_list {T} _.
Arguments train_set_unlab {T} _.
Arguments train_loader_unlab {T} _.

Definition set_config_dataset {T : Type} (a : agent T) (c : dataset_cfg)
  : agent T :=
  {| config_dataset := c; stage := stage a;
     deterministic := deterministic a; random_seed := random_seed a;
     transform_list := transform_list a;
     train_set_unlab := train_set_unlab a;
     train_loader_unlab := train_loader_unlab a |}.

Definition set_transform_list {T : Type} (a : agent T) (l : list T)
  : agent T :=
  {| config_dataset := config_dataset a; stage := stage a;
     deterministic := deterministic a; random_seed := random_seed a;
     transform_list := l;
     train_set_unlab := train_set_unlab a;
     train_loader_unlab := train_loader_unlab a |}.

Definition set_train_set_unlab {T : Type} (a : agent T)
    (d : option (NiftyDataset.t T)) : agent T :=
  {| config_dataset := config_dataset a; stage := stage a;
     deterministic := deterministic a; random_seed := random_seed a;
     transform_list := transform_list a;
     train_set_unlab := d;
     train_loader_unlab := train_loader_unlab a |}.

Definition set_train_loader_unlab {T : Type} (a : agent T)
    (l : option (DataLoader.t T)) : agent T :=
  {| config_dataset := config_dataset a; stage := stage a;
     deterministic := deterministic a; random_seed := random_seed a;
     transform_list := transform_list a;
     train_set_unlab := train_set_unlab a;
     train_loader_unlab := l |}.

(** [NiftyDataset] and [torch.utils.data.DataLoader] are library classes:
    their constructors check the arguments and may raise.  [None] is a
    construction that goes through, [Some e] one that raises [e]. *)
Record library (T : Type) : Type := {
  NiftyDataset_init : NiftyDataset.t T -> option raised;
  DataLoader_init : DataLoader.t T -> option raised
}.
Arguments NiftyDataset_init {T} _ _.
Arguments DataLoader_init {T} _ _.

(** Calling a constructor [init] on the arguments [args]. *)
Definition construct {A : Type} (init : A -> option raised) (args : A)
  : raised + A :=
  match init args with
  | Some e => inl e
  | None => inr args
  end.

(** [TransformDict]: transform classes by name; a class is built from the
    dataset configuration. *)
Definition transform_dict (T : Type) : Type :=
  list (String.string * (dataset_cfg -> T)).

Fixpoint lookup {T : Type} (d : transform_dict T) (name : String.string)
  : option (dataset_cfg -> T) :=
  match d with
  | [] => None
  | (k, v) :: rest => if String.eqb k name then Some v else lookup rest name
  end.

(** Lines 43-46: [__init__], after the base agent's. *)
Definition init {T : Type} (a : agent T) : agent T :=
  set_train_set_unlab a None.

(** Lines 59-63: the loop over the transform names, appending to
    [self.transform_list]; it returns the list, and the name it raised on. *)
Fixpoint append_transforms {T : Type} (d : transform_dict T)
    (transform_param : dataset_cfg) (names : list String.string)
    (transform_list : list T) : list T * option String.string :=
  match names with
  | [] => (transform_list, None)
  | name :: rest =>
      match lookup d name with
      | None => (transform_list, Some name)
      | Some cls =>
          let one_transform := cls transform_param in
          append_transforms d transform_param rest
            (transform_list ++ [one_transform])
      end
  end.

(** Lines 48-72.  The agent is returned with the changes made up to the
    return or the exception. *)
Definition get_unlabeled_dataset_from_config {T : Type}
    (lib : library T) (d : transform_dict T) (a : agent T)
  : agent T * (raised + NiftyDataset.t T) :=
  match root_dir (config_dataset a) with
  | None => (a, inl (KeyError "root_dir"))
  | Some root =>
  match modal_num (config_dataset a) with
  | None => (a, inl (KeyError "modal_num"))
  | Some modal =>
  match train_transform_unlab (config_dataset a) with
  | None => (a, inl (KeyError "train_transform_unlab"))
  | Some transform_names =>
      let a := set_transform_list a [] in
      let dataset_with (a : agent T) (data_transform : option (list T)) :=
        construct (NiftyDataset_init lib)
          {| NiftyDataset.root_dir := root;
             NiftyDataset.csv_file := train_csv_unlab (config_dataset a);
             NiftyDataset.modal_num := modal;
             NiftyDataset.with_label := false;
             NiftyDataset.transform := data_transform |} in
      match transform_names with
      | None | Some [] => (a, dataset_with a None)
      | Some names =>
          let transform_param := set_task (config_dataset a) "segmentation" in
          let a := set_config_dataset a transform_param in
          let '(l, undefined) := append_transforms d transform_param names [] in
          let a := set_transform_list a l in
          match undefined with
          | Some name => (a, inl (UndefinedTransform name))
          | None => (a, dataset_with a (Some l))
          end
      end
  end end end.

(** The seed the installed [worker_init_fn] gives [random.seed] in worker
    [worker_id] (line 81). *)
Definition worker_seed {T : Type} (a : agent T) (worker_id : Z) : Z :=
  (random_seed a + worker_id)%Z.

(** Lines 76-90: the part of [create_dataset] after the base agent's. *)
Definition create_dataset_unlab {T : Type} (lib : library T)
    (d : transform_dict T) (a : agent T) : agent T * (raised + unit) :=
  if String.eqb (stage a) "train" then
    let '(a, r) :=
      match train_set_unlab a with
      | None =>
          let '(a, r) := get_unlabeled_dataset_from_config lib d a in
          match r with
          | inl e => (a, inl e)
          | inr ds => (set_train_set_unlab a (Some ds), inr ds)
          end
      | Some ds => (a, inr ds)
      end in
    match r with
    | inl e => (a, inl e)
    | inr ds =>
        let worker_init := deterministic a in
        match train_batch_size_unlab (config_dataset a) with
        | None => (a, inl (KeyError "train_batch_size_unlab"))
        | Some bn_train_unlab =>
            let num_worker := dict_get (num_workder (config_dataset a)) 16%Z in
            match construct (DataLoader_init lib)
                    {| DataLoader.dataset := ds;
                       DataLoader.batch_size := bn_train_unlab;
                       DataLoader.shuffle := true;
                       DataLoader.num_workers := num_worker;
                       DataLoader.worker_init_fn := worker_init |} with
            | inl e => (a, inl e)
            | inr ld => (set_train_loader_unlab a (Some ld), inr tt)
            end
        end
    end
  else (a, inr tt).

(** Lines 74-90; [super_create_dataset] is the base agent's method. *)
Definition create_dataset {T : Type}
    (super_create_dataset : agent T -> agent T * (raised + unit))
    (lib : library T) (d : transform_dict T) (a : agent T)
  : agent T * (raised + unit) :=
  let '(a, r) := super_create_dataset a in
  match r with
  | inl e => (a, inl e)
  | inr _ => create_dataset_unlab lib d a
  end.

End Setup.

(** ** A concrete set-up

    A transform is the name of its class with the [task] it was built for. *)
Definition setup_dict
  : Setup.transform_dict (String.string * option String.string) :=
  [ ("Rescale"%string, fun c => ("Rescale"%string, Setup.task c));
    ("RandomCrop"%string, fun c => ("RandomCrop"%string, Setup.task c)) ].

(** Constructors that reject what the library's reject at the first look: a
    [NiftyDataset] without a csv file to read, and a [DataLoader] whose batch
    size is not positive, both with a [ValueError]. *)
Definition setup_library
  : Setup.library (String.string * option String.string) :=
  {| Setup.NiftyDataset_init := fun ds =>
       match Setup.NiftyDataset.csv_file ds with
       | None => Some (Setup.LibraryError "ValueError"%string)
       | Some _ => None
       end;
     Setup.DataLoader_init := fun ld =>
       if (Setup.DataLoader.batch_size ld <=? 0)%Z
       then Some (Setup.LibraryError "ValueError"%string)
       else None |}.

(** A configuration with the transform names [names] and the batch size
    [bn]; [csv] is the csv file of the unlabeled images, None for an absent
    key. *)
Definition setup_config_with (names : option (list String.string))
    (csv : option String.string) (bn : Z) : Setup.dataset_cfg :=
  {| Setup.root_dir := Some "data"%string;
     Setup.modal_num := Some 1%Z;
     Setup.train_transform_unlab := Some names;
     Setup.train_csv_unlab := csv;
     Setup.train_batch_size_unlab := Some bn;
     Setup.num_workder := None;
     Setup.task := None |}.

Definition setup_config (names : option (list String.string))
  : Setup.dataset_cfg :=
  setup_config_with names (Some "unlab.csv"%string) 4.

(** The same without the [modal_num] key. *)
Definition setup_config_no_modal : Setup.dataset_cfg :=
  {| Setup.root_dir := Some "data"%string;
     Setup.modal_num := None;
     Setup.train_transform_unlab := Some None;
     Setup.train_csv_unlab := Some "unlab.csv"%string;
     Setup.train_batch_size_unlab := Some 4%Z;
     Setup.num_workder := None;
     Setup.task := None |}.

(** A deterministic agent in the train stage, as [__init__] leaves it. *)
Definition setup_agent (c : Setup.dataset_cfg)
  : Setup.agent (String.string * option String.string) :=
  Setup.init
    {| Setup.config_dataset := c;
       Setup.stage := "train"%string;
       Setup.deterministic := true;
       Setup.random_seed := 2024%Z;
       Setup.transform_list := [];
       Setup.train_set_unlab := None;
       Setup.train_loader_unlab := None |}.

(** ** Reporting ([ssl_em.py], lines 192-212) *)

Open Scope string_scope.

(** The record of a validation epoch, as far as [write_scalars] reads it. *)
Module valid_scalers.
Record t : Type := {
  loss : R;
  avg_dice : R;
  class_dice : list R
}.
End valid_scalers.

(** What [write_scalars] sends out: a call of [summ_writer.add_scalars], or
    a printed summary line with the values it formats. *)
Inductive event : Type :=
| add_scalars (tag : String.string) (scalars : list (String.string * R))
    (global_step : Z)
| print_summary (phase : String.string) (loss avg_dice : R)
    (class_dice : list R).

(** ['class_{0:}_dice'.format(c)] *)
Definition class_tag (c : nat) : String.string :=
  String.append "class_"
    (String.append (DecimalString.NilEmpty.string_of_uint (Nat.to_uint c))
       "_dice").

(** Lines 204-207: the loop over the classes [cs]; indexing a Dice vector
    past its end raises [IndexError]. *)
Fixpoint write_class_scalars (train valid : list R) (glob_it : Z)
    (cs : list nat) : list event * result unit :=
  match cs with
  | [] => ([], OK tt)
  | c :: rest =>
      match nth_error train c, nth_error valid c with
      | Some t, Some v =>
          let '(evs, r) := write_class_scalars train valid glob_it rest in
          (add_scalars (class_tag c) [("train"%string, t); ("valid"%string, v)]
             glob_it :: evs, r)
      | _, _ => ([], Error IndexError)
      end
  end.

(** The events sent out, in order, and how the call ends. *)
Definition write_scalars (cfg : config) (train_scalars : SSL.train_scalers.t)
    (valid_scalars : valid_scalers.t) (glob_it : Z)
  : list event * result unit :=
  let t := train_scalars in
  let v := valid_scalars in
  let first :=
    [ add_scalars "loss"
        [("train"%string, SSL.train_scalers.loss t);
         ("valid"%string, valid_scalers.loss v)] glob_it;
      add_scalars "loss_sup"
        [("train"%string, SSL.train_scalers.loss_sup t)] glob_it;
      add_scalars "loss_unsup"
        [("train"%string, SSL.train_scalers.loss_unsup t)] glob_it;
      add_scalars "consis_w"
        [("consis_w"%string, SSL.train_scalers.consis_w t)] glob_it;
      add_scalars "dice"
        [("train"%string, SSL.train_scalers.avg_dice t);
         ("valid"%string, valid_scalers.avg_dice v)] glob_it ] in
  let class_num := class_num cfg in
  let '(evs, r) :=
    write_class_scalars (SSL.train_scalers.class_dice t)
      (valid_scalers.class_dice v) glob_it (seq 0 (Z.to_nat class_num)) in
  match r with
  | Error e => (first ++ evs, Error e)
  | OK _ =>
      (first ++ evs ++
       [ print_summary "train" (SSL.train_scalers.loss t)
           (SSL.train_scalers.avg_dice t) (SSL.train_scalers.class_dice t);
         print_summary "valid" (valid_scalers.loss v)
           (valid_scalers.avg_dice v) (valid_scalers.class_dice v) ],
       OK tt)
  end.

Definition event_tag (e : event) : option String.string :=
  match e with
  | add_scalars tag _ _ => Some tag
  | print_summary _ _ _ _ => None
  end.

Definition event_step (e : event) : option Z :=
  match e with
  | add_scalars _ _ global_step => Some global_step
  | print_summary _ _ _ _ => None
  end.

(** The series a list of events writes to, in order. *)
Definition event_tags (evs : list event) : list String.string :=
  flat_map (fun e => match event_tag e with
                     | Some tag => [tag]
                     | None => []
                     end) evs.

(** The call of [add_scalars] for class [c] (lines 205-207). *)
Definition class_event (train valid : list R) (glob_it : Z) (c : nat)
  : event :=
  add_scalars (class_tag c)
    [("train", nth c train 0); ("valid", nth c valid 0)] glob_it.

(** Two records to report, over two classes. *)
Definition report_train : SSL.train_scalers.t :=
  {| SSL.train_scalers.loss := 3; SSL.train_scalers.loss_sup := 1;
     SSL.train_scalers.loss_unsup := 2; SSL.train_scalers.consis_w := 1;
     SSL.train_scalers.avg_dice := 1 / 2;
     SSL.train_scalers.class_dice := [1; 0] |}.

Definition report_valid (class_dice : list R) : valid_scalers.t :=
  {| valid_scalers.loss := 2; valid_scalers.avg_dice := 1;
     valid_scalers.class_dice := class_dice |}.

(** ** The command line ([ssl_em.py], lines 218-227) *)

Inductive main_effect : Type :=
| print_line (s : String.string)
| exit
| run_agent (stage cfg_file : String.string).

(** [sys.argv[i]] *)
Definition argv_at (argv : list String.string) (i : nat)
  : result String.string :=
  match nth_error argv i with
  | Some a => OK a
  | None => Error IndexError
  end.

Definition main (argv : list String.string) : result (list main_effect) :=
  if (length argv <? 3)%nat then
    OK [ print_line "Number of arguments should be 3. e.g.";
         print_line "   pymic_net_run train config.cfg";
         exit ]
  else
    stage <- argv_at argv 1 ;;
    cfg_file <- argv_at argv 2 ;;
    OK [ run_agent stage cfg_file ].

Close Scope string_scope.

(** ** Positions in a cyclic stream *)

(** The iterator [c] of a loader whose iterators all yield [m] batches stands
    at offset [r] of the [q]-th iterator: [r] batches of it are consumed. *)
Definition at_pos {B : Type} (ld : Loader B) (m : nat) (c : Cursor B)
    (q r : nat) : Prop :=
  pending c = skipn r (ld q) /\ made c = S q /\ (r <= m)%nat.

(** * Properties *)

(** ** The ramp-up scheduler *)

Lemma np_clip_bounds (x len : Z) :
  (0 <= len)%Z -> (0 <= np_clip x 0 len <= len)%Z.
Proof. unfold np_clip. lia. Qed.

Lemma np_clip_id (x len : Z) :
  (0 <= x <= len)%Z -> np_clip x 0 len = x.
Proof. unfold np_clip. lia. Qed.

Lemma np_clip_mono (x y len : Z) :
  (x <= y)%Z -> (np_clip x 0 len <= np_clip y 0 len)%Z.
Proof. unfold np_clip. lia. Qed.

Lemma rampup_unfold (w0 : R) (s len : Z) :
  (0 < len)%Z ->
  get_consistency_weight_with_rampup w0 s (Some len)
  = rampup_curve w0 (np_clip s 0 len) len.
Proof.
  intros Hlen. unfold get_consistency_weight_with_rampup, rampup_curve.
  destruct (Z.eqb_spec len 0) as [E | _]; [lia |].
  cbv zeta. f_equal. f_equal. unfold Rdiv. ring.
Qed.

Lemma rampup_curve_mono (w0 : R) (a b len : Z) :
  0 <= w0 -> (0 < len)%Z -> (0 <= a <= b)%Z -> (b <= len)%Z ->
  rampup_curve w0 a len <= rampup_curve w0 b len.
Proof.
  intros Hw Hlen [Ha Hab] Hb. unfold rampup_curve.
  apply Rmult_le_compat_l; [exact Hw |].
  assert (HL : 0 < IZR len) by (apply IZR_lt; exact Hlen).
  assert (Ha' : 0 <= IZR a) by (apply IZR_le; exact Ha).
  assert (Hab' : IZR a <= IZR b) by (apply IZR_le; exact Hab).
  assert (Hb' : IZR b <= IZR len) by (apply IZR_le; exact Hb).
  set (pa := 1 - IZR a / IZR len).
  set (pb := 1 - IZR b / IZR len).
  assert (Hdiv : IZR a / IZR len <= IZR b / IZR len).
  { unfold Rdiv. apply Rmult_le_compat_r; [| exact Hab'].
    left. apply Rinv_0_lt_compat. exact HL. }
  assert (Hb1 : IZR b / IZR len <= 1).
  { apply Rmult_le_reg_r with (r := IZR len); [exact HL |].
    unfold Rdiv. rewrite Rmult_assoc, Rinv_l by lra. lra. }
  assert (Hpb : 0 <= pb) by (unfold pb; lra).
  assert (Hpab : pb <= pa) by (unfold pa, pb; lra).
  assert (Hsq : pb ^ 2 <= pa ^ 2) by nra.
  destruct (Rle_lt_or_eq_dec _ _ Hsq) as [Hlt | Heq].
  - left. apply exp_increasing. lra.
  - right. f_equal. lra.
Qed.

(** C5.  For a nonnegative base weight and a positive ramp length the ramp-up
    weight is non-decreasing in the step (on [0, ramp_length], and in fact
    everywhere, because the step is clamped), equals the base at
    [step = ramp_length], equals [base * exp(-5)] at [step = 0], equals
    [base * exp (-5 * (1 - step/ramp_length)^2)] in between, and is computed
    from the step clamped to [0, ramp_length]; with a ramp length of [None] or
    zero it returns the base unchanged for every step. *)
Theorem rampup_weight_profile (w0 : R) (len : Z)
    (Hw : 0 <= w0) (Hlen : (0 < len)%Z) :
  (forall s1 s2 : Z, (0 <= s1)%Z -> (s1 <= s2)%Z -> (s2 <= len)%Z ->
     get_consistency_weight_with_rampup w0 s1 (Some len)
     <= get_consistency_weight_with_rampup w0 s2 (Some len)) /\
  (forall s1 s2 : Z, (s1 <= s2)%Z ->
     get_consistency_weight_with_rampup w0 s1 (Some len)
     <= get_consistency_weight_with_rampup w0 s2 (Some len)) /\
  get_consistency_weight_with_rampup w0 len (Some len) = w0 /\
  get_consistency_weight_with_rampup w0 0 (Some len) = w0 * exp (-5) /\
  (forall s : Z, (0 <= s <= len)%Z ->
     get_consistency_weight_with_rampup w0 s (Some len)
     = w0 * exp (-5 * (1 - IZR s / IZR len) ^ 2)) /\
  (forall s : Z,
     get_consistency_weight_with_rampup w0 s (Some len)
     = rampup_curve w0 (Z.min (Z.max s 0) len) len) /\
  (forall (b : R) (s : Z),
     get_consistency_weight_with_rampup b s None = b /\
     get_consistency_weight_with_rampup b s (Some 0%Z) = b).
Proof.
  assert (HL : IZR len <> 0) by (apply not_0_IZR; lia).
  assert (Hmono : forall s1 s2 : Z, (s1 <= s2)%Z ->
     get_consistency_weight_with_rampup w0 s1 (Some len)
     <= get_consistency_weight_with_rampup w0 s2 (Some len)).
  { intros s1 s2 Hs. rewrite !rampup_unfold by exact Hlen.
    pose proof (np_clip_bounds s1 len ltac:(lia)) as B1.
    pose proof (np_clip_bounds s2 len ltac:(lia)) as B2.
    pose proof (np_clip_mono s1 s2 len Hs) as M.
    apply rampup_curve_mono; [exact Hw | exact Hlen | lia | lia]. }
  split; [| split; [| split; [| split; [| split; [| split]]]]].
  - intros s1 s2 _ Hs _. apply Hmono. exact Hs.
  - exact Hmono.
  - rewrite rampup_unfold, np_clip_id by lia. unfold rampup_curve.
    replace (-5 * (1 - IZR len / IZR len) ^ 2) with 0 by (field; exact HL).
    rewrite exp_0. ring.
  - rewrite rampup_unfold, np_clip_id by lia. unfold rampup_curve.
    f_equal. f_equal. field. exact HL.
  - intros s Hs. rewrite rampup_unfold, np_clip_id by lia. reflexivity.
  - intros s. rewrite rampup_unfold by exact Hlen. reflexivity.
  - intros b s. split; reflexivity.
Qed.

Lemma rampup_weight_profile_witness :
  get_consistency_weight_with_rampup 1 10 (Some 10%Z) = 1 /\
  get_consistency_weight_with_rampup 1 0 (Some 10%Z) = 1 * exp (-5) /\
  get_consistency_weight_with_rampup 1 3 (Some 10%Z)
  <= get_consistency_weight_with_rampup 1 4 (Some 10%Z).
Proof.
  destruct (rampup_weight_profile 1 10 ltac:(lra) ltac:(lia))
    as (Hmono & _ & Hend & Hstart & _).
  split; [exact Hend | split; [exact Hstart |]].
  apply Hmono; lia.
Defined.

(** ** Iterators *)

Section Iterators.
Context {B : Type}.
Variable ld : Loader B.

Lemma next_or_restart_pending (c : Cursor B) (b : B) (rest : list B) :
  pending c = b :: rest ->
  next_or_restart ld c = OK (b, {| pending := rest; made := made c |}).
Proof. intros E. unfold next_or_restart, next. rewrite E. reflexivity. Qed.

Lemma next_or_restart_exhausted (c : Cursor B) (b : B) (rest : list B) :
  pending c = [] -> ld (made c) = b :: rest ->
  next_or_restart ld c = OK (b, {| pending := rest; made := S (made c) |}).
Proof.
  intros E F. unfold next_or_restart, next. rewrite E. cbn. rewrite F.
  reflexivity.
Qed.

(** Over an empty loader the second [next] raises inside the handler. *)
Lemma next_or_restart_empty_loader (c : Cursor B) :
  pending c = [] -> ld (made c) = [] ->
  next_or_restart ld c = Error StopIteration.
Proof.
  intros E F. unfold next_or_restart, next. rewrite E. cbn. rewrite F.
  reflexivity.
Qed.

Hypothesis ld_nonempty : forall k : nat, ld k <> [].

Lemma next_or_restart_total (c : Cursor B) :
  exists (b : B) (c' : Cursor B), next_or_restart ld c = OK (b, c').
Proof.
  destruct (pending c) as [| b rest] eqn:E.
  - destruct (ld (made c)) as [| b rest] eqn:F.
    + exfalso. exact (ld_nonempty _ F).
    + eexists. eexists. apply next_or_restart_exhausted; eassumption.
  - eexists. eexists. apply next_or_restart_pending. exact E.
Qed.

Lemma draw_total (n : nat) :
  forall c : Cursor B,
  exists (bs : list B) (c' : Cursor B),
    draw ld n c = OK (bs, c') /\ length bs = n.
Proof.
  induction n as [| n IH]; intros c.
  - exists [], c. split; reflexivity.
  - destruct (next_or_restart_total c) as (b & c1 & E).
    destruct (IH c1) as (bs & c2 & F & L).
    exists (b :: bs), c2. cbn. rewrite E. cbn. rewrite F. cbn.
    split; [reflexivity | now rewrite L].
Qed.

End Iterators.

(** ** One iteration of the semi-supervised loop *)

Section SslStep.
Context {C : Collaborators}.

Lemma ssl_step_ok (cfg : config) (s : Agent)
    (dl : Batch Img (list Lab)) (du : Batch Img unit)
    (c0 : Cursor (Batch Img (list Lab))) (c1 : Cursor (Batch Img unit))
    (e1 : Ext) (out : list Prd) :
  next_or_restart train_loader (trainIter s) = OK (dl, c0) ->
  next_or_restart train_loader_unlab (trainIter_unlab s) = OK (du, c1) ->
  net (zero_grad (ext s)) (image dl ++ image du) = (e1, Tensor out) ->
  SSL.step cfg s
  = OK ({| ext := scheduler_step (optimizer_step
              (backward e1 dl (SSL.applied_consis_w cfg (glob_it e1))));
           trainIter := c0; trainIter_unlab := c1;
           net_calls := (image dl ++ image du) :: net_calls s |},
        ssl_locals_of cfg dl du e1 out).
Proof.
  intros H0 H1 Hnet. unfold SSL.step. rewrite H0. cbn. rewrite H1. cbn.
  rewrite Hnet. cbn. unfold ssl_locals_of, dice_of.
  destruct (reshape_prediction_and_ground_truth _ _) as [ps ys].
  reflexivity.
Qed.

(** A multi-head output stops the step at [torch.tensor_split]. *)
Lemma ssl_step_heads (cfg : config) (s : Agent)
    (dl : Batch Img (list Lab)) (du : Batch Img unit)
    (c0 : Cursor (Batch Img (list Lab))) (c1 : Cursor (Batch Img unit))
    (e1 : Ext) (hs : list (list Prd)) :
  next_or_restart train_loader (trainIter s) = OK (dl, c0) ->
  next_or_restart train_loader_unlab (trainIter_unlab s) = OK (du, c1) ->
  net (zero_grad (ext s)) (image dl ++ image du) = (e1, Heads hs) ->
  SSL.step cfg s = Error TypeError.
Proof.
  intros H0 H1 Hnet. unfold SSL.step. rewrite H0. cbn. rewrite H1. cbn.
  rewrite Hnet. reflexivity.
Qed.

Lemma ssl_step_inv (cfg : config) (s s' : Agent) (l : SSL.locals) :
  SSL.step cfg s = OK (s', l) ->
  exists (e1 : Ext) (out : list Prd),
    next_or_restart train_loader (trainIter s)
      = OK (SSL.data_lab l, trainIter s') /\
    next_or_restart train_loader_unlab (trainIter_unlab s)
      = OK (SSL.data_unlab l, trainIter_unlab s') /\
    net (zero_grad (ext s)) (image (SSL.data_lab l) ++ image (SSL.data_unlab l))
      = (e1, Tensor out) /\
    l = ssl_locals_of cfg (SSL.data_lab l) (SSL.data_unlab l) e1 out /\
    ext s' = scheduler_step (optimizer_step
               (backward e1 (SSL.data_lab l)
                  (SSL.applied_consis_w cfg (glob_it e1)))) /\
    net_calls s' = SSL.inputs l :: net_calls s.
Proof.
  intros H.
  destruct (next_or_restart train_loader (trainIter s))
    as [[dl c0] | e] eqn:H0;
    [| unfold SSL.step in H; rewrite H0 in H; discriminate].
  destruct (next_or_restart train_loader_unlab (trainIter_unlab s))
    as [[du c1] | e] eqn:H1;
    [| unfold SSL.step in H; rewrite H0 in H; cbn in H; rewrite H1 in H;
       discriminate].
  destruct (net (zero_grad (ext s)) (image dl ++ image du))
    as [e1 [out | hs]] eqn:Hnet.
  - rewrite (ssl_step_ok cfg s dl du c0 c1 e1 out H0 H1 Hnet) in H.
    injection H as Hs Hl. subst s' l. cbn.
    exists e1, out. repeat split; assumption.
  - rewrite (ssl_step_heads cfg s dl du c0 c1 e1 hs H0 H1 Hnet) in H.
    discriminate.
Qed.

(** The step never lets [StopIteration] out when both loaders yield at least
    one batch per iterator. *)
Lemma ssl_step_no_stop (cfg : config) (s : Agent) :
  (forall k, train_loader k <> []) ->
  (forall k, train_loader_unlab k <> []) ->
  SSL.step cfg s <> Error StopIteration.
Proof.
  intros Hl Hu.
  destruct (next_or_restart_total train_loader Hl (trainIter s))
    as (dl & c0 & H0).
  destruct (next_or_restart_total train_loader_unlab Hu (trainIter_unlab s))
    as (du & c1 & H1).
  destruct (net (zero_grad (ext s)) (image dl ++ image du))
    as [e1 [out | hs]] eqn:Hnet.
  - rewrite (ssl_step_ok cfg s dl du c0 c1 e1 out H0 H1 Hnet). discriminate.
  - rewrite (ssl_step_heads cfg s dl du c0 c1 e1 hs H0 H1 Hnet). discriminate.
Qed.

End SslStep.

(** ** One iteration of the weakly-supervised loop *)

Section WslStep.
Context {C : Collaborators}.

Lemma wsl_step_ok (cfg : config) (s : Agent) (d : Batch Img (list Lab))
    (c0 : Cursor (Batch Img (list Lab)))
    (e1 : Ext) (o : NetOut Prd) (p : list Prd) :
  next_or_restart train_loader (trainIter s) = OK (d, c0) ->
  net (zero_grad (ext s)) (image d) = (e1, o) ->
  primary o = OK p ->
  WSL.step cfg s
  = OK ({| ext := scheduler_step (optimizer_step
              (backward e1 d (WSL.applied_regular_w cfg (glob_it e1))));
           trainIter := c0; trainIter_unlab := trainIter_unlab s;
           net_calls := image d :: net_calls s |},
        wsl_locals_of cfg d e1 o p).
Proof.
  intros H0 Hnet Hp. unfold WSL.step. rewrite H0. cbn. rewrite Hnet, Hp. cbn.
  unfold wsl_locals_of, dice_of.
  destruct (reshape_prediction_and_ground_truth _ _) as [ps ys].
  reflexivity.
Qed.

Lemma wsl_step_inv (cfg : config) (s s' : Agent) (l : WSL.locals) :
  WSL.step cfg s = OK (s', l) ->
  exists (e1 : Ext) (p : list Prd),
    next_or_restart train_loader (trainIter s)
      = OK (WSL.data l, trainIter s') /\
    net (zero_grad (ext s)) (image (WSL.data l)) = (e1, WSL.outputs l) /\
    primary (WSL.outputs l) = OK p /\
    l = wsl_locals_of cfg (WSL.data l) e1 (WSL.outputs l) p /\
    ext s' = scheduler_step (optimizer_step
               (backward e1 (WSL.data l)
                  (WSL.applied_regular_w cfg (glob_it e1)))) /\
    net_calls s' = WSL.inputs l :: net_calls s.
Proof.
  intros H.
  destruct (next_or_restart train_loader (trainIter s))
    as [[d c0] | e] eqn:H0;
    [| unfold WSL.step in H; rewrite H0 in H; discriminate].
  destruct (net (zero_grad (ext s)) (image d)) as [e1 o] eqn:Hnet.
  destruct (primary o) as [p | e] eqn:Hp.
  - rewrite (wsl_step_ok cfg s d c0 e1 o p H0 Hnet Hp) in H.
    injection H as Hs Hl. subst s' l. cbn.
    exists e1, p. repeat split; assumption.
  - unfold WSL.step in H. rewrite H0 in H. cbn in H.
    rewrite Hnet, Hp in H. discriminate.
Qed.

End WslStep.

(** ** The loops and their running sums *)

Lemma rsum_app (u v : list R) : rsum (u ++ v) = rsum u + rsum v.
Proof.
  induction u as [| x u IH].
  - change (rsum v = 0 + rsum v). ring.
  - change (x + rsum (u ++ v) = x + rsum u + rsum v). rewrite IH. ring.
Qed.

Lemma rsum_cons (x : R) (l : list R) : rsum (x :: l) = x + rsum l.
Proof. reflexivity. Qed.

Section Loops.
Context {C : Collaborators}.

Lemma ssl_run_length (cfg : config) (n : nat) :
  forall (s s' : Agent) (ls : list SSL.locals),
    SSL.run cfg n s = OK (s', ls) -> length ls = n.
Proof.
  induction n as [| n IH]; intros s s' ls H; cbn in H.
  - injection H as _ <-. reflexivity.
  - destruct (SSL.step cfg s) as [[s1 l] | e]; [| discriminate]. cbn in H.
    destruct (SSL.run cfg n s1) as [[s2 ls'] | e] eqn:E; [| discriminate].
    cbn in H. injection H as _ <-. cbn. f_equal. exact (IH _ _ _ E).
Qed.

Lemma wsl_run_length (cfg : config) (n : nat) :
  forall (s s' : Agent) (ls : list WSL.locals),
    WSL.run cfg n s = OK (s', ls) -> length ls = n.
Proof.
  induction n as [| n IH]; intros s s' ls H; cbn in H.
  - injection H as _ <-. reflexivity.
  - destruct (WSL.step cfg s) as [[s1 l] | e]; [| discriminate]. cbn in H.
    destruct (WSL.run cfg n s1) as [[s2 ls'] | e] eqn:E; [| discriminate].
    cbn in H. injection H as _ <-. cbn. f_equal. exact (IH _ _ _ E).
Qed.

(** The loop is the fold of [accumulate] over the locals of its iterations. *)
Lemma ssl_loop_run (cfg : config) (n : nat) :
  forall (s : Agent) (a : SSL.vars),
    SSL.loop cfg n s a
    = '(s', ls) <- SSL.run cfg n s ;; OK (s', fold_left SSL.accumulate ls a).
Proof.
  induction n as [| n IH]; intros s a; cbn.
  - reflexivity.
  - destruct (SSL.step cfg s) as [[s1 l] | e]; cbn; [| reflexivity].
    rewrite IH. destruct (SSL.run cfg n s1) as [[s2 ls] | e]; reflexivity.
Qed.

Lemma wsl_loop_run (cfg : config) (n : nat) :
  forall (s : Agent) (a : WSL.vars),
    WSL.loop cfg n s a
    = '(s', ls) <- WSL.run cfg n s ;; OK (s', fold_left WSL.accumulate ls a).
Proof.
  induction n as [| n IH]; intros s a; cbn.
  - reflexivity.
  - destruct (WSL.step cfg s) as [[s1 l] | e]; cbn; [| reflexivity].
    rewrite IH. destruct (WSL.run cfg n s1) as [[s2 ls] | e]; reflexivity.
Qed.

Lemma ssl_fold_accumulate (ls : list SSL.locals) :
  forall a : SSL.vars,
    let a' := fold_left SSL.accumulate ls a in
    SSL.train_loss a' = SSL.train_loss a + rsum (map SSL.loss ls) /\
    SSL.train_loss_sup a'
      = SSL.train_loss_sup a + rsum (map SSL.loss_sup ls) /\
    SSL.train_loss_unsup a'
      = SSL.train_loss_unsup a + rsum (map SSL.loss_unsup ls) /\
    SSL.train_dice_list a'
      = SSL.train_dice_list a ++ map SSL.dice_list ls /\
    SSL.live_consis_w a'
      = match rev ls with
        | [] => SSL.live_consis_w a
        | l :: _ => Some (SSL.consis_w l)
        end.
Proof.
  induction ls as [| l ls IH]; intros a.
  - cbn. rewrite app_nil_r. repeat split; ring.
  - cbn -[rsum].
    destruct (IH (SSL.accumulate a l)) as (H1 & H2 & H3 & H4 & H5).
    rewrite H1, H2, H3, H4, H5. cbn -[rsum]. rewrite !rsum_cons.
    split; [ring | split; [ring | split; [ring | split]]].
    + now rewrite <- app_assoc.
    + destruct (rev ls) as [| x xs]; reflexivity.
Qed.

Lemma wsl_fold_accumulate (ls : list WSL.locals) :
  forall a : WSL.vars,
    let a' := fold_left WSL.accumulate ls a in
    WSL.train_loss a' = WSL.train_loss a + rsum (map WSL.loss ls) /\
    WSL.train_loss_sup a'
      = WSL.train_loss_sup a + rsum (map WSL.loss_sup ls) /\
    WSL.train_loss_reg a'
      = WSL.train_loss_reg a + rsum (map WSL.loss_reg ls) /\
    WSL.train_dice_list a'
      = WSL.train_dice_list a ++ map WSL.dice_list ls /\
    WSL.live_regular_w a'
      = match rev ls with
        | [] => WSL.live_regular_w a
        | l :: _ => Some (WSL.regular_w l)
        end.
Proof.
  induction ls as [| l ls IH]; intros a.
  - cbn. rewrite app_nil_r. repeat split; ring.
  - cbn -[rsum].
    destruct (IH (WSL.accumulate a l)) as (H1 & H2 & H3 & H4 & H5).
    rewrite H1, H2, H3, H4, H5. cbn -[rsum]. rewrite !rsum_cons.
    split; [ring | split; [ring | split; [ring | split]]].
    + now rewrite <- app_assoc.
    + destruct (rev ls) as [| x xs]; reflexivity.
Qed.

End Loops.

(** ** The epoch aggregator *)

Lemma vadd_length (u v : list R) :
  length u = length v -> length (vadd u v) = length u.
Proof.
  intros E. unfold vadd. rewrite length_map, length_combine, <- E.
  apply Nat.min_id.
Qed.

Lemma vadd_nth (u : list R) :
  forall (v : list R) (k : nat),
    length u = length v -> (k < length u)%nat ->
    nth k (vadd u v) 0 = nth k u 0 + nth k v 0.
Proof.
  induction u as [| x u IH]; intros [| y v] k E Hk; cbn in *; try lia.
  destruct k as [| k]; [reflexivity |].
  apply IH; lia.
Qed.

Lemma fold_vadd (rs : list (list R)) :
  forall r : list R,
    (forall d, In d rs -> length d = length r) ->
    length (fold_left vadd rs r) = length r /\
    (forall k : nat, (k < length r)%nat ->
       nth k (fold_left vadd rs r) 0
       = nth k r 0 + rsum (map (fun d => nth k d 0) rs)).
Proof.
  induction rs as [| d rs IH]; intros r Hlen.
  - cbn. split; [reflexivity | intros k _; ring].
  - assert (Hd : length r = length d)
      by (symmetry; apply Hlen; left; reflexivity).
    assert (Hv : length (vadd r d) = length r) by (apply vadd_length; exact Hd).
    destruct (IH (vadd r d)) as [L N].
    { intros d' Hin. rewrite Hv. apply Hlen. right. exact Hin. }
    cbn [fold_left]. split; [now rewrite L |].
    intros k Hk. rewrite N by (rewrite Hv; exact Hk).
    rewrite vadd_nth by assumption.
    cbn [map]. rewrite rsum_cons. ring.
Qed.

Lemma np_mean_axis0_uniform (rows : list (list R)) (K : nat) :
  rows <> [] ->
  (forall d, In d rows -> length d = K) ->
  exists v : list R,
    np_mean_axis0 rows = OK v /\
    length v = K /\
    (forall k : nat, (k < K)%nat ->
       nth k v 0
       = rsum (map (fun d => nth k d 0) rows) / INR (length rows)).
Proof.
  intros Hne Hlen. destruct rows as [| r rs]; [congruence |].
  assert (Hr : length r = K) by (apply Hlen; left; reflexivity).
  assert (Hrs : forall d, In d rs -> length d = length r).
  { intros d Hin. rewrite Hr. apply Hlen. right. exact Hin. }
  destruct (fold_vadd rs r Hrs) as [L N].
  unfold np_mean_axis0.
  assert (Hall : forallb (fun r' => Nat.eqb (length r') (length r)) rs = true).
  { apply forallb_forall. intros d Hin. apply Nat.eqb_eq. apply Hrs.
    exact Hin. }
  rewrite Hall. eexists. split; [reflexivity |].
  split; [rewrite length_map, L; exact Hr |].
  intros k Hk.
  set (n := INR (length (r :: rs))).
  rewrite (nth_indep _ 0 ((fun x => x / n) 0))
    by (rewrite length_map, L, Hr; exact Hk).
  rewrite (map_nth (fun x => x / n)).
  rewrite N by (rewrite Hr; exact Hk).
  cbn [map]. rewrite rsum_cons. reflexivity.
Qed.

Lemma np_mean_axis0_no_stop (rows : list (list R)) :
  np_mean_axis0 rows <> Error StopIteration.
Proof.
  unfold np_mean_axis0. destruct rows as [| r rs]; [discriminate |].
  destruct (forallb _ rs); discriminate.
Qed.

Lemma py_div_ok (x : R) (n : Z) : n <> 0%Z -> py_div x n = OK (x / IZR n).
Proof.
  intros Hn. unfold py_div. destruct (Z.eqb_spec n 0); [contradiction |].
  reflexivity.
Qed.

Lemma INR_to_nat (n : Z) : (0 <= n)%Z -> INR (Z.to_nat n) = IZR n.
Proof. intros Hn. rewrite INR_IZR_INZ, Z2Nat.id by exact Hn. reflexivity. Qed.

Lemma rev_snoc_inv {A : Type} (ls : list A) :
  ls <> [] -> exists (front : list A) (l : A),
    ls = front ++ [l] /\ rev ls = l :: rev front.
Proof.
  intros Hne. destruct (exists_last Hne) as (front & l & E).
  exists front, l. split; [exact E |]. rewrite E, rev_app_distr. reflexivity.
Qed.

Section Epoch.
Context {C : Collaborators}.

Lemma ssl_training_ok (cfg : config) (K : nat)
    (s s' : Agent) (ls : list SSL.locals) :
  (0 < iter_valid cfg)%Z ->
  SSL.run cfg (Z.to_nat (iter_valid cfg)) (epoch_start s) = OK (s', ls) ->
  (forall l, In l ls -> length (SSL.dice_list l) = K) ->
  exists (r : SSL.train_scalers.t) (front : list SSL.locals) (l : SSL.locals),
    SSL.training cfg s = OK (s', r) /\
    epoch_means (iter_valid cfg) K
      (map SSL.loss ls) (map SSL.loss_sup ls) (map SSL.loss_unsup ls)
      (map SSL.dice_list ls)
      (SSL.train_scalers.loss r) (SSL.train_scalers.loss_sup r)
      (SSL.train_scalers.loss_unsup r) (SSL.train_scalers.avg_dice r)
      (SSL.train_scalers.class_dice r) /\
    ls = front ++ [l] /\
    SSL.train_scalers.consis_w r = SSL.consis_w l.
Proof.
  intros Hpos Hrun Hdice.
  pose proof (ssl_run_length _ _ _ _ _ Hrun) as Hlen.
  assert (Hne : ls <> []).
  { intros ->. cbn in Hlen. lia. }
  destruct (rev_snoc_inv ls Hne) as (front & l & Hsnoc & Hrev).
  destruct (ssl_fold_accumulate ls SSL.vars0) as (A1 & A2 & A3 & A4 & A5).
  cbn in A1, A2, A3, A4, A5. rewrite Hrev in A5.
  destruct (np_mean_axis0_uniform (map SSL.dice_list ls) K)
    as (v & Hv & HvK & Hvk).
  { intros E. apply map_eq_nil in E. contradiction. }
  { intros d Hin. apply in_map_iff in Hin. destruct Hin as (l' & <- & Hin).
    apply Hdice. exact Hin. }
  rewrite length_map, Hlen, INR_to_nat in Hvk by lia.
  unfold SSL.training. cbv zeta. rewrite ssl_loop_run.
  unfold epoch_start in Hrun. rewrite Hrun. cbn [bind].
  rewrite !py_div_ok by lia. cbn [bind].
  rewrite A4, Hv. cbn [bind]. rewrite A5. cbn [read_local bind].
  eexists. exists front, l.
  split; [reflexivity |].
  split; [| split; [exact Hsnoc | reflexivity]].
  unfold epoch_means. cbn.
  rewrite A1, A2, A3, !Rplus_0_l.
  repeat split; try reflexivity; assumption.
Qed.

Lemma wsl_training_ok (cfg : config) (K : nat)
    (s s' : Agent) (ls : list WSL.locals) :
  (0 < iter_valid cfg)%Z ->
  WSL.run cfg (Z.to_nat (iter_valid cfg)) (epoch_start s) = OK (s', ls) ->
  (forall l, In l ls -> length (WSL.dice_list l) = K) ->
  exists (r : WSL.train_scalers.t) (front : list WSL.locals) (l : WSL.locals),
    WSL.training cfg s = OK (s', r) /\
    epoch_means (iter_valid cfg) K
      (map WSL.loss ls) (map WSL.loss_sup ls) (map WSL.loss_reg ls)
      (map WSL.dice_list ls)
      (WSL.train_scalers.loss r) (WSL.train_scalers.loss_sup r)
      (WSL.train_scalers.loss_reg r) (WSL.train_scalers.avg_dice r)
      (WSL.train_scalers.class_dice r) /\
    ls = front ++ [l] /\
    WSL.train_scalers.regular_w r = WSL.regular_w l.
Proof.
  intros Hpos Hrun Hdice.
  pose proof (wsl_run_length _ _ _ _ _ Hrun) as Hlen.
  assert (Hne : ls <> []).
  { intros ->. cbn in Hlen. lia. }
  destruct (rev_snoc_inv ls Hne) as (front & l & Hsnoc & Hrev).
  destruct (wsl_fold_accumulate ls WSL.vars0) as (A1 & A2 & A3 & A4 & A5).
  cbn in A1, A2, A3, A4, A5. rewrite Hrev in A5.
  destruct (np_mean_axis0_uniform (map WSL.dice_list ls) K)
    as (v & Hv & HvK & Hvk).
  { intros E. apply map_eq_nil in E. contradiction. }
  { intros d Hin. apply in_map_iff in Hin. destruct Hin as (l' & <- & Hin).
    apply Hdice. exact Hin. }
  rewrite length_map, Hlen, INR_to_nat in Hvk by lia.
  unfold WSL.training. cbv zeta. rewrite wsl_loop_run.
  unfold epoch_start in Hrun. rewrite Hrun. cbn [bind].
  rewrite !py_div_ok by lia. cbn [bind].
  rewrite A4, Hv. cbn [bind]. rewrite A5. cbn [read_local bind].
  eexists. exists front, l.
  split; [reflexivity |].
  split; [| split; [exact Hsnoc | reflexivity]].
  unfold epoch_means. cbn.
  rewrite A1, A2, A3, !Rplus_0_l.
  repeat split; try reflexivity; assumption.
Qed.

End Epoch.

(** ** Facts about completed iterations *)

Section StepFacts.
Context {C : Collaborators}.

Lemma ssl_step_facts (cfg : config) (s s' : Agent) (l : SSL.locals) :
  SSL.step cfg s = OK (s', l) ->
  SSL.inputs l = image (SSL.data_lab l) ++ image (SSL.data_unlab l) /\
  SSL.outputs l = Tensor (SSL.p0 l ++ SSL.p1 l) /\
  SSL.loss_sup l
    = ssl_get_loss_value (SSL.data_lab l) (image (SSL.data_lab l))
        (SSL.p0 l) (label_prob (SSL.data_lab l)) /\
  SSL.loss_unsup l = EntropyLoss (SSL.outputs l) true /\
  SSL.consis_w l = SSL.applied_consis_w cfg (SSL.glob_it_read l) /\
  SSL.loss l = SSL.loss_sup l + SSL.consis_w l * SSL.loss_unsup l.
Proof.
  intros H. destruct (ssl_step_inv cfg s s' l H)
    as (e1 & out & _ & _ & _ & Hl & _ & _).
  rewrite Hl. cbn. rewrite firstn_skipn. repeat split; reflexivity.
Qed.

Lemma wsl_step_facts (cfg : config) (s s' : Agent) (l : WSL.locals) :
  WSL.step cfg s = OK (s', l) ->
  WSL.inputs l = image (WSL.data l) /\
  WSL.loss_sup l
    = wsl_get_loss_value (WSL.data l) (WSL.outputs l)
        (label_prob (WSL.data l)) /\
  WSL.loss_reg l
    = MumfordShahLoss (weakly_supervised_learning cfg)
        (WSL.outputs l) (WSL.inputs l) /\
  WSL.regular_w l = WSL.applied_regular_w cfg (WSL.glob_it_read l) /\
  WSL.loss l = WSL.loss_sup l + WSL.regular_w l * WSL.loss_reg l /\
  exists p : list Prd,
    primary (WSL.outputs l) = OK p /\
    WSL.dice_list l = dice_of cfg p (label_prob (WSL.data l)).
Proof.
  intros H. destruct (wsl_step_inv cfg s s' l H)
    as (e1 & p & _ & _ & Hp & Hl & _ & _).
  split; [rewrite Hl; reflexivity |].
  split; [rewrite Hl; reflexivity |].
  split; [rewrite Hl; reflexivity |].
  split; [rewrite Hl; reflexivity |].
  split; [rewrite Hl; reflexivity |].
  exists p. split; [exact Hp | rewrite Hl; reflexivity].
Qed.

(** Every entry of a trace is the locals of a completed step. *)
Lemma ssl_run_steps (cfg : config) (n : nat) :
  forall (s s' : Agent) (ls : list SSL.locals),
    SSL.run cfg n s = OK (s', ls) ->
    forall l, In l ls -> exists s0 s1, SSL.step cfg s0 = OK (s1, l).
Proof.
  induction n as [| n IH]; intros s s' ls H l Hin; cbn in H.
  - injection H as _ <-. contradiction.
  - destruct (SSL.step cfg s) as [[s1 l1] | e] eqn:E1; [| discriminate].
    cbn in H.
    destruct (SSL.run cfg n s1) as [[s2 ls'] | e] eqn:E2; [| discriminate].
    cbn in H. injection H as _ <-. destruct Hin as [<- | Hin].
    + exists s, s1. exact E1.
    + exact (IH _ _ _ E2 l Hin).
Qed.

Lemma wsl_run_steps (cfg : config) (n : nat) :
  forall (s s' : Agent) (ls : list WSL.locals),
    WSL.run cfg n s = OK (s', ls) ->
    forall l, In l ls -> exists s0 s1, WSL.step cfg s0 = OK (s1, l).
Proof.
  induction n as [| n IH]; intros s s' ls H l Hin; cbn in H.
  - injection H as _ <-. contradiction.
  - destruct (WSL.step cfg s) as [[s1 l1] | e] eqn:E1; [| discriminate].
    cbn in H.
    destruct (WSL.run cfg n s1) as [[s2 ls'] | e] eqn:E2; [| discriminate].
    cbn in H. injection H as _ <-. destruct Hin as [<- | Hin].
    + exists s, s1. exact E1.
    + exact (IH _ _ _ E2 l Hin).
Qed.

(** The batches of a trace are the successive pulls from the two streams. *)
Lemma ssl_run_draw (cfg : config) (n : nat) :
  forall (s s' : Agent) (ls : list SSL.locals),
    SSL.run cfg n s = OK (s', ls) ->
    draw train_loader n (trainIter s)
      = OK (map SSL.data_lab ls, trainIter s') /\
    draw train_loader_unlab n (trainIter_unlab s)
      = OK (map SSL.data_unlab ls, trainIter_unlab s').
Proof.
  induction n as [| n IH]; intros s s' ls H; cbn in H.
  - injection H as <- <-. split; reflexivity.
  - destruct (SSL.step cfg s) as [[s1 l1] | e] eqn:E1; [| discriminate].
    cbn in H.
    destruct (SSL.run cfg n s1) as [[s2 ls'] | e] eqn:E2; [| discriminate].
    cbn in H. injection H as <- <-.
    destruct (ssl_step_inv cfg s s1 l1 E1) as (e1 & out & H0 & H1 & _).
    destruct (IH _ _ _ E2) as [D0 D1].
    cbn. rewrite H0, H1. cbn. rewrite D0, D1. split; reflexivity.
Qed.

Lemma ssl_run_total (cfg : config) :
  (forall k, train_loader k <> []) ->
  (forall k, train_loader_unlab k <> []) ->
  (forall e x, exists e' t, net e x = (e', Tensor t)) ->
  forall (n : nat) (s : Agent),
  exists (s' : Agent) (ls : list SSL.locals), SSL.run cfg n s = OK (s', ls).
Proof.
  intros Hl Hu Hnet n. induction n as [| n IH]; intros s.
  - exists s, []. reflexivity.
  - destruct (next_or_restart_total train_loader Hl (trainIter s))
      as (dl & c0 & H0).
    destruct (next_or_restart_total train_loader_unlab Hu (trainIter_unlab s))
      as (du & c1 & H1).
    destruct (Hnet (zero_grad (ext s)) (image dl ++ image du))
      as (e1 & out & Hout).
    pose proof (ssl_step_ok cfg s dl du c0 c1 e1 out H0 H1 Hout) as E.
    cbn. rewrite E. cbn [bind].
    match goal with |- context [SSL.run cfg n ?s1] =>
      destruct (IH s1) as (s2 & ls & R); rewrite R end.
    eexists. eexists. reflexivity.
Qed.

Lemma ssl_loop_no_stop (cfg : config) :
  (forall k, train_loader k <> []) ->
  (forall k, train_loader_unlab k <> []) ->
  forall (n : nat) (s : Agent) (a : SSL.vars),
    SSL.loop cfg n s a <> Error StopIteration.
Proof.
  intros Hl Hu n. induction n as [| n IH]; intros s a; cbn.
  - discriminate.
  - pose proof (ssl_step_no_stop cfg s Hl Hu) as Hs.
    destruct (SSL.step cfg s) as [[s1 l] | e]; cbn.
    + apply IH.
    + intros E. apply Hs. injection E as ->. reflexivity.
Qed.

End StepFacts.

(** * The claims *)

Section Claims.
Context {C : Collaborators}.

(** C1.  In a semi-supervised training step with a labeled batch of [N0]
    samples and an unlabeled batch of [N1] samples, for a network that returns
    one tensor with a sample per input sample: the step completes; its single
    forward pass (the one entry the step adds to the log of network calls) is
    run on the concatenation of the two image tensors; the output is split at
    index [N0] into a first part of exactly [N0] samples and a second part of
    exactly [N1] samples, in the original order; the supervised loss is
    computed from the first part against the labels of the labeled batch, and
    the unsupervised loss from the output of that same pass. *)
Theorem ssl_mixed_batch_forward_split (cfg : config) (s : Agent)
    (dl : Batch Img (list Lab)) (du : Batch Img unit)
    (c0 : Cursor (Batch Img (list Lab))) (c1 : Cursor (Batch Img unit))
    (e1 : Ext) (out : list Prd) :
  let N0 := length (image dl) in
  let N1 := length (image du) in
  next_or_restart train_loader (trainIter s) = OK (dl, c0) ->
  next_or_restart train_loader_unlab (trainIter_unlab s) = OK (du, c1) ->
  net (zero_grad (ext s)) (image dl ++ image du) = (e1, Tensor out) ->
  length out = (N0 + N1)%nat ->
  exists (s' : Agent) (l : SSL.locals),
    SSL.step cfg s = OK (s', l) /\
    SSL.inputs l = image dl ++ image du /\
    length (SSL.inputs l) = (N0 + N1)%nat /\
    net_calls s' = (image dl ++ image du) :: net_calls s /\
    SSL.outputs l = Tensor out /\
    SSL.p0 l = firstn N0 out /\
    SSL.p1 l = skipn N0 out /\
    length (SSL.p0 l) = N0 /\
    length (SSL.p1 l) = N1 /\
    SSL.p0 l ++ SSL.p1 l = out /\
    (forall (i : nat) (d : Prd), (i < N0)%nat ->
       nth i (SSL.p0 l) d = nth i out d) /\
    (forall (j : nat) (d : Prd), (j < N1)%nat ->
       nth j (SSL.p1 l) d = nth (N0 + j) out d) /\
    SSL.loss_sup l
      = ssl_get_loss_value dl (image dl) (SSL.p0 l) (label_prob dl) /\
    SSL.loss_unsup l = EntropyLoss (Tensor out) true.
Proof.
  intros N0 N1 H0 H1 Hnet Hlen.
  eexists. eexists.
  split; [exact (ssl_step_ok cfg s dl du c0 c1 e1 out H0 H1 Hnet) |].
  cbn. fold N0.
  split; [reflexivity |].
  split; [rewrite length_app; reflexivity |].
  split; [reflexivity |].
  split; [reflexivity |].
  split; [reflexivity |].
  split; [reflexivity |].
  split; [rewrite length_firstn; lia |].
  split; [rewrite length_skipn; lia |].
  split; [apply firstn_skipn |].
  split.
  { intros i d Hi. rewrite nth_firstn.
    destruct (Nat.ltb_spec i N0); [reflexivity | lia]. }
  split; [intros j d _; apply nth_skipn |].
  split; reflexivity.
Qed.

(** C2.  In every semi-supervised training step that completes, the
    unsupervised loss is the entropy loss (with softmax) of the whole output
    of the forward pass on the concatenated batch, that is of the labeled part
    followed by the unlabeled part, not of the unlabeled part alone. *)
Theorem ssl_entropy_over_whole_output
    (cfg : config) (s s' : Agent) (l : SSL.locals) :
  SSL.step cfg s = OK (s', l) ->
  exists (e1 : Ext) (out : list Prd),
    net (zero_grad (ext s)) (image (SSL.data_lab l) ++ image (SSL.data_unlab l))
      = (e1, Tensor out) /\
    SSL.outputs l = Tensor out /\
    out = SSL.p0 l ++ SSL.p1 l /\
    SSL.loss_unsup l = EntropyLoss (Tensor (SSL.p0 l ++ SSL.p1 l)) true.
Proof.
  intros H.
  destruct (ssl_step_inv cfg s s' l H) as (e1 & out & _ & _ & Hnet & Hl & _).
  exists e1, out. split; [exact Hnet |].
  rewrite Hl. cbn. rewrite firstn_skipn. repeat split; reflexivity.
Qed.

(** C3.  In the semi-supervised variant the applied consistency weight is
    exactly 0 at every global step strictly below [iter_sup], whatever the
    scheduler returns, and is the ramp-up scheduler's output at every global
    step at or above [iter_sup]; the base weight [consis_w] defaults to 0.1,
    [iter_sup] to 0 and the ramp length to [iter_max].  This is the weight of
    every completed step, which combines the losses as
    [loss_sup + consis_w * loss_unsup]. *)
Theorem ssl_weight_gate (cfg : config) (g : Z) :
  let c := semi_supervised_learning cfg in
  let base := dict_get (ssl_cfg.consis_w c) (1 / 10) in
  let thr := dict_get (ssl_cfg.iter_sup c) 0%Z in
  let ramp := dict_get (ssl_cfg.ramp_up_length c) (Some (iter_max cfg)) in
  ((g < thr)%Z -> SSL.applied_consis_w cfg g = 0) /\
  ((thr <= g)%Z ->
     SSL.applied_consis_w cfg g
     = get_consistency_weight_with_rampup base g ramp) /\
  (ssl_cfg.consis_w c = None -> base = 1 / 10) /\
  (ssl_cfg.iter_sup c = None -> thr = 0%Z) /\
  (ssl_cfg.ramp_up_length c = None -> ramp = Some (iter_max cfg)) /\
  (forall (s s' : Agent) (l : SSL.locals),
     SSL.step cfg s = OK (s', l) ->
     SSL.consis_w l = SSL.applied_consis_w cfg (SSL.glob_it_read l) /\
     SSL.loss l = SSL.loss_sup l + SSL.consis_w l * SSL.loss_unsup l).
Proof.
  intros c base thr ramp.
  split.
  { intros Hg. unfold SSL.applied_consis_w. fold c. cbv zeta. fold thr.
    destruct (Z.ltb_spec g thr); [reflexivity | lia]. }
  split.
  { intros Hg. unfold SSL.applied_consis_w. fold c. cbv zeta.
    fold thr. fold base. fold ramp.
    destruct (Z.ltb_spec g thr); [lia | reflexivity]. }
  split; [intros E; unfold base; rewrite E; reflexivity |].
  split; [intros E; unfold thr; rewrite E; reflexivity |].
  split; [intros E; unfold ramp; rewrite E; reflexivity |].
  intros s s' l H.
  destruct (ssl_step_facts cfg s s' l H) as (_ & _ & _ & _ & Hw & Hloss).
  split; assumption.
Qed.

(** C4.  In the weakly-supervised variant the gate is a strict greater-than
    comparison on the global step: the applied regularization weight is
    exactly 0 at global step [iter_sup] (and at every step below); above
    [iter_sup] it is the base weight, times the ramp ratio while the step is
    below the ramp length; so at global step [iter_sup + 1] it is nonzero for
    a nonzero base weight, provided the ramp ratio is nonzero there. *)
Theorem wsl_weight_gate (cfg : config) :
  let c := weakly_supervised_learning cfg in
  let base := dict_get (wsl_cfg.regularize_w c) (1 / 10) in
  let thr := dict_get (wsl_cfg.iter_sup c) 0%Z in
  let ramp := dict_get (wsl_cfg.ramp_up_length c) (Some (iter_max cfg)) in
  WSL.applied_regular_w cfg thr = 0 /\
  (forall g : Z, (g <= thr)%Z -> WSL.applied_regular_w cfg g = 0) /\
  (forall g : Z, (thr < g)%Z ->
     WSL.applied_regular_w cfg g
     = match ramp with
       | Some len =>
           if (g <? len)%Z then base * sigmoid_rampup g len else base
       | None => base
       end) /\
  (base <> 0 ->
   (forall len : Z, ramp = Some len -> (thr + 1 < len)%Z ->
      sigmoid_rampup (thr + 1) len <> 0) ->
   WSL.applied_regular_w cfg (thr + 1) <> 0) /\
  (forall (s s' : Agent) (l : WSL.locals),
     WSL.step cfg s = OK (s', l) ->
     WSL.regular_w l = WSL.applied_regular_w cfg (WSL.glob_it_read l) /\
     WSL.loss l = WSL.loss_sup l + WSL.regular_w l * WSL.loss_reg l).
Proof.
  intros c base thr ramp.
  assert (Hle : forall g : Z, (g <= thr)%Z -> WSL.applied_regular_w cfg g = 0).
  { intros g Hg. unfold WSL.applied_regular_w. fold c. cbv zeta. fold thr.
    destruct (Z.gtb_spec g thr); [lia | reflexivity]. }
  assert (Hgt : forall g : Z, (thr < g)%Z ->
     WSL.applied_regular_w cfg g
     = match ramp with
       | Some len =>
           if (g <? len)%Z then base * sigmoid_rampup g len else base
       | None => base
       end).
  { intros g Hg. unfold WSL.applied_regular_w. fold c. cbv zeta.
    fold thr. fold base. fold ramp.
    destruct (Z.gtb_spec g thr); [reflexivity | lia]. }
  split; [apply Hle; lia |].
  split; [exact Hle |].
  split; [exact Hgt |].
  split.
  { intros Hbase Hratio. rewrite Hgt by lia.
    destruct ramp as [len |] eqn:E; [| exact Hbase].
    destruct (Z.ltb_spec (thr + 1) len) as [Hlt | _]; [| exact Hbase].
    apply Rmult_integral_contrapositive_currified; [exact Hbase |].
    apply Hratio; [reflexivity | exact Hlt]. }
  intros s s' l H.
  destruct (wsl_step_facts cfg s s' l H) as (_ & _ & _ & Hw & Hloss & _).
  split; assumption.
Qed.

End Claims.

Section EpochClaims.
Context {C : Collaborators}.

(** The forward passes of a trace, the latest first. *)
Lemma ssl_run_net_calls (cfg : config) (n : nat) :
  forall (s s' : Agent) (ls : list SSL.locals),
    SSL.run cfg n s = OK (s', ls) ->
    net_calls s' = rev (map SSL.inputs ls) ++ net_calls s.
Proof.
  induction n as [| n IH]; intros s s' ls H; cbn in H.
  - injection H as <- <-. reflexivity.
  - destruct (SSL.step cfg s) as [[sa l] | e] eqn:E1; [| discriminate].
    cbn in H.
    destruct (SSL.run cfg n sa) as [[sb ls'] | e] eqn:E2; [| discriminate].
    cbn in H. injection H as <- <-.
    destruct (ssl_step_inv cfg s sa l E1)
      as (_ & _ & _ & _ & _ & _ & _ & Hc).
    rewrite (IH _ _ _ E2), Hc. cbn. rewrite <- app_assoc. reflexivity.
Qed.

(** The input of every forward pass of a trace is the labeled batch of its
    iteration followed by the unlabeled batch of the same iteration. *)
Lemma ssl_run_inputs (cfg : config) (n : nat) :
  forall (s s' : Agent) (ls : list SSL.locals),
    SSL.run cfg n s = OK (s', ls) ->
    map SSL.inputs ls
    = map (fun p => image (fst p) ++ image (snd p))
        (combine (map SSL.data_lab ls) (map SSL.data_unlab ls)).
Proof.
  induction n as [| n IH]; intros s s' ls H; cbn in H.
  - injection H as _ <-. reflexivity.
  - destruct (SSL.step cfg s) as [[sa l] | e] eqn:E1; [| discriminate].
    cbn in H.
    destruct (SSL.run cfg n sa) as [[sb ls'] | e] eqn:E2; [| discriminate].
    cbn in H. injection H as _ <-.
    destruct (ssl_step_facts cfg s sa l E1) as (Hin & _).
    cbn. rewrite Hin, (IH _ _ _ E2). reflexivity.
Qed.

(** The Dice vectors of a trace are values of [get_classwise_dice]. *)
Lemma ssl_run_dice_length (cfg : config) (K n : nat) :
  (forall f1 f2 : Flat, length (get_classwise_dice f1 f2) = K) ->
  forall (s s' : Agent) (ls : list SSL.locals),
    SSL.run cfg n s = OK (s', ls) ->
    forall l, In l ls -> length (SSL.dice_list l) = K.
Proof.
  intros HK s s' ls Hrun l Hin.
  destruct (ssl_run_steps cfg n s s' ls Hrun l Hin) as (s0 & s1 & Hs).
  destruct (ssl_step_inv cfg s0 s1 l Hs) as (e1 & out & _ & _ & _ & Hl & _).
  rewrite Hl. cbn. unfold dice_of. apply HK.
Qed.

(** C6.  When every iterator of the labeled and of the unlabeled loader
    yields at least one batch: no [StopIteration] leaves the loop or the
    epoch, whatever the states of the two iterators and however large the
    iteration count; an exhausted iterator is replaced by a fresh one over the
    same loader, whose first batch is the one pulled; and, for a network that
    returns a tensor, the loop of [n] iterations completes, leaves the two
    iterators where [n] successive pulls from each stream leave them, has
    run its [i]-th forward pass on the [i]-th labeled batch followed by the
    [i]-th unlabeled batch of these pulls, and has appended [n] Dice vectors;
    an epoch of [iter_valid > 0] iterations then returns its record with
    [iter_valid] batches pulled from each stream. *)
Theorem ssl_streams_restart (cfg : config)
    (Hlab : forall k : nat, train_loader k <> [])
    (Hunlab : forall k : nat, train_loader_unlab k <> []) :
  (forall (n : nat) (s : Agent) (a : SSL.vars),
     SSL.loop cfg n s a <> Error StopIteration) /\
  (forall s : Agent, SSL.training cfg s <> Error StopIteration) /\
  (forall s : Agent,
     (pending (trainIter s) = [] ->
      exists b rest,
        train_loader (made (trainIter s)) = b :: rest /\
        next_or_restart train_loader (trainIter s)
        = OK (b, {| pending := rest; made := S (made (trainIter s)) |})) /\
     (pending (trainIter_unlab s) = [] ->
      exists b rest,
        train_loader_unlab (made (trainIter_unlab s)) = b :: rest /\
        next_or_restart train_loader_unlab (trainIter_unlab s)
        = OK (b, {| pending := rest;
                    made := S (made (trainIter_unlab s)) |}))) /\
  ((forall e x, exists e' t, net e x = (e', Tensor t)) ->
   (forall (n : nat) (s : Agent) (a : SSL.vars),
    exists (s' : Agent) (a' : SSL.vars)
           (bl : list (Batch Img (list Lab))) (bu : list (Batch Img unit)),
      SSL.loop cfg n s a = OK (s', a') /\
      draw train_loader n (trainIter s) = OK (bl, trainIter s') /\
      draw train_loader_unlab n (trainIter_unlab s)
        = OK (bu, trainIter_unlab s') /\
      length bl = n /\
      length bu = n /\
      net_calls s'
        = rev (map (fun p => image (fst p) ++ image (snd p))
                 (combine bl bu)) ++ net_calls s /\
      length (SSL.train_dice_list a')
        = (length (SSL.train_dice_list a) + n)%nat) /\
   (forall (K : nat) (s : Agent),
      (0 < iter_valid cfg)%Z ->
      (forall f1 f2 : Flat, length (get_classwise_dice f1 f2) = K) ->
      exists (s' : Agent) (r : SSL.train_scalers.t)
             (bl : list (Batch Img (list Lab))) (bu : list (Batch Img unit)),
        SSL.training cfg s = OK (s', r) /\
        draw train_loader (Z.to_nat (iter_valid cfg)) (trainIter s)
          = OK (bl, trainIter s') /\
        draw train_loader_unlab (Z.to_nat (iter_valid cfg))
          (trainIter_unlab s)
          = OK (bu, trainIter_unlab s') /\
        length bl = Z.to_nat (iter_valid cfg) /\
        length bu = Z.to_nat (iter_valid cfg) /\
        net_calls s'
          = rev (map (fun p => image (fst p) ++ image (snd p))
                   (combine bl bu)) ++ net_calls s)).
Proof.
  split; [exact (ssl_loop_no_stop cfg Hlab Hunlab) |].
  split.
  { intros s. unfold SSL.training. cbv zeta.
    pose proof (ssl_loop_no_stop cfg Hlab Hunlab
                  (Z.to_nat (iter_valid cfg))
                  (with_ext s (net_train (ext s))) SSL.vars0) as Hloop.
    destruct (SSL.loop cfg _ _ _) as [[s1 a] | e]; cbn [bind].
    - unfold py_div. destruct (iter_valid cfg =? 0)%Z; cbn [bind];
        [discriminate |].
      pose proof (np_mean_axis0_no_stop (SSL.train_dice_list a)) as Hm.
      destruct (np_mean_axis0 (SSL.train_dice_list a)) as [v | e];
        cbn [bind].
      + destruct (SSL.live_consis_w a); cbn [read_local bind]; discriminate.
      + intros E. apply Hm. injection E as ->. reflexivity.
    - intros E. apply Hloop. injection E as ->. reflexivity. }
  split.
  { intros s. split; intros Hp.
    - destruct (train_loader (made (trainIter s))) as [| b rest] eqn:E.
      + exfalso. exact (Hlab _ E).
      + exists b, rest. split; [reflexivity |].
        apply next_or_restart_exhausted; [exact Hp | exact E].
    - destruct (train_loader_unlab (made (trainIter_unlab s)))
        as [| b rest] eqn:E.
      + exfalso. exact (Hunlab _ E).
      + exists b, rest. split; [reflexivity |].
        apply next_or_restart_exhausted; [exact Hp | exact E]. }
  intros Hnet. split.
  - intros n s a.
    destruct (ssl_run_total cfg Hlab Hunlab Hnet n s) as (s' & ls & R).
    pose proof (ssl_run_length cfg n s s' ls R) as L.
    destruct (ssl_run_draw cfg n s s' ls R) as [D0 D1].
    destruct (ssl_fold_accumulate ls a) as (_ & _ & _ & A4 & _).
    exists s', (fold_left SSL.accumulate ls a),
      (map SSL.data_lab ls), (map SSL.data_unlab ls).
    split; [rewrite ssl_loop_run, R; reflexivity |].
    split; [exact D0 |]. split; [exact D1 |].
    split; [rewrite length_map; exact L |].
    split; [rewrite length_map; exact L |].
    split.
    + rewrite (ssl_run_net_calls cfg n s s' ls R).
      rewrite (ssl_run_inputs cfg n s s' ls R). reflexivity.
    + cbv zeta in A4. rewrite A4, length_app, length_map, L. reflexivity.
  - intros K s Hpos HK.
    destruct (ssl_run_total cfg Hlab Hunlab Hnet
                (Z.to_nat (iter_valid cfg)) (epoch_start s))
      as (s' & ls & R).
    pose proof (ssl_run_length cfg _ _ s' ls R) as L.
    destruct (ssl_run_draw cfg _ _ s' ls R) as [D0 D1].
    destruct (ssl_training_ok cfg K s s' ls Hpos R
                (ssl_run_dice_length cfg K _ HK _ _ _ R))
      as (r & _ & _ & Ht & _).
    exists s', r, (map SSL.data_lab ls), (map SSL.data_unlab ls).
    split; [exact Ht |].
    split; [exact D0 |]. split; [exact D1 |].
    split; [rewrite length_map; exact L |].
    split; [rewrite length_map; exact L |].
    rewrite (ssl_run_net_calls cfg _ _ s' ls R).
    rewrite (ssl_run_inputs cfg _ _ s' ls R). reflexivity.
Qed.

(** C7.  For an epoch of [iter_valid > 0] iterations whose steps complete with
    Dice vectors of [K = class_num] entries, in both variants: the epoch
    returns a record in which each summed scalar loss (total, supervised,
    auxiliary) is divided by [iter_valid], [class_dice] has length [K] and is
    the per-class mean of the per-step Dice vectors, and [avg_dice] is the
    mean of [class_dice]. *)
Theorem epoch_aggregation (cfg : config) :
  let n := iter_valid cfg in
  let K := Z.to_nat (class_num cfg) in
  (0 < n)%Z ->
  (forall (s s' : Agent) (ls : list SSL.locals),
     SSL.run cfg (Z.to_nat n) (epoch_start s) = OK (s', ls) ->
     (forall l, In l ls -> length (SSL.dice_list l) = K) ->
     exists r : SSL.train_scalers.t,
       SSL.training cfg s = OK (s', r) /\
       epoch_means n K
         (map SSL.loss ls) (map SSL.loss_sup ls) (map SSL.loss_unsup ls)
         (map SSL.dice_list ls)
         (SSL.train_scalers.loss r) (SSL.train_scalers.loss_sup r)
         (SSL.train_scalers.loss_unsup r) (SSL.train_scalers.avg_dice r)
         (SSL.train_scalers.class_dice r) /\
       SSL.train_scalers.avg_dice r
         = np_mean (SSL.train_scalers.class_dice r)) /\
  (forall (s s' : Agent) (ls : list WSL.locals),
     WSL.run cfg (Z.to_nat n) (epoch_start s) = OK (s', ls) ->
     (forall l, In l ls -> length (WSL.dice_list l) = K) ->
     exists r : WSL.train_scalers.t,
       WSL.training cfg s = OK (s', r) /\
       epoch_means n K
         (map WSL.loss ls) (map WSL.loss_sup ls) (map WSL.loss_reg ls)
         (map WSL.dice_list ls)
         (WSL.train_scalers.loss r) (WSL.train_scalers.loss_sup r)
         (WSL.train_scalers.loss_reg r) (WSL.train_scalers.avg_dice r)
         (WSL.train_scalers.class_dice r) /\
       WSL.train_scalers.avg_dice r
         = np_mean (WSL.train_scalers.class_dice r)).
Proof.
  intros n K Hn. split; intros s s' ls Hrun Hdice.
  - destruct (ssl_training_ok cfg K s s' ls Hn Hrun Hdice)
      as (r & front & l & Ht & Hm & _ & _).
    exists r. split; [exact Ht |]. split; [exact Hm |].
    destruct Hm as (_ & _ & _ & _ & _ & Havg). exact Havg.
  - destruct (wsl_training_ok cfg K s s' ls Hn Hrun Hdice)
      as (r & front & l & Ht & Hm & _ & _).
    exists r. split; [exact Ht |]. split; [exact Hm |].
    destruct Hm as (_ & _ & _ & _ & _ & Havg). exact Havg.
Qed.

End EpochClaims.

(** ** Raw auxiliary losses in the record *)

Section AuxLoss.
Context {C : Collaborators}.

Lemma ssl_training_sums (cfg : config) (s s' s'' : Agent)
    (ls : list SSL.locals) (r : SSL.train_scalers.t) :
  SSL.run cfg (Z.to_nat (iter_valid cfg)) (epoch_start s) = OK (s'', ls) ->
  SSL.training cfg s = OK (s', r) ->
  SSL.train_scalers.loss r = rsum (map SSL.loss ls) / IZR (iter_valid cfg) /\
  SSL.train_scalers.loss_sup r
    = rsum (map SSL.loss_sup ls) / IZR (iter_valid cfg) /\
  SSL.train_scalers.loss_unsup r
    = rsum (map SSL.loss_unsup ls) / IZR (iter_valid cfg).
Proof.
  intros Hrun Ht.
  destruct (ssl_fold_accumulate ls SSL.vars0) as (A1 & A2 & A3 & _ & _).
  cbn -[rsum] in A1, A2, A3. rewrite Rplus_0_l in A1, A2, A3.
  unfold SSL.training in Ht. cbv zeta in Ht. rewrite ssl_loop_run in Ht.
  unfold epoch_start in Hrun. rewrite Hrun in Ht. cbn [bind] in Ht.
  unfold py_div in Ht. destruct (iter_valid cfg =? 0)%Z; [discriminate |].
  cbn [bind] in Ht.
  destruct (np_mean_axis0 _) as [v | e]; [| discriminate]. cbn [bind] in Ht.
  destruct (read_local _) as [w | e]; [| discriminate]. cbn [bind] in Ht.
  injection Ht as _ <-. cbn -[rsum]. rewrite A1, A2, A3.
  repeat split; reflexivity.
Qed.

Lemma wsl_training_sums (cfg : config) (s s' s'' : Agent)
    (ls : list WSL.locals) (r : WSL.train_scalers.t) :
  WSL.run cfg (Z.to_nat (iter_valid cfg)) (epoch_start s) = OK (s'', ls) ->
  WSL.training cfg s = OK (s', r) ->
  WSL.train_scalers.loss r = rsum (map WSL.loss ls) / IZR (iter_valid cfg) /\
  WSL.train_scalers.loss_sup r
    = rsum (map WSL.loss_sup ls) / IZR (iter_valid cfg) /\
  WSL.train_scalers.loss_reg r
    = rsum (map WSL.loss_reg ls) / IZR (iter_valid cfg).
Proof.
  intros Hrun Ht.
  destruct (wsl_fold_accumulate ls WSL.vars0) as (A1 & A2 & A3 & _ & _).
  cbn -[rsum] in A1, A2, A3. rewrite Rplus_0_l in A1, A2, A3.
  unfold WSL.training in Ht. cbv zeta in Ht. rewrite wsl_loop_run in Ht.
  unfold epoch_start in Hrun. rewrite Hrun in Ht. cbn [bind] in Ht.
  unfold py_div in Ht. destruct (iter_valid cfg =? 0)%Z; [discriminate |].
  cbn [bind] in Ht.
  destruct (np_mean_axis0 _) as [v | e]; [| discriminate]. cbn [bind] in Ht.
  destruct (read_local _) as [w | e]; [| discriminate]. cbn [bind] in Ht.
  injection Ht as _ <-. cbn -[rsum]. rewrite A1, A2, A3.
  repeat split; reflexivity.
Qed.

(** The auxiliary losses of a trace are the raw values of the loss objects
    on the outputs of its forward passes. *)
Lemma ssl_run_raw_aux (cfg : config) (n : nat) (s s' : Agent)
    (ls : list SSL.locals) :
  SSL.run cfg n s = OK (s', ls) ->
  map SSL.loss_unsup ls
  = map (fun o => EntropyLoss o true) (map SSL.outputs ls) /\
  map SSL.loss ls
  = map (fun l => SSL.loss_sup l
                  + SSL.consis_w l * EntropyLoss (SSL.outputs l) true) ls.
Proof.
  intros Hrun. rewrite map_map.
  split; apply map_ext_in; intros l Hin;
    destruct (ssl_run_steps cfg _ _ _ _ Hrun l Hin) as (s0 & s1 & Hs);
    destruct (ssl_step_facts cfg s0 s1 l Hs) as (_ & _ & _ & Hu & _ & Hl).
  - exact Hu.
  - rewrite Hl, Hu. reflexivity.
Qed.

Lemma wsl_run_raw_aux (cfg : config) (n : nat) (s s' : Agent)
    (ls : list WSL.locals) :
  WSL.run cfg n s = OK (s', ls) ->
  map WSL.loss_reg ls
  = map (fun oi => MumfordShahLoss (weakly_supervised_learning cfg)
                     (fst oi) (snd oi))
      (combine (map WSL.outputs ls) (map WSL.inputs ls)) /\
  map WSL.loss ls
  = map (fun l => WSL.loss_sup l
                  + WSL.regular_w l
                    * MumfordShahLoss (weakly_supervised_learning cfg)
                        (WSL.outputs l) (WSL.inputs l)) ls.
Proof.
  intros Hrun.
  assert (Hall : forall l, In l ls ->
            WSL.loss_reg l
            = MumfordShahLoss (weakly_supervised_learning cfg)
                (WSL.outputs l) (WSL.inputs l) /\
            WSL.loss l = WSL.loss_sup l + WSL.regular_w l * WSL.loss_reg l).
  { intros l Hin.
    destruct (wsl_run_steps cfg _ _ _ _ Hrun l Hin) as (s0 & s1 & Hs).
    destruct (wsl_step_facts cfg s0 s1 l Hs) as (_ & _ & Hr & _ & Hl & _).
    split; assumption. }
  clear Hrun. split.
  - induction ls as [| l ls IH]; [reflexivity |].
    cbn. rewrite IH by (intros l' Hl'; apply Hall; right; exact Hl').
    destruct (Hall l (or_introl eq_refl)) as [Hr _]. rewrite Hr.
    reflexivity.
  - apply map_ext_in. intros l Hin. destruct (Hall l Hin) as [Hr Hl].
    rewrite Hl, Hr. reflexivity.
Qed.

Lemma rsum_map_plus {A : Type} (f g : A -> R) (ls : list A) :
  rsum (map (fun l => f l + g l) ls) = rsum (map f ls) + rsum (map g ls).
Proof.
  induction ls as [| l ls IH].
  - cbn. ring.
  - cbn [map]. rewrite !rsum_cons, IH. ring.
Qed.

(** C10, as amended.  In every completed step of both variants the auxiliary
    loss added to the running sum ([loss_unsup], [loss_reg]) is the raw value
    returned by the auxiliary loss object on the output of the forward pass;
    the weight multiplies it only inside the combined loss
    [loss_sup + weight * loss_aux], which is what the running total receives
    and what the backward pass is run for.  The auxiliary entry of the record
    an epoch returns is the plain mean of the raw values, and the total is
    the supervised entry plus the mean of the weighted values.  The weight
    schedule reaches the auxiliary entry only through the forward outputs:
    two epochs whose forward passes give the same outputs (in the
    weakly-supervised variant: on the same inputs, with loss objects that
    agree) report the same auxiliary average, whatever their weights. *)
Theorem aux_loss_reported_unweighted (cfg : config) :
  let n := iter_valid cfg in
  let K := Z.to_nat (class_num cfg) in
  (forall (s s' : Agent) (l : SSL.locals),
     SSL.step cfg s = OK (s', l) ->
     SSL.loss_unsup l = EntropyLoss (SSL.outputs l) true /\
     SSL.loss l = SSL.loss_sup l + SSL.consis_w l * SSL.loss_unsup l /\
     (exists e1 : Ext,
        ext s' = scheduler_step (optimizer_step
                   (backward e1 (SSL.data_lab l) (SSL.consis_w l)))) /\
     (forall a : SSL.vars,
        SSL.train_loss_unsup (SSL.accumulate a l)
        = SSL.train_loss_unsup a + EntropyLoss (SSL.outputs l) true /\
        SSL.train_loss (SSL.accumulate a l)
        = SSL.train_loss a
          + (SSL.loss_sup l + SSL.consis_w l * SSL.loss_unsup l))) /\
  (forall (s s' : Agent) (l : WSL.locals),
     WSL.step cfg s = OK (s', l) ->
     WSL.loss_reg l
     = MumfordShahLoss (weakly_supervised_learning cfg)
         (WSL.outputs l) (WSL.inputs l) /\
     WSL.loss l = WSL.loss_sup l + WSL.regular_w l * WSL.loss_reg l /\
     (exists e1 : Ext,
        ext s' = scheduler_step (optimizer_step
                   (backward e1 (WSL.data l) (WSL.regular_w l)))) /\
     (forall a : WSL.vars,
        WSL.train_loss_reg (WSL.accumulate a l)
        = WSL.train_loss_reg a
          + MumfordShahLoss (weakly_supervised_learning cfg)
              (WSL.outputs l) (WSL.inputs l) /\
        WSL.train_loss (WSL.accumulate a l)
        = WSL.train_loss a
          + (WSL.loss_sup l + WSL.regular_w l * WSL.loss_reg l))) /\
  ((0 < n)%Z ->
   (forall (s s' : Agent) (ls : list SSL.locals),
      SSL.run cfg (Z.to_nat n) (epoch_start s) = OK (s', ls) ->
      (forall l, In l ls -> length (SSL.dice_list l) = K) ->
      exists r : SSL.train_scalers.t,
        SSL.training cfg s = OK (s', r) /\
        SSL.train_scalers.loss_unsup r
        = rsum (map (fun l => EntropyLoss (SSL.outputs l) true) ls)
          / IZR n /\
        SSL.train_scalers.loss r
        = SSL.train_scalers.loss_sup r
          + rsum (map (fun l => SSL.consis_w l
                                * EntropyLoss (SSL.outputs l) true) ls)
            / IZR n) /\
   (forall (s s' : Agent) (ls : list WSL.locals),
      WSL.run cfg (Z.to_nat n) (epoch_start s) = OK (s', ls) ->
      (forall l, In l ls -> length (WSL.dice_list l) = K) ->
      exists r : WSL.train_scalers.t,
        WSL.training cfg s = OK (s', r) /\
        WSL.train_scalers.loss_reg r
        = rsum (map (fun l => MumfordShahLoss (weakly_supervised_learning cfg)
                                (WSL.outputs l) (WSL.inputs l)) ls)
          / IZR n /\
        WSL.train_scalers.loss r
        = WSL.train_scalers.loss_sup r
          + rsum (map (fun l =>
                         WSL.regular_w l
                         * MumfordShahLoss (weakly_supervised_learning cfg)
                             (WSL.outputs l) (WSL.inputs l)) ls)
            / IZR n) /\
   (forall (cfg' : config) (s t s' t' : Agent) (ls ls' : list SSL.locals),
      iter_valid cfg' = n ->
      SSL.run cfg (Z.to_nat n) (epoch_start s) = OK (s', ls) ->
      SSL.run cfg' (Z.to_nat n) (epoch_start t) = OK (t', ls') ->
      (forall l, In l ls -> length (SSL.dice_list l) = K) ->
      (forall l, In l ls' ->
         length (SSL.dice_list l) = Z.to_nat (class_num cfg')) ->
      map SSL.outputs ls = map SSL.outputs ls' ->
      exists r r' : SSL.train_scalers.t,
        SSL.training cfg s = OK (s', r) /\
        SSL.training cfg' t = OK (t', r') /\
        SSL.train_scalers.loss_unsup r = SSL.train_scalers.loss_unsup r') /\
   (forall (cfg' : config) (s t s' t' : Agent) (ls ls' : list WSL.locals),
      iter_valid cfg' = n ->
      WSL.run cfg (Z.to_nat n) (epoch_start s) = OK (s', ls) ->
      WSL.run cfg' (Z.to_nat n) (epoch_start t) = OK (t', ls') ->
      (forall l, In l ls -> length (WSL.dice_list l) = K) ->
      (forall l, In l ls' ->
         length (WSL.dice_list l) = Z.to_nat (class_num cfg')) ->
      map WSL.outputs ls = map WSL.outputs ls' ->
      map WSL.inputs ls = map WSL.inputs ls' ->
      (forall o x,
         MumfordShahLoss (weakly_supervised_learning cfg) o x
         = MumfordShahLoss (weakly_supervised_learning cfg') o x) ->
      exists r r' : WSL.train_scalers.t,
        WSL.training cfg s = OK (s', r) /\
        WSL.training cfg' t = OK (t', r') /\
        WSL.train_scalers.loss_reg r = WSL.train_scalers.loss_reg r')).
Proof.
  intros n K. split; [| split].
  - intros s s' l H.
    destruct (ssl_step_facts cfg s s' l H) as (_ & _ & _ & Hu & Hw & Hloss).
    destruct (ssl_step_inv cfg s s' l H)
      as (e1 & out & _ & _ & _ & Hl & He & _).
    split; [exact Hu |]. split; [exact Hloss |]. split.
    + exists e1. rewrite He. f_equal. f_equal. f_equal.
      rewrite Hl. reflexivity.
    + intros a. cbn. rewrite <- Hu, <- Hloss. split; reflexivity.
  - intros s s' l H.
    destruct (wsl_step_facts cfg s s' l H) as (_ & _ & Hr & _ & Hloss & _).
    destruct (wsl_step_inv cfg s s' l H)
      as (e1 & p & _ & _ & _ & Hl & He & _).
    split; [exact Hr |]. split; [exact Hloss |]. split.
    + exists e1. rewrite He. f_equal. f_equal. f_equal.
      rewrite Hl. reflexivity.
    + intros a. cbn. rewrite <- Hr, <- Hloss. split; reflexivity.
  - intros Hn.
    assert (Hn0 : IZR n <> 0) by (apply not_0_IZR; lia).
    split; [| split; [| split]].
    + intros s s' ls Hrun Hdice.
      destruct (ssl_training_ok cfg K s s' ls Hn Hrun Hdice)
        as (r & _ & _ & Ht & Hm & _).
      destruct Hm as (M1 & M2 & M3 & _).
      destruct (ssl_run_raw_aux cfg _ _ _ _ Hrun) as [Ru Rl].
      exists r. split; [exact Ht |]. split.
      * rewrite M3, Ru, map_map. reflexivity.
      * rewrite M1, M2, Rl, rsum_map_plus. fold n. field. exact Hn0.
    + intros s s' ls Hrun Hdice.
      destruct (wsl_training_ok cfg K s s' ls Hn Hrun Hdice)
        as (r & _ & _ & Ht & Hm & _).
      destruct Hm as (M1 & M2 & M3 & _).
      destruct (wsl_run_raw_aux cfg _ _ _ _ Hrun) as [Rr Rl].
      exists r. split; [exact Ht |]. split.
      * rewrite M3. f_equal. f_equal. apply map_ext_in. intros l Hin.
        destruct (wsl_run_steps cfg _ _ _ _ Hrun l Hin) as (s0 & s1 & Hs).
        destruct (wsl_step_facts cfg s0 s1 l Hs) as (_ & _ & Hr & _).
        exact Hr.
      * rewrite M1, M2, Rl, rsum_map_plus. fold n. field. exact Hn0.
    + intros cfg' s t s' t' ls ls' En Hrun Hrun' Hdice Hdice' Hout.
      destruct (ssl_training_ok cfg K s s' ls Hn Hrun Hdice)
        as (r & _ & _ & Ht & Hm & _).
      assert (Hn' : (0 < iter_valid cfg')%Z) by (rewrite En; exact Hn).
      rewrite <- En in Hrun'.
      destruct (ssl_training_ok cfg' _ t t' ls' Hn' Hrun' Hdice')
        as (r' & _ & _ & Ht' & Hm' & _).
      destruct Hm as (_ & _ & M3 & _). destruct Hm' as (_ & _ & M3' & _).
      destruct (ssl_run_raw_aux cfg _ _ _ _ Hrun) as [Ru _].
      destruct (ssl_run_raw_aux cfg' _ _ _ _ Hrun') as [Ru' _].
      exists r, r'. split; [exact Ht |]. split; [exact Ht' |].
      rewrite M3, M3', Ru, Ru', Hout, En. reflexivity.
    + intros cfg' s t s' t' ls ls' En Hrun Hrun' Hdice Hdice' Hout Hinp Hobj.
      destruct (wsl_training_ok cfg K s s' ls Hn Hrun Hdice)
        as (r & _ & _ & Ht & Hm & _).
      assert (Hn' : (0 < iter_valid cfg')%Z) by (rewrite En; exact Hn).
      rewrite <- En in Hrun'.
      destruct (wsl_training_ok cfg' _ t t' ls' Hn' Hrun' Hdice')
        as (r' & _ & _ & Ht' & Hm' & _).
      destruct Hm as (_ & _ & M3 & _). destruct Hm' as (_ & _ & M3' & _).
      destruct (wsl_run_raw_aux cfg _ _ _ _ Hrun) as [Rr _].
      destruct (wsl_run_raw_aux cfg' _ _ _ _ Hrun') as [Rr' _].
      exists r, r'. split; [exact Ht |]. split; [exact Ht' |].
      rewrite M3, M3', Rr, Rr', Hout, Hinp, En. f_equal. f_equal.
      apply map_ext. intros oi. apply Hobj.
Qed.

End AuxLoss.

(** * The claims on the concrete instance *)

Lemma toy_loader_nonempty (multi : bool) :
  (forall k : nat, @train_loader (toy multi) k <> []) /\
  (forall k : nat, @train_loader_unlab (toy multi) k <> []).
Proof. split; intros k; discriminate. Qed.

Lemma sigmoid_rampup_spec_pos (current rampup_length : Z) :
  0 < sigmoid_rampup_spec current rampup_length.
Proof.
  unfold sigmoid_rampup_spec, get_consistency_weight_with_rampup.
  destruct (rampup_length =? 0)%Z; [lra |].
  cbv zeta. rewrite Rmult_1_l. apply exp_pos.
Qed.

Lemma ssl_mixed_batch_forward_split_witness :
  exists (s' : @Agent (toy false)) (l : @SSL.locals (toy false)),
    SSL.step (toy_config 1 0 0) (toy_agent false 0) = OK (s', l) /\
    SSL.p0 l = [1; 2]%nat /\
    SSL.p1 l = [7]%nat /\
    net_calls s' = [[1; 2; 7]%nat].
Proof.
  destruct (@ssl_mixed_batch_forward_split (toy false)
              (toy_config 1 0 0) (toy_agent false 0)
              {| image := [1; 2]%nat; label_prob := [1; 2]%nat |}
              {| image := [7]%nat; label_prob := tt |}
              {| pending := []; made := 1 |} {| pending := []; made := 1 |}
              0%Z [1; 2; 7]%nat eq_refl eq_refl eq_refl eq_refl)
    as (s' & l & Hs & _ & _ & Hc & _ & Hp0 & Hp1 & _).
  exists s', l. repeat split; assumption.
Defined.

Lemma ssl_entropy_over_whole_output_witness :
  exists (s' : @Agent (toy false)) (l : @SSL.locals (toy false)),
    SSL.step (toy_config 1 0 0) (toy_agent false 0) = OK (s', l) /\
    SSL.loss_unsup l = INR 3 /\
    @EntropyLoss (toy false) (Tensor (SSL.p1 l)) true = INR 1.
Proof.
  eassert (Hs : @SSL.step (toy false) (toy_config 1 0 0)
                  (toy_agent false 0) = OK (_, _)) by reflexivity.
  destruct (ssl_entropy_over_whole_output _ _ _ _ Hs)
    as (e1 & out & _ & _ & _ & Hu).
  eexists. eexists. split; [exact Hs |]. split; [exact Hu | reflexivity].
Defined.

Lemma ssl_weight_gate_witness :
  SSL.applied_consis_w scenario_config 50 = 0 /\
  SSL.applied_consis_w scenario_config 100
  = get_consistency_weight_with_rampup (1 / 5) 100 (Some 1000%Z).
Proof.
  destruct (@ssl_weight_gate (toy false) scenario_config 50)
    as (Hbelow & _).
  destruct (@ssl_weight_gate (toy false) scenario_config 100)
    as (_ & Hfrom & _).
  split; [apply Hbelow | apply Hfrom]; cbn; lia.
Defined.

Lemma wsl_weight_gate_witness :
  @WSL.applied_regular_w (toy false) (toy_config 1 10 100) 10 = 0 /\
  @WSL.applied_regular_w (toy false) (toy_config 1 10 100) 11 <> 0.
Proof.
  destruct (@wsl_weight_gate (toy false) (toy_config 1 10 100))
    as (Hat & _ & _ & Hnext & _).
  split; [exact Hat |].
  apply Hnext.
  - cbn. lra.
  - intros len _ _. apply Rgt_not_eq. apply sigmoid_rampup_spec_pos.
Defined.

Lemma ssl_streams_restart_witness :
  exists (s' : @Agent (toy false)) (r : SSL.train_scalers.t),
    SSL.training (toy_config 3 0 0) (toy_agent false 0) = OK (s', r) /\
    made (trainIter s') = 3%nat /\
    made (trainIter_unlab s') = 3%nat /\
    net_calls s' = [[1; 2; 7]; [1; 2; 7]; [1; 2; 7]]%nat.
Proof.
  destruct (toy_loader_nonempty false) as [Hlab Hunlab].
  destruct (@ssl_streams_restart (toy false) (toy_config 3 0 0)
              Hlab Hunlab) as (_ & _ & _ & Hrun).
  destruct (Hrun (fun e x => ex_intro _ e (ex_intro _ x eq_refl)))
    as [_ Hepoch].
  destruct (Hepoch 2%nat (toy_agent false 0) eq_refl)
    as (s' & r & bl & bu & Ht & D0 & D1 & _ & _ & Hc).
  { intros f1 f2. cbn. destruct (same_samples f1 f2); reflexivity. }
  eassert (E0 : draw (@train_loader (toy false))
                  (Z.to_nat (iter_valid (toy_config 3 0 0)))
                  (trainIter (toy_agent false 0))
                = OK (_, {| pending := []; made := 3 |})) by reflexivity.
  eassert (E1 : draw (@train_loader_unlab (toy false))
                  (Z.to_nat (iter_valid (toy_config 3 0 0)))
                  (trainIter_unlab (toy_agent false 0))
                = OK (_, {| pending := []; made := 3 |})) by reflexivity.
  rewrite E0 in D0. rewrite E1 in D1.
  injection D0 as Hbl Hit. injection D1 as Hbu Hitu.
  exists s', r. split; [exact Ht |].
  split; [rewrite <- Hit; reflexivity |].
  split; [rewrite <- Hitu; reflexivity |].
  rewrite Hc, <- Hbl, <- Hbu. reflexivity.
Defined.

Lemma epoch_aggregation_witness :
  exists (s' : @Agent (toy false)) (r : SSL.train_scalers.t),
    SSL.training (toy_config 2 0 0) (toy_agent false 0) = OK (s', r) /\
    length (SSL.train_scalers.class_dice r) = 2%nat /\
    SSL.train_scalers.avg_dice r = np_mean (SSL.train_scalers.class_dice r).
Proof.
  eassert (Hrun : @SSL.run (toy false) (toy_config 2 0 0)
                    (Z.to_nat (iter_valid (toy_config 2 0 0)))
                    (epoch_start (toy_agent false 0)) = OK (_, _))
    by reflexivity.
  destruct (@epoch_aggregation (toy false) (toy_config 2 0 0) eq_refl)
    as [Hssl _].
  destruct (Hssl _ _ _ Hrun) as (r & Ht & Hm & Havg).
  { intros l [<- | [<- | []]]; reflexivity. }
  destruct Hm as (_ & _ & _ & Hlen & _).
  eexists. exists r. split; [exact Ht |]. split; [exact Hlen | exact Havg].
Defined.

Lemma aux_loss_reported_unweighted_witness :
  (exists (s' : @Agent (toy false)) (r : SSL.train_scalers.t),
     SSL.training (with_aux_weight (toy_config 2 0 0) 1) (toy_agent false 0)
     = OK (s', r) /\
     SSL.train_scalers.loss_unsup r = (INR 3 + (INR 3 + 0)) / 2) /\
  (exists (s' t' : @Agent (toy false)) (r r' : SSL.train_scalers.t),
     SSL.training (with_aux_weight (toy_config 2 0 0) 0) (toy_agent false 0)
     = OK (s', r) /\
     SSL.training (with_aux_weight (toy_config 2 0 0) 1) (toy_agent false 0)
     = OK (t', r') /\
     SSL.train_scalers.loss_unsup r = SSL.train_scalers.loss_unsup r').
Proof.
  eassert (Hrun0 : @SSL.run (toy false)
                     (with_aux_weight (toy_config 2 0 0) 0)
                     (Z.to_nat
                        (iter_valid (with_aux_weight (toy_config 2 0 0) 0)))
                     (epoch_start (toy_agent false 0)) = OK (_, [_; _]))
    by reflexivity.
  eassert (Hrun1 : @SSL.run (toy false)
                     (with_aux_weight (toy_config 2 0 0) 1)
                     (Z.to_nat
                        (iter_valid (with_aux_weight (toy_config 2 0 0) 0)))
                     (epoch_start (toy_agent false 0)) = OK (_, [_; _]))
    by reflexivity.
  split.
  - destruct (@aux_loss_reported_unweighted (toy false)
                (with_aux_weight (toy_config 2 0 0) 1)) as (_ & _ & Hep).
    destruct (Hep eq_refl) as (Hssl & _).
    destruct (Hssl _ _ _ Hrun1) as (r & Ht & Hu & _).
    { intros l [<- | [<- | []]]; reflexivity. }
    eexists. exists r. split; [exact Ht | exact Hu].
  - destruct (@aux_loss_reported_unweighted (toy false)
                (with_aux_weight (toy_config 2 0 0) 0)) as (_ & _ & Hep).
    destruct (Hep eq_refl) as (_ & _ & Hsame & _).
    destruct (Hsame (with_aux_weight (toy_config 2 0 0) 1)
                _ _ _ _ _ _ eq_refl Hrun0 Hrun1)
      as (r & r' & Ht & Ht' & E).
    { intros l [<- | [<- | []]]; reflexivity. }
    { intros l [<- | [<- | []]]; reflexivity. }
    { reflexivity. }
    eexists. eexists. exists r, r'.
    split; [exact Ht |]. split; [exact Ht' | exact E].
Defined.

(** C10, as stated, fails: the average is not independent of the weight.  A
    network with one parameter is trained for an epoch of two iterations from
    the same state, once with the base weight 0 and once with the base weight
    1, the global step being 1 throughout.  With the weight 0 the parameter
    stays at 2 and the reported auxiliary average is 2; with the weight 1 the
    first optimizer step moves it to 1 and the average is 3/2.  In both
    variants. *)
Lemma aux_average_depends_on_weight :
  ~ ssl_aux_average_independent_of_weight learner
      (toy_config 2 0 0) (learner_agent 1 2) /\
  ~ wsl_aux_average_independent_of_weight learner
      (toy_config 2 0 0) (learner_agent 1 2).
Proof.
  split; intros H.
  - unfold ssl_aux_average_independent_of_weight in H.
    eassert (H0 : @SSL.training learner
                    (with_aux_weight (toy_config 2 0 0) 0)
                    (learner_agent 1 2) = OK (_, _)) by reflexivity.
    eassert (H1 : @SSL.training learner
                    (with_aux_weight (toy_config 2 0 0) 1)
                    (learner_agent 1 2) = OK (_, _)) by reflexivity.
    specialize (H _ _ _ _ _ _ H0 H1).
    cbv -[Rplus Rmult Rdiv Rinv Rminus Ropp IZR exp] in H.
    lra.
  - unfold wsl_aux_average_independent_of_weight in H.
    eassert (H0 : @WSL.training learner
                    (with_aux_weight (toy_config 2 0 0) 0)
                    (learner_agent 1 2) = OK (_, _)) by reflexivity.
    eassert (H1 : @WSL.training learner
                    (with_aux_weight (toy_config 2 0 0) 1)
                    (learner_agent 1 2) = OK (_, _)) by reflexivity.
    specialize (H _ _ _ _ _ _ H0 H1).
    cbv -[Rplus Rmult Rdiv Rinv Rminus Ropp IZR exp] in H.
    lra.
Qed.

(** C8.  With a network that returns a tuple of two heads, the
    semi-supervised step does not complete: [torch.tensor_split] rejects the
    tuple with a [TypeError] before any loss or Dice is computed, and so does
    the whole epoch; the weakly-supervised step on the same network completes
    and computes the Dice from the first head. *)
Theorem multihead_step_ssl_type_error :
  @SSL.step (toy true) (toy_config 1 0 0) (toy_agent true 0)
  = Error TypeError /\
  @SSL.training (toy true) (toy_config 1 0 0) (toy_agent true 0)
  = Error TypeError /\
  exists (s' : @Agent (toy true)) (l : @WSL.locals (toy true)),
    WSL.step (toy_config 1 0 0) (toy_agent true 0) = OK (s', l) /\
    WSL.outputs l = Heads [[1; 2]%nat; [1; 2]%nat] /\
    WSL.dice_list l
    = @dice_of (toy true) (toy_config 1 0 0) [1; 2]%nat [1; 2]%nat /\
    WSL.dice_list l = [1; 1].
Proof.
  split; [reflexivity |]. split; [reflexivity |].
  eexists. eexists. split; [reflexivity |].
  split; [reflexivity |]. split; reflexivity.
Qed.

Section MultiHead.
Context {C : Collaborators}.

(** The weakly-supervised step takes the first head of a multi-head output
    for the Dice. *)
Lemma wsl_step_heads (cfg : config) (s : Agent) (d : Batch Img (list Lab))
    (c0 : Cursor (Batch Img (list Lab)))
    (e1 : Ext) (h : list Prd) (hs : list (list Prd)) :
  next_or_restart train_loader (trainIter s) = OK (d, c0) ->
  net (zero_grad (ext s)) (image d) = (e1, Heads (h :: hs)) ->
  exists (s' : Agent) (l : WSL.locals),
    WSL.step cfg s = OK (s', l) /\
    WSL.dice_list l = dice_of cfg h (label_prob d).
Proof.
  intros H0 Hnet. eexists. eexists.
  split; [exact (wsl_step_ok cfg s d c0 e1 _ h H0 Hnet eq_refl) |].
  reflexivity.
Qed.

(** In the semi-supervised step the first part of the split is a tensor, so
    its [isinstance] test never selects a head. *)
Lemma ssl_step_output_is_tensor (cfg : config) (s s' : Agent)
    (l : SSL.locals) :
  SSL.step cfg s = OK (s', l) -> exists out, SSL.outputs l = Tensor out.
Proof.
  intros H. destruct (ssl_step_facts cfg s s' l H) as (_ & Hout & _).
  eexists. exact Hout.
Qed.

End MultiHead.

(** ** The weight entry under a global step owned by the training driver *)

Lemma rsum_const (l : list R) (w : R) :
  (forall x, In x l -> x = w) -> rsum l = INR (length l) * w.
Proof.
  induction l as [| x l IH]; intros H.
  - cbn. ring.
  - rewrite rsum_cons, IH by (intros y Hy; apply H; right; exact Hy).
    rewrite (H x) by (left; reflexivity).
    cbn [length]. rewrite S_INR. ring.
Qed.

Section DriverOwnedStep.
Context {C : Collaborators}.
Hypothesis Hro : glob_it_read_only C.

(** A step reads the global step it was entered with and leaves it. *)
Lemma ssl_step_glob_it (cfg : config) (s s' : Agent) (l : SSL.locals) :
  SSL.step cfg s = OK (s', l) ->
  SSL.glob_it_read l = glob_it (ext s) /\
  glob_it (ext s') = glob_it (ext s).
Proof.
  intros H.
  destruct (ssl_step_inv cfg s s' l H)
    as (e1 & out & _ & _ & Hnet & Hl & He & _).
  assert (E1 : glob_it e1 = glob_it (ext s)).
  { destruct (Hro (zero_grad (ext s))) as (_ & _ & Hn & _).
    specialize (Hn (image (SSL.data_lab l) ++ image (SSL.data_unlab l))).
    rewrite Hnet in Hn. cbn [fst] in Hn. rewrite Hn.
    destruct (Hro (ext s)) as (_ & Hz & _). exact Hz. }
  split.
  - rewrite Hl. cbn. exact E1.
  - rewrite He.
    destruct (Hro (optimizer_step
                     (backward e1 (SSL.data_lab l)
                        (SSL.applied_consis_w cfg (glob_it e1)))))
      as (_ & _ & _ & _ & _ & Hs). rewrite Hs.
    destruct (Hro (backward e1 (SSL.data_lab l)
                     (SSL.applied_consis_w cfg (glob_it e1))))
      as (_ & _ & _ & _ & Ho & _). rewrite Ho.
    destruct (Hro e1) as (_ & _ & _ & Hb & _). rewrite Hb. exact E1.
Qed.

Lemma wsl_step_glob_it (cfg : config) (s s' : Agent) (l : WSL.locals) :
  WSL.step cfg s = OK (s', l) ->
  WSL.glob_it_read l = glob_it (ext s) /\
  glob_it (ext s') = glob_it (ext s).
Proof.
  intros H.
  destruct (wsl_step_inv cfg s s' l H)
    as (e1 & p & _ & Hnet & _ & Hl & He & _).
  assert (E1 : glob_it e1 = glob_it (ext s)).
  { destruct (Hro (zero_grad (ext s))) as (_ & _ & Hn & _).
    specialize (Hn (image (WSL.data l))).
    rewrite Hnet in Hn. cbn [fst] in Hn. rewrite Hn.
    destruct (Hro (ext s)) as (_ & Hz & _). exact Hz. }
  split.
  - rewrite Hl. cbn. exact E1.
  - rewrite He.
    destruct (Hro (optimizer_step
                     (backward e1 (WSL.data l)
                        (WSL.applied_regular_w cfg (glob_it e1)))))
      as (_ & _ & _ & _ & _ & Hs). rewrite Hs.
    destruct (Hro (backward e1 (WSL.data l)
                     (WSL.applied_regular_w cfg (glob_it e1))))
      as (_ & _ & _ & _ & Ho & _). rewrite Ho.
    destruct (Hro e1) as (_ & _ & _ & Hb & _). rewrite Hb. exact E1.
Qed.

(** Every iteration of a trace reads the global step the trace started
    with. *)
Lemma ssl_run_glob_it (cfg : config) (n : nat) :
  forall (s s' : Agent) (ls : list SSL.locals),
    SSL.run cfg n s = OK (s', ls) ->
    forall l, In l ls -> SSL.glob_it_read l = glob_it (ext s).
Proof.
  induction n as [| n IH]; intros s s' ls H l Hin; cbn in H.
  - injection H as _ <-. contradiction.
  - destruct (SSL.step cfg s) as [[s1 l1] | e] eqn:E1; [| discriminate].
    cbn in H.
    destruct (SSL.run cfg n s1) as [[s2 ls'] | e] eqn:E2; [| discriminate].
    cbn in H. injection H as _ <-.
    destruct (ssl_step_glob_it cfg s s1 l1 E1) as [Hread Hnext].
    destruct Hin as [<- | Hin]; [exact Hread |].
    rewrite (IH _ _ _ E2 l Hin). exact Hnext.
Qed.

Lemma wsl_run_glob_it (cfg : config) (n : nat) :
  forall (s s' : Agent) (ls : list WSL.locals),
    WSL.run cfg n s = OK (s', ls) ->
    forall l, In l ls -> WSL.glob_it_read l = glob_it (ext s).
Proof.
  induction n as [| n IH]; intros s s' ls H l Hin; cbn in H.
  - injection H as _ <-. contradiction.
  - destruct (WSL.step cfg s) as [[s1 l1] | e] eqn:E1; [| discriminate].
    cbn in H.
    destruct (WSL.run cfg n s1) as [[s2 ls'] | e] eqn:E2; [| discriminate].
    cbn in H. injection H as _ <-.
    destruct (wsl_step_glob_it cfg s s1 l1 E1) as [Hread Hnext].
    destruct Hin as [<- | Hin]; [exact Hread |].
    rewrite (IH _ _ _ E2 l Hin). exact Hnext.
Qed.

Lemma epoch_start_glob_it (s : Agent) :
  glob_it (ext (epoch_start s)) = glob_it (ext s).
Proof. cbn. destruct (Hro (ext s)) as (Ht & _). exact Ht. Qed.

End DriverOwnedStep.

Section EpochRecord.
Context {C : Collaborators}.


End EpochRecord.


(** * Further properties of the ramp-up scheduler and the weight gates *)

Lemma exp_nonpos_le_1 (x : R) : x <= 0 -> exp x <= 1.
Proof.
  intros Hx. rewrite <- exp_0.
  destruct (Rle_lt_or_eq_dec _ _ Hx) as [Hlt | ->].
  - left. apply exp_increasing. exact Hlt.
  - right. reflexivity.
Qed.

Lemma rampup_weight_in_range (w0 : R) (s : Z) (len : option Z) :
  0 <= w0 -> 0 <= get_consistency_weight_with_rampup w0 s len <= w0.
Proof.
  intros Hw. unfold get_consistency_weight_with_rampup.
  destruct len as [L |]; [| lra].
  destruct (L =? 0)%Z; [lra |]. cbv zeta.
  set (phase := 1 - (IZR (np_clip s 0 L) + 0) / IZR L).
  pose proof (exp_pos (-5 * phase * phase)) as Hpos.
  assert (Hle : exp (-5 * phase * phase) <= 1).
  { apply exp_nonpos_le_1. nra. }
  split; nra.
Qed.

(** X1.  For a nonnegative base weight the scheduler output lies between 0
    and the base, whatever the step and the ramp length (None, zero, positive
    or negative); over a positive ramp length it is at least
    [base * exp(-5)]. *)
Theorem rampup_weight_bounds (w0 : R) (s : Z) (len : option Z) :
  0 <= w0 ->
  0 <= get_consistency_weight_with_rampup w0 s len <= w0 /\
  (forall L : Z, len = Some L -> (0 < L)%Z ->
     w0 * exp (-5) <= get_consistency_weight_with_rampup w0 s len).
Proof.
  intros Hw. split.
  - apply rampup_weight_in_range. exact Hw.
  - intros L -> HL. rewrite rampup_unfold by exact HL.
    pose proof (np_clip_bounds s L ltac:(lia)) as B.
    replace (w0 * exp (-5)) with (rampup_curve w0 0 L).
    + apply rampup_curve_mono; [exact Hw | exact HL | lia | lia].
    + unfold rampup_curve. f_equal. f_equal. field.
      apply not_0_IZR. lia.
Qed.

Lemma rampup_weight_bounds_witness :
  0 <= get_consistency_weight_with_rampup 1 3 (Some 10%Z) <= 1 /\
  1 * exp (-5) <= get_consistency_weight_with_rampup 1 3 (Some 10%Z).
Proof.
  destruct (rampup_weight_bounds 1 3 (Some 10%Z) ltac:(lra)) as [Hb Hlow].
  split; [exact Hb |]. apply (Hlow 10%Z); [reflexivity | lia].
Defined.

(** X3.  Over a positive ramp length the scheduler is constant outside the
    ramp: the full base weight from step [ramp_length] on, and
    [base * exp(-5)] at every step up to 0. *)
Theorem rampup_weight_saturates (w0 : R) (len s : Z) :
  (0 < len)%Z ->
  ((len <= s)%Z -> get_consistency_weight_with_rampup w0 s (Some len) = w0) /\
  ((s <= 0)%Z ->
   get_consistency_weight_with_rampup w0 s (Some len) = w0 * exp (-5)).
Proof.
  intros Hlen.
  assert (HL : IZR len <> 0) by (apply not_0_IZR; lia).
  split; intros Hs; rewrite rampup_unfold by exact Hlen; unfold rampup_curve.
  - replace (np_clip s 0 len) with len by (unfold np_clip; lia).
    replace (-5 * (1 - IZR len / IZR len) ^ 2) with 0 by (field; exact HL).
    rewrite exp_0. ring.
  - replace (np_clip s 0 len) with 0%Z by (unfold np_clip; lia).
    f_equal. f_equal. field. exact HL.
Qed.

Lemma rampup_weight_saturates_witness :
  get_consistency_weight_with_rampup 2 25 (Some 10%Z) = 2 /\
  get_consistency_weight_with_rampup 2 (-4) (Some 10%Z) = 2 * exp (-5).
Proof.
  destruct (rampup_weight_saturates 2 10 25 ltac:(lia)) as [Hup _].
  destruct (rampup_weight_saturates 2 10 (-4) ltac:(lia)) as [_ Hdown].
  split; [apply Hup | apply Hdown]; lia.
Defined.

Section GateProperties.
Context {C : Collaborators}.

(** X4.  With a nonnegative base weight the weight applied by the
    semi-supervised step lies between 0 and the base at every global step, so
    the combined loss of a completed step with a nonnegative entropy term lies
    between the supervised loss and [loss_sup + base * loss_unsup]. *)
Theorem ssl_applied_weight_bounds (cfg : config) :
  let base :=
    dict_get (ssl_cfg.consis_w (semi_supervised_learning cfg)) (1 / 10) in
  0 <= base ->
  (forall g : Z, 0 <= SSL.applied_consis_w cfg g <= base) /\
  (forall (s s' : Agent) (l : SSL.locals),
     SSL.step cfg s = OK (s', l) ->
     0 <= SSL.loss_unsup l ->
     SSL.loss_sup l <= SSL.loss l <= SSL.loss_sup l + base * SSL.loss_unsup l).
Proof.
  intros base Hbase.
  assert (Hb : forall g : Z, 0 <= SSL.applied_consis_w cfg g <= base).
  { intros g. unfold SSL.applied_consis_w. cbv zeta. fold base.
    destruct (g <? _)%Z; [lra |].
    apply rampup_weight_in_range. exact Hbase. }
  split; [exact Hb |].
  intros s s' l H Hu.
  destruct (ssl_step_facts cfg s s' l H) as (_ & _ & _ & _ & Hw & Hloss).
  pose proof (Hb (SSL.glob_it_read l)) as B. rewrite <- Hw in B.
  rewrite Hloss. nra.
Qed.

(** X5.  With a positive base weight the semi-supervised weight is zero
    exactly at the global steps below [iter_sup]; with a nonzero base weight
    and a ramp ratio that is never zero, the weakly-supervised weight is zero
    exactly at the global steps up to and including [iter_sup].  At the
    global step [iter_sup] itself the first is positive and the second is
    zero. *)
Theorem gate_zero_characterisation (cfg : config) :
  let cs := semi_supervised_learning cfg in
  let cw := weakly_supervised_learning cfg in
  (0 < dict_get (ssl_cfg.consis_w cs) (1 / 10) ->
   (forall g : Z,
      SSL.applied_consis_w cfg g = 0
      <-> (g < dict_get (ssl_cfg.iter_sup cs) 0)%Z) /\
   0 < SSL.applied_consis_w cfg (dict_get (ssl_cfg.iter_sup cs) 0%Z)) /\
  (dict_get (wsl_cfg.regularize_w cw) (1 / 10) <> 0 ->
   (forall g len : Z, sigmoid_rampup g len <> 0) ->
   (forall g : Z,
      WSL.applied_regular_w cfg g = 0
      <-> (g <= dict_get (wsl_cfg.iter_sup cw) 0)%Z) /\
   WSL.applied_regular_w cfg (dict_get (wsl_cfg.iter_sup cw) 0%Z) = 0).
Proof.
  intros cs cw. split.
  - intros Hbase.
    assert (Hpos : forall g len,
              0 < get_consistency_weight_with_rampup
                    (dict_get (ssl_cfg.consis_w cs) (1 / 10)) g len).
    { intros g len. unfold get_consistency_weight_with_rampup.
      destruct len as [L |]; [| exact Hbase].
      destruct (L =? 0)%Z; [exact Hbase |]. cbv zeta.
      apply Rmult_lt_0_compat; [exact Hbase | apply exp_pos]. }
    split.
    + intros g. unfold SSL.applied_consis_w. cbv zeta. fold cs.
      destruct (Z.ltb_spec g (dict_get (ssl_cfg.iter_sup cs) 0%Z)).
      * split; [intros _; assumption | reflexivity].
      * split; [| lia]. intros E. exfalso.
        pose proof (Hpos g (dict_get (ssl_cfg.ramp_up_length cs)
                              (Some (iter_max cfg)))) as P.
        rewrite E in P. lra.
    + unfold SSL.applied_consis_w. cbv zeta. fold cs.
      rewrite Z.ltb_irrefl. apply Hpos.
  - intros Hbase Hratio.
    assert (Hiff : forall g : Z,
              WSL.applied_regular_w cfg g = 0
              <-> (g <= dict_get (wsl_cfg.iter_sup cw) 0)%Z).
    { intros g. unfold WSL.applied_regular_w. cbv zeta. fold cw.
      destruct (Z.gtb_spec g (dict_get (wsl_cfg.iter_sup cw) 0%Z)).
      - split; [| lia]. intros E. exfalso.
        destruct (dict_get (wsl_cfg.ramp_up_length cw) (Some (iter_max cfg)))
          as [len |]; [| contradiction].
        destruct (g <? len)%Z; [| contradiction].
        apply Rmult_integral in E. destruct E as [E | E];
          [contradiction | exact (Hratio g len E)].
      - split; [intros _; assumption | reflexivity]. }
    split; [exact Hiff |]. apply Hiff. lia.
Qed.

End GateProperties.

Lemma ssl_applied_weight_bounds_witness :
  0 <= SSL.applied_consis_w scenario_config 400 <= 1 / 5.
Proof.
  destruct (@ssl_applied_weight_bounds (toy false) scenario_config)
    as [Hb _].
  - cbn. lra.
  - exact (Hb 400%Z).
Defined.

Lemma gate_zero_characterisation_witness :
  0 < SSL.applied_consis_w (toy_config 1 10 100) 10 /\
  @WSL.applied_regular_w (toy false) (toy_config 1 10 100) 10 = 0.
Proof.
  destruct (@gate_zero_characterisation (toy false)
              (toy_config 1 10 100)) as [Hs Hw].
  split.
  - apply Hs. cbn. lra.
  - apply Hw.
    + cbn. lra.
    + intros g len. apply Rgt_not_eq. apply sigmoid_rampup_spec_pos.
Defined.

(** * Further properties of the training epochs *)

Section EpochInversion.
Context {C : Collaborators}.

(** What a returned record says about the trace of the epoch. *)
Lemma ssl_training_inv (cfg : config) (s s' s'' : Agent)
    (ls : list SSL.locals) (r : SSL.train_scalers.t) :
  SSL.run cfg (Z.to_nat (iter_valid cfg)) (epoch_start s) = OK (s'', ls) ->
  SSL.training cfg s = OK (s', r) ->
  s' = s'' /\
  iter_valid cfg <> 0%Z /\
  np_mean_axis0 (map SSL.dice_list ls) = OK (SSL.train_scalers.class_dice r) /\
  SSL.train_scalers.avg_dice r = np_mean (SSL.train_scalers.class_dice r) /\
  exists (front : list SSL.locals) (last : SSL.locals),
    ls = front ++ [last] /\
    SSL.train_scalers.consis_w r = SSL.consis_w last.
Proof.
  intros Hrun Ht.
  destruct (ssl_fold_accumulate ls SSL.vars0) as (_ & _ & _ & A4 & A5).
  cbn in A4, A5.
  unfold SSL.training in Ht. cbv zeta in Ht. rewrite ssl_loop_run in Ht.
  unfold epoch_start in Hrun. rewrite Hrun in Ht. cbn [bind] in Ht.
  unfold py_div in Ht.
  destruct (Z.eqb_spec (iter_valid cfg) 0) as [| Hn]; [discriminate |].
  cbn [bind] in Ht. rewrite A4 in Ht.
  destruct (np_mean_axis0 _) as [v | e]; [| discriminate]. cbn [bind] in Ht.
  rewrite A5 in Ht.
  destruct (rev ls) as [| last rfront] eqn:Hrev; [discriminate |].
  cbn [read_local bind] in Ht. injection Ht as <- <-. cbn.
  repeat split; try assumption.
  exists (rev rfront), last. split; [| reflexivity].
  rewrite <- (rev_involutive ls), Hrev. reflexivity.
Qed.

Lemma wsl_training_inv (cfg : config) (s s' s'' : Agent)
    (ls : list WSL.locals) (r : WSL.train_scalers.t) :
  WSL.run cfg (Z.to_nat (iter_valid cfg)) (epoch_start s) = OK (s'', ls) ->
  WSL.training cfg s = OK (s', r) ->
  s' = s'' /\
  iter_valid cfg <> 0%Z /\
  np_mean_axis0 (map WSL.dice_list ls) = OK (WSL.train_scalers.class_dice r) /\
  WSL.train_scalers.avg_dice r = np_mean (WSL.train_scalers.class_dice r) /\
  exists (front : list WSL.locals) (last : WSL.locals),
    ls = front ++ [last] /\
    WSL.train_scalers.regular_w r = WSL.regular_w last.
Proof.
  intros Hrun Ht.
  destruct (wsl_fold_accumulate ls WSL.vars0) as (_ & _ & _ & A4 & A5).
  cbn in A4, A5.
  unfold WSL.training in Ht. cbv zeta in Ht. rewrite wsl_loop_run in Ht.
  unfold epoch_start in Hrun. rewrite Hrun in Ht. cbn [bind] in Ht.
  unfold py_div in Ht.
  destruct (Z.eqb_spec (iter_valid cfg) 0) as [| Hn]; [discriminate |].
  cbn [bind] in Ht. rewrite A4 in Ht.
  destruct (np_mean_axis0 _) as [v | e]; [| discriminate]. cbn [bind] in Ht.
  rewrite A5 in Ht.
  destruct (rev ls) as [| last rfront] eqn:Hrev; [discriminate |].
  cbn [read_local bind] in Ht. injection Ht as <- <-. cbn.
  repeat split; try assumption.
  exists (rev rfront), last. split; [| reflexivity].
  rewrite <- (rev_involutive ls), Hrev. reflexivity.
Qed.

(** A returned record comes with the trace of a completed loop. *)
Lemma ssl_training_run (cfg : config) (s s' : Agent)
    (r : SSL.train_scalers.t) :
  SSL.training cfg s = OK (s', r) ->
  exists ls : list SSL.locals,
    SSL.run cfg (Z.to_nat (iter_valid cfg)) (epoch_start s) = OK (s', ls).
Proof.
  intros Ht.
  destruct (SSL.run cfg (Z.to_nat (iter_valid cfg)) (epoch_start s))
    as [[s'' ls] | e] eqn:Hrun.
  - destruct (ssl_training_inv cfg s s' s'' ls r Hrun Ht) as (-> & _).
    exists ls. reflexivity.
  - unfold SSL.training in Ht. cbv zeta in Ht. rewrite ssl_loop_run in Ht.
    unfold epoch_start in Hrun. rewrite Hrun in Ht. discriminate.
Qed.

Lemma wsl_training_run (cfg : config) (s s' : Agent)
    (r : WSL.train_scalers.t) :
  WSL.training cfg s = OK (s', r) ->
  exists ls : list WSL.locals,
    WSL.run cfg (Z.to_nat (iter_valid cfg)) (epoch_start s) = OK (s', ls).
Proof.
  intros Ht.
  destruct (WSL.run cfg (Z.to_nat (iter_valid cfg)) (epoch_start s))
    as [[s'' ls] | e] eqn:Hrun.
  - destruct (wsl_training_inv cfg s s' s'' ls r Hrun Ht) as (-> & _).
    exists ls. reflexivity.
  - unfold WSL.training in Ht. cbv zeta in Ht. rewrite wsl_loop_run in Ht.
    unfold epoch_start in Hrun. rewrite Hrun in Ht. discriminate.
Qed.

(** Splitting a loop after [k] iterations. *)
Lemma ssl_run_app (cfg : config) (k m : nat) :
  forall s : Agent,
    SSL.run cfg (k + m) s
    = '(s1, l1) <- SSL.run cfg k s ;;
      '(s2, l2) <- SSL.run cfg m s1 ;;
      OK (s2, l1 ++ l2).
Proof.
  induction k as [| k IH]; intros s.
  - cbn. destruct (SSL.run cfg m s) as [[s2 l2] | e]; reflexivity.
  - cbn. destruct (SSL.step cfg s) as [[s1 l] | e]; cbn; [| reflexivity].
    rewrite IH. destruct (SSL.run cfg k s1) as [[s2 l1] | e]; cbn;
      [| reflexivity].
    destruct (SSL.run cfg m s2) as [[s3 l2] | e]; reflexivity.
Qed.

Lemma wsl_run_app (cfg : config) (k m : nat) :
  forall s : Agent,
    WSL.run cfg (k + m) s
    = '(s1, l1) <- WSL.run cfg k s ;;
      '(s2, l2) <- WSL.run cfg m s1 ;;
      OK (s2, l1 ++ l2).
Proof.
  induction k as [| k IH]; intros s.
  - cbn. destruct (WSL.run cfg m s) as [[s2 l2] | e]; reflexivity.
  - cbn. destruct (WSL.step cfg s) as [[s1 l] | e]; cbn; [| reflexivity].
    rewrite IH. destruct (WSL.run cfg k s1) as [[s2 l1] | e]; cbn;
      [| reflexivity].
    destruct (WSL.run cfg m s2) as [[s3 l2] | e]; reflexivity.
Qed.

End EpochInversion.

Section EpochEdges.
Context {C : Collaborators}.

(** X6.  An epoch configured with [iter_valid = 0] raises
    [ZeroDivisionError] at the first average, and one with a negative
    [iter_valid] raises [UnboundLocalError] when it reads the weight variable
    that only the loop body assigns; in both variants and from every agent
    state, so that no record is returned unless [iter_valid] is positive. *)
Theorem training_without_iterations (cfg : config) (s : Agent) :
  (iter_valid cfg = 0%Z ->
   SSL.training cfg s = Error ZeroDivisionError /\
   WSL.training cfg s = Error ZeroDivisionError) /\
  ((iter_valid cfg < 0)%Z ->
   SSL.training cfg s = Error UnboundLocalError /\
   WSL.training cfg s = Error UnboundLocalError) /\
  (forall s' r, SSL.training cfg s = OK (s', r) -> (0 < iter_valid cfg)%Z) /\
  (forall s' r, WSL.training cfg s = OK (s', r) -> (0 < iter_valid cfg)%Z).
Proof.
  assert (H0 : iter_valid cfg = 0%Z ->
     SSL.training cfg s = Error ZeroDivisionError /\
     WSL.training cfg s = Error ZeroDivisionError).
  { intros E. unfold SSL.training, WSL.training. rewrite E.
    split; reflexivity. }
  assert (Hneg : (iter_valid cfg < 0)%Z ->
     SSL.training cfg s = Error UnboundLocalError /\
     WSL.training cfg s = Error UnboundLocalError).
  { intros E. unfold SSL.training, WSL.training. cbv zeta.
    replace (Z.to_nat (iter_valid cfg)) with 0%nat by lia.
    cbn [SSL.loop WSL.loop bind].
    unfold py_div.
    destruct (Z.eqb_spec (iter_valid cfg) 0) as [E0 | _]; [lia |].
    split; reflexivity. }
  split; [exact H0 |]. split; [exact Hneg |].
  split; intros s' r Ht.
  - destruct (Z.lt_trichotomy (iter_valid cfg) 0) as [E | [E | E]];
      [| | exact E].
    + destruct (Hneg E) as [E1 _]. rewrite E1 in Ht. discriminate.
    + destruct (H0 E) as [E1 _]. rewrite E1 in Ht. discriminate.
  - destruct (Z.lt_trichotomy (iter_valid cfg) 0) as [E | [E | E]];
      [| | exact E].
    + destruct (Hneg E) as [_ E1]. rewrite E1 in Ht. discriminate.
    + destruct (H0 E) as [_ E1]. rewrite E1 in Ht. discriminate.
Qed.

(** X7.  A step that raises aborts the epoch with the same exception: when
    the first [k] iterations complete and iteration [k] of the [iter_valid]
    raises [e], the epoch raises [e]; no step is skipped or retried and no
    record is returned.  In both variants. *)
Theorem step_error_aborts_epoch (cfg : config) (k : nat) (e : exn) :
  (k < Z.to_nat (iter_valid cfg))%nat ->
  (forall (s sk : Agent) (ls : list SSL.locals),
     SSL.run cfg k (epoch_start s) = OK (sk, ls) ->
     SSL.step cfg sk = Error e ->
     SSL.training cfg s = Error e) /\
  (forall (s sk : Agent) (ls : list WSL.locals),
     WSL.run cfg k (epoch_start s) = OK (sk, ls) ->
     WSL.step cfg sk = Error e ->
     WSL.training cfg s = Error e).
Proof.
  intros Hk.
  assert (En : Z.to_nat (iter_valid cfg)
               = (k + S (Z.to_nat (iter_valid cfg) - S k))%nat) by lia.
  split; intros s sk ls Hrun Hstep.
  - unfold SSL.training. cbv zeta. rewrite ssl_loop_run, En, ssl_run_app.
    unfold epoch_start in Hrun. rewrite Hrun. cbn. rewrite Hstep.
    reflexivity.
  - unfold WSL.training. cbv zeta. rewrite wsl_loop_run, En, wsl_run_app.
    unfold epoch_start in Hrun. rewrite Hrun. cbn. rewrite Hstep.
    reflexivity.
Qed.

(** Splitting [k + m] pulls from a stream after [k]. *)
Lemma draw_app {B : Type} (ld : Loader B) (k m : nat) :
  forall c : Cursor B,
    draw ld (k + m) c
    = '(b1, c1) <- draw ld k c ;;
      '(b2, c2) <- draw ld m c1 ;;
      OK (b1 ++ b2, c2).
Proof.
  induction k as [| k IH]; intros c.
  - cbn. destruct (draw ld m c) as [[b2 c2] | e]; reflexivity.
  - cbn. destruct (next_or_restart ld c) as [[b c1] | e]; cbn;
      [| reflexivity].
    rewrite IH. destruct (draw ld k c1) as [[bs c2] | e]; cbn;
      [| reflexivity].
    destruct (draw ld m c2) as [[b2 c3] | e]; reflexivity.
Qed.

(** The weakly-supervised step leaves the unlabeled iterator alone. *)
Lemma wsl_step_unlab (cfg : config) (s s' : Agent) (l : WSL.locals) :
  WSL.step cfg s = OK (s', l) -> trainIter_unlab s' = trainIter_unlab s.
Proof.
  intros H.
  destruct (next_or_restart train_loader (trainIter s))
    as [[d c0] | e] eqn:H0;
    [| unfold WSL.step in H; rewrite H0 in H; discriminate].
  destruct (net (zero_grad (ext s)) (image d)) as [e1 o] eqn:Hnet.
  destruct (primary o) as [p | e] eqn:Hp.
  - rewrite (wsl_step_ok cfg s d c0 e1 o p H0 Hnet Hp) in H.
    injection H as <- _. reflexivity.
  - unfold WSL.step in H. rewrite H0 in H. cbn in H.
    rewrite Hnet, Hp in H. discriminate.
Qed.

Lemma wsl_run_draw (cfg : config) (n : nat) :
  forall (s s' : Agent) (ls : list WSL.locals),
    WSL.run cfg n s = OK (s', ls) ->
    draw train_loader n (trainIter s) = OK (map WSL.data ls, trainIter s') /\
    trainIter_unlab s' = trainIter_unlab s.
Proof.
  induction n as [| n IH]; intros s s' ls H; cbn in H.
  - injection H as <- <-. split; reflexivity.
  - destruct (WSL.step cfg s) as [[s1 l1] | e] eqn:E1; [| discriminate].
    cbn in H.
    destruct (WSL.run cfg n s1) as [[s2 ls'] | e] eqn:E2; [| discriminate].
    cbn in H. injection H as <- <-.
    destruct (wsl_step_inv cfg s s1 l1 E1) as (e1 & p & H0 & _).
    destruct (IH _ _ _ E2) as [D0 U].
    cbn. rewrite H0. cbn. rewrite D0.
    split; [reflexivity |].
    rewrite U. exact (wsl_step_unlab cfg s s1 l1 E1).
Qed.

(** X8.  Successive epochs continue the data streams.  The iterators live on
    the agent, and [training] makes a new one only where one is exhausted:
    when an epoch of [n] iterations has returned and the next epoch, of [m]
    iterations, is run from the state it left, whatever the driver did to
    the collaborator state in between, the batches of the two epochs are the
    [n + m] successive pulls from each stream as the first epoch found it,
    the first [n] of them being those of the first epoch.  The
    weakly-supervised epochs pull from the labeled stream only and never move
    the unlabeled iterator. *)
Theorem epochs_continue_streams (cfg cfg' : config) (e : Ext) :
  let n := Z.to_nat (iter_valid cfg) in
  let m := Z.to_nat (iter_valid cfg') in
  (forall (s s1 s2 : Agent) (r1 r2 : SSL.train_scalers.t),
     SSL.training cfg s = OK (s1, r1) ->
     SSL.training cfg' (with_ext s1 e) = OK (s2, r2) ->
     exists (bl1 bl2 : list (Batch Img (list Lab)))
            (bu1 bu2 : list (Batch Img unit)),
       draw train_loader n (trainIter s) = OK (bl1, trainIter s1) /\
       draw train_loader_unlab n (trainIter_unlab s)
         = OK (bu1, trainIter_unlab s1) /\
       draw train_loader (n + m) (trainIter s)
         = OK (bl1 ++ bl2, trainIter s2) /\
       draw train_loader_unlab (n + m) (trainIter_unlab s)
         = OK (bu1 ++ bu2, trainIter_unlab s2) /\
       length bl1 = n /\ length bu1 = n /\
       length bl2 = m /\ length bu2 = m) /\
  (forall (s s1 s2 : Agent) (r1 r2 : WSL.train_scalers.t),
     WSL.training cfg s = OK (s1, r1) ->
     WSL.training cfg' (with_ext s1 e) = OK (s2, r2) ->
     exists bl1 bl2 : list (Batch Img (list Lab)),
       draw train_loader n (trainIter s) = OK (bl1, trainIter s1) /\
       draw train_loader (n + m) (trainIter s)
         = OK (bl1 ++ bl2, trainIter s2) /\
       length bl1 = n /\ length bl2 = m /\
       trainIter_unlab s2 = trainIter_unlab s).
Proof.
  intros n m. split; intros s s1 s2 r1 r2 H1 H2.
  - destruct (ssl_training_run cfg s s1 r1 H1) as (ls1 & R1).
    destruct (ssl_training_run cfg' _ s2 r2 H2) as (ls2 & R2).
    destruct (ssl_run_draw cfg _ _ _ _ R1) as [D1 U1].
    destruct (ssl_run_draw cfg' _ _ _ _ R2) as [D2 U2].
    pose proof (ssl_run_length cfg _ _ _ _ R1) as L1.
    pose proof (ssl_run_length cfg' _ _ _ _ R2) as L2.
    cbn [epoch_start with_ext trainIter trainIter_unlab] in D1, U1, D2, U2.
    exists (map SSL.data_lab ls1), (map SSL.data_lab ls2),
      (map SSL.data_unlab ls1), (map SSL.data_unlab ls2).
    split; [exact D1 |]. split; [exact U1 |].
    split; [unfold n, m; rewrite draw_app, D1; cbn [bind]; rewrite D2;
            reflexivity |].
    split; [unfold n, m; rewrite draw_app, U1; cbn [bind]; rewrite U2;
            reflexivity |].
    rewrite !length_map. repeat split; assumption.
  - destruct (wsl_training_run cfg s s1 r1 H1) as (ls1 & R1).
    destruct (wsl_training_run cfg' _ s2 r2 H2) as (ls2 & R2).
    destruct (wsl_run_draw cfg _ _ _ _ R1) as [D1 U1].
    destruct (wsl_run_draw cfg' _ _ _ _ R2) as [D2 U2].
    pose proof (wsl_run_length cfg _ _ _ _ R1) as L1.
    pose proof (wsl_run_length cfg' _ _ _ _ R2) as L2.
    cbn [epoch_start with_ext trainIter trainIter_unlab] in D1, U1, D2, U2.
    exists (map WSL.data ls1), (map WSL.data ls2).
    split; [exact D1 |].
    split; [unfold n, m; rewrite draw_app, D1; cbn [bind]; rewrite D2;
            reflexivity |].
    rewrite !length_map.
    split; [exact L1 |]. split; [exact L2 |].
    rewrite U2. exact U1.
Qed.

(** X10.  An epoch that returns has run exactly [iter_valid] forward passes,
    one per iteration and in order: the log of network calls grows by the
    inputs of the iterations, the latest first.  In both variants. *)
Theorem epoch_forward_passes (cfg : config) (s s' : Agent) :
  (forall r : SSL.train_scalers.t,
     SSL.training cfg s = OK (s', r) ->
     exists ls : list SSL.locals,
       SSL.run cfg (Z.to_nat (iter_valid cfg)) (epoch_start s)
         = OK (s', ls) /\
       net_calls s' = rev (map SSL.inputs ls) ++ net_calls s /\
       length (net_calls s')
         = (Z.to_nat (iter_valid cfg) + length (net_calls s))%nat) /\
  (forall r : WSL.train_scalers.t,
     WSL.training cfg s = OK (s', r) ->
     exists ls : list WSL.locals,
       WSL.run cfg (Z.to_nat (iter_valid cfg)) (epoch_start s)
         = OK (s', ls) /\
       net_calls s' = rev (map WSL.inputs ls) ++ net_calls s /\
       length (net_calls s')
         = (Z.to_nat (iter_valid cfg) + length (net_calls s))%nat).
Proof.
  assert (Hssl : forall (n : nat) (s0 s1 : Agent) (ls : list SSL.locals),
            SSL.run cfg n s0 = OK (s1, ls) ->
            net_calls s1 = rev (map SSL.inputs ls) ++ net_calls s0).
  { induction n as [| n IH]; intros s0 s1 ls H; cbn in H.
    - injection H as <- <-. reflexivity.
    - destruct (SSL.step cfg s0) as [[sa l] | e] eqn:E1; [| discriminate].
      cbn in H.
      destruct (SSL.run cfg n sa) as [[sb ls'] | e] eqn:E2; [| discriminate].
      cbn in H. injection H as <- <-.
      destruct (ssl_step_inv cfg s0 sa l E1)
        as (_ & _ & _ & _ & _ & _ & _ & Hc).
      rewrite (IH _ _ _ E2), Hc. cbn. rewrite <- app_assoc. reflexivity. }
  assert (Hwsl : forall (n : nat) (s0 s1 : Agent) (ls : list WSL.locals),
            WSL.run cfg n s0 = OK (s1, ls) ->
            net_calls s1 = rev (map WSL.inputs ls) ++ net_calls s0).
  { induction n as [| n IH]; intros s0 s1 ls H; cbn in H.
    - injection H as <- <-. reflexivity.
    - destruct (WSL.step cfg s0) as [[sa l] | e] eqn:E1; [| discriminate].
      cbn in H.
      destruct (WSL.run cfg n sa) as [[sb ls'] | e] eqn:E2; [| discriminate].
      cbn in H. injection H as <- <-.
      destruct (wsl_step_inv cfg s0 sa l E1)
        as (_ & _ & _ & _ & _ & _ & _ & Hc).
      rewrite (IH _ _ _ E2), Hc. cbn. rewrite <- app_assoc. reflexivity. }
  split; intros r Ht.
  - destruct (ssl_training_run cfg s s' r Ht) as (ls & Hrun).
    exists ls. split; [exact Hrun |].
    pose proof (Hssl _ _ _ _ Hrun) as E. cbn in E.
    split; [exact E |].
    rewrite E, length_app, length_rev, length_map.
    rewrite (ssl_run_length _ _ _ _ _ Hrun). reflexivity.
  - destruct (wsl_training_run cfg s s' r Ht) as (ls & Hrun).
    exists ls. split; [exact Hrun |].
    pose proof (Hwsl _ _ _ _ Hrun) as E. cbn in E.
    split; [exact E |].
    rewrite E, length_app, length_rev, length_map.
    rewrite (wsl_run_length _ _ _ _ _ Hrun). reflexivity.
Qed.

End EpochEdges.

Lemma training_without_iterations_witness :
  @SSL.training (toy false) (toy_config 0 0 0) (toy_agent false 0)
  = Error ZeroDivisionError /\
  @WSL.training (toy false) (toy_config (-3) 0 0)
    (toy_agent false 0)
  = Error UnboundLocalError.
Proof.
  destruct (@training_without_iterations (toy false)
              (toy_config 0 0 0) (toy_agent false 0))
    as (Hzero & _).
  destruct (@training_without_iterations (toy false)
              (toy_config (-3) 0 0) (toy_agent false 0))
    as (_ & Hneg & _).
  split; [apply Hzero; reflexivity | apply Hneg; reflexivity].
Defined.

Lemma step_error_aborts_epoch_witness :
  @SSL.training (toy true) (toy_config 2 0 0) (toy_agent true 0)
  = Error TypeError.
Proof.
  destruct (@step_error_aborts_epoch (toy true) (toy_config 2 0 0)
              0%nat TypeError) as [Hssl _].
  - cbn. lia.
  - apply (Hssl (toy_agent true 0)
             (epoch_start (toy_agent true 0)) []); reflexivity.
Defined.

Lemma epochs_continue_streams_witness :
  exists (s1 s2 : @Agent (toy false)) (r1 r2 : SSL.train_scalers.t)
         (bl1 bl2 : list (Batch nat (list nat))),
    SSL.training (toy_config 2 0 0) (toy_agent false 0) = OK (s1, r1) /\
    SSL.training (toy_config 3 0 0) (with_ext s1 7%Z) = OK (s2, r2) /\
    draw (@train_loader (toy false)) 5 (trainIter (toy_agent false 0))
    = OK (bl1 ++ bl2, trainIter s2) /\
    length bl1 = 2%nat /\
    length bl2 = 3%nat /\
    made (trainIter s2) = 5%nat.
Proof.
  eassert (H1 : @SSL.training (toy false) (toy_config 2 0 0)
                  (toy_agent false 0) = OK (_, _)) by reflexivity.
  match type of H1 with
  | _ = OK (?s1, _) =>
      eassert (H2 : @SSL.training (toy false) (toy_config 3 0 0)
                      (with_ext s1 7%Z) = OK (_, _)) by reflexivity
  end.
  destruct (proj1 (@epochs_continue_streams (toy false)
                     (toy_config 2 0 0) (toy_config 3 0 0) 7%Z)
              _ _ _ _ _ H1 H2)
    as (bl1 & bl2 & bu1 & bu2 & _ & _ & D & _ & L1 & _ & L2 & _).
  eexists. eexists. eexists. eexists. exists bl1, bl2.
  split; [exact H1 |]. split; [exact H2 |].
  split; [exact D |]. split; [exact L1 |]. split; [exact L2 |].
  reflexivity.
Defined.

Lemma epoch_forward_passes_witness :
  exists (s' : @Agent (toy false)) (r : SSL.train_scalers.t),
    SSL.training (toy_config 2 0 0) (toy_agent false 0) = OK (s', r) /\
    length (net_calls s') = 2%nat.
Proof.
  eassert (Ht : @SSL.training (toy false) (toy_config 2 0 0)
                  (toy_agent false 0) = OK (_, _)) by reflexivity.
  destruct (proj1 (@epoch_forward_passes (toy false)
                     (toy_config 2 0 0) _ _) _ Ht) as (ls & _ & _ & Hlen).
  eexists. eexists. split; [exact Ht | exact Hlen].
Defined.

(** ** Sums and means *)

Lemma rsum_affine {A : Type} (f g h : A -> R) (w : R) (ls : list A) :
  (forall l, In l ls -> f l = g l + w * h l) ->
  rsum (map f ls) = rsum (map g ls) + w * rsum (map h ls).
Proof.
  induction ls as [| l ls IH]; intros H.
  - cbn. ring.
  - cbn [map].
    rewrite !rsum_cons, IH by (intros x Hx; apply H; right; exact Hx).
    rewrite (H l) by (left; reflexivity). ring.
Qed.

Lemma rsum_bounds (a b : R) (l : list R) :
  (forall x, In x l -> a <= x <= b) ->
  INR (length l) * a <= rsum l <= INR (length l) * b.
Proof.
  induction l as [| x l IH]; intros H.
  - cbn. lra.
  - rewrite rsum_cons. cbn [length]. rewrite S_INR.
    pose proof (H x (or_introl eq_refl)) as Hx.
    pose proof (IH (fun y Hy => H y (or_intror Hy))) as Hl.
    lra.
Qed.

Lemma mean_bounds (a b n : R) (l : list R) :
  0 < n -> n = INR (length l) ->
  (forall x, In x l -> a <= x <= b) ->
  a <= rsum l / n <= b.
Proof.
  intros Hn En H. pose proof (rsum_bounds a b l H) as B. rewrite <- En in B.
  assert (Hi : 0 < / n) by (apply Rinv_0_lt_compat; exact Hn).
  unfold Rdiv. split.
  - apply Rmult_le_reg_r with (r := n); [exact Hn |].
    rewrite Rmult_assoc, Rinv_l by lra. lra.
  - apply Rmult_le_reg_r with (r := n); [exact Hn |].
    rewrite Rmult_assoc, Rinv_l by lra. lra.
Qed.

Lemma rsum_map_div (c : R) (v : list R) :
  rsum (map (fun x => x / c) v) = rsum v / c.
Proof.
  induction v as [| x v IH].
  - cbn. unfold Rdiv. ring.
  - cbn [map]. rewrite !rsum_cons, IH. unfold Rdiv. ring.
Qed.

Lemma rsum_vadd (u : list R) :
  forall v : list R,
    length u = length v -> rsum (vadd u v) = rsum u + rsum v.
Proof.
  induction u as [| x u IH]; intros [| y v] E; cbn in E; try discriminate.
  - change (0 = 0 + 0). ring.
  - change (vadd (x :: u) (y :: v)) with ((x + y) :: vadd u v).
    rewrite !rsum_cons, IH by lia. ring.
Qed.

Lemma rsum_fold_vadd (rs : list (list R)) :
  forall r : list R,
    (forall d, In d rs -> length d = length r) ->
    rsum (fold_left vadd rs r) = rsum r + rsum (map rsum rs).
Proof.
  induction rs as [| d rs IH]; intros r Hlen.
  - change (rsum r = rsum r + 0). ring.
  - assert (Hd : length r = length d)
      by (symmetry; apply Hlen; left; reflexivity).
    cbn [fold_left map]. rewrite rsum_cons, IH.
    + rewrite rsum_vadd by exact Hd. ring.
    + intros d' Hin. rewrite vadd_length by exact Hd. apply Hlen.
      right. exact Hin.
Qed.

(** The entries of the axis-wise mean add up to the mean of the row sums. *)
Lemma np_mean_axis0_rsum (rows : list (list R)) (K : nat) (v : list R) :
  (forall d, In d rows -> length d = K) ->
  np_mean_axis0 rows = OK v ->
  rsum v = rsum (map rsum rows) / INR (length rows).
Proof.
  intros Hlen H. destruct rows as [| r rs].
  - cbn in H. injection H as <-. cbn. unfold Rdiv. ring.
  - unfold np_mean_axis0 in H.
    destruct (forallb _ rs); [| discriminate]. injection H as <-.
    rewrite rsum_map_div, rsum_fold_vadd.
    + cbn [map]. rewrite rsum_cons. reflexivity.
    + intros d Hin. rewrite (Hlen d (or_intror Hin)).
      symmetry. apply Hlen. left. reflexivity.
Qed.

Section EpochValues.
Context {C : Collaborators}.

(** X11.  Averaging keeps the Dice range: for an epoch of [iter_valid > 0]
    completed iterations over [class_num > 0] classes whose per-step Dice
    entries all lie in [0, 1], every entry of [class_dice] and [avg_dice]
    lie in [0, 1].  In both variants. *)
Theorem epoch_dice_in_unit_interval (cfg : config) :
  let n := iter_valid cfg in
  let K := Z.to_nat (class_num cfg) in
  (0 < n)%Z -> (0 < K)%nat ->
  (forall (s s' : Agent) (ls : list SSL.locals),
     SSL.run cfg (Z.to_nat n) (epoch_start s) = OK (s', ls) ->
     (forall l, In l ls ->
        length (SSL.dice_list l) = K /\
        forall x, In x (SSL.dice_list l) -> 0 <= x <= 1) ->
     exists r : SSL.train_scalers.t,
       SSL.training cfg s = OK (s', r) /\
       (forall x, In x (SSL.train_scalers.class_dice r) -> 0 <= x <= 1) /\
       0 <= SSL.train_scalers.avg_dice r <= 1) /\
  (forall (s s' : Agent) (ls : list WSL.locals),
     WSL.run cfg (Z.to_nat n) (epoch_start s) = OK (s', ls) ->
     (forall l, In l ls ->
        length (WSL.dice_list l) = K /\
        forall x, In x (WSL.dice_list l) -> 0 <= x <= 1) ->
     exists r : WSL.train_scalers.t,
       WSL.training cfg s = OK (s', r) /\
       (forall x, In x (WSL.train_scalers.class_dice r) -> 0 <= x <= 1) /\
       0 <= WSL.train_scalers.avg_dice r <= 1).
Proof.
  intros n K Hn HK.
  assert (Hmeans : forall (dices : list (list R)) (cd : list R) (ad : R)
                     (a b c : list R) (x y z : R),
            length dices = Z.to_nat n ->
            (forall d, In d dices ->
               length d = K /\ forall v, In v d -> 0 <= v <= 1) ->
            epoch_means n K a b c dices x y z ad cd ->
            (forall v, In v cd -> 0 <= v <= 1) /\ 0 <= ad <= 1).
  { intros dices cd ad a b c x y z Hlen Hd (_ & _ & _ & HcK & Hnth & Havg).
    assert (Hcd : forall v, In v cd -> 0 <= v <= 1).
    { intros v Hv. destruct (In_nth cd v 0 Hv) as (k & Hk & <-).
      rewrite HcK in Hk. rewrite (Hnth k Hk).
      apply mean_bounds.
      - apply IZR_lt. exact Hn.
      - rewrite length_map, Hlen, INR_to_nat by lia. reflexivity.
      - intros w Hw. apply in_map_iff in Hw. destruct Hw as (d & <- & Hin).
        destruct (Hd d Hin) as [Ld Bd]. apply Bd. apply nth_In.
        rewrite Ld. exact Hk. }
    split; [exact Hcd |]. rewrite Havg.
    apply mean_bounds; [| reflexivity | exact Hcd].
    rewrite HcK. apply lt_0_INR. exact HK. }
  split; intros s s' ls Hrun Hd.
  - destruct (ssl_training_ok cfg K s s' ls Hn Hrun
                (fun l Hl => proj1 (Hd l Hl)))
      as (r & _ & _ & Ht & Hm & _).
    exists r. split; [exact Ht |].
    apply (Hmeans _ _ _ _ _ _ _ _ _) with (3 := Hm).
    + rewrite length_map. exact (ssl_run_length _ _ _ _ _ Hrun).
    + intros d Hin. apply in_map_iff in Hin.
      destruct Hin as (l & <- & Hl). exact (Hd l Hl).
  - destruct (wsl_training_ok cfg K s s' ls Hn Hrun
                (fun l Hl => proj1 (Hd l Hl)))
      as (r & _ & _ & Ht & Hm & _).
    exists r. split; [exact Ht |].
    apply (Hmeans _ _ _ _ _ _ _ _ _) with (3 := Hm).
    + rewrite length_map. exact (wsl_run_length _ _ _ _ _ Hrun).
    + intros d Hin. apply in_map_iff in Hin.
      destruct Hin as (l & <- & Hl). exact (Hd l Hl).
Qed.

(** X12.  During the supervised-only warm-up the record shows no auxiliary
    contribution: when every iteration of a returned epoch reads a global step
    below [iter_sup] (semi-supervised), or not above [iter_sup]
    (weakly-supervised), the weight entry is 0 and the [loss] entry equals
    the [loss_sup] entry. *)
Theorem warmup_epoch_record (cfg : config) (s s' : Agent) :
  (forall (r : SSL.train_scalers.t) (ls : list SSL.locals),
     SSL.run cfg (Z.to_nat (iter_valid cfg)) (epoch_start s) = OK (s', ls) ->
     SSL.training cfg s = OK (s', r) ->
     (forall l, In l ls ->
        (SSL.glob_it_read l
         < dict_get (ssl_cfg.iter_sup (semi_supervised_learning cfg)) 0)%Z) ->
     SSL.train_scalers.consis_w r = 0 /\
     SSL.train_scalers.loss r = SSL.train_scalers.loss_sup r) /\
  (forall (r : WSL.train_scalers.t) (ls : list WSL.locals),
     WSL.run cfg (Z.to_nat (iter_valid cfg)) (epoch_start s) = OK (s', ls) ->
     WSL.training cfg s = OK (s', r) ->
     (forall l, In l ls ->
        (WSL.glob_it_read l
         <= dict_get (wsl_cfg.iter_sup (weakly_supervised_learning cfg))
              0)%Z) ->
     WSL.train_scalers.regular_w r = 0 /\
     WSL.train_scalers.loss r = WSL.train_scalers.loss_sup r).
Proof.
  split; intros r ls Hrun Ht Hg.
  - assert (Hw : forall l, In l ls -> SSL.consis_w l = 0).
    { intros l Hl.
      destruct (ssl_run_steps cfg _ _ _ _ Hrun l Hl) as (s0 & s1 & Hs).
      destruct (ssl_step_facts cfg s0 s1 l Hs) as (_ & _ & _ & _ & E & _).
      rewrite E. unfold SSL.applied_consis_w. cbv zeta.
      destruct (Z.ltb_spec (SSL.glob_it_read l)
                  (dict_get (ssl_cfg.iter_sup (semi_supervised_learning cfg))
                     0%Z)) as [_ | Hge]; [reflexivity |].
      specialize (Hg l Hl). lia. }
    destruct (ssl_training_inv cfg s s' s' ls r Hrun Ht)
      as (_ & _ & _ & _ & front & last & Hsnoc & Hlast).
    destruct (ssl_training_sums cfg s s' s' ls r Hrun Ht) as (E1 & E2 & _).
    split.
    + rewrite Hlast. apply Hw. rewrite Hsnoc. apply in_or_app. right.
      left. reflexivity.
    + rewrite E1, E2.
      rewrite (rsum_affine SSL.loss SSL.loss_sup SSL.loss_unsup 0 ls).
      * unfold Rdiv. ring.
      * intros l Hl.
        destruct (ssl_run_steps cfg _ _ _ _ Hrun l Hl) as (s0 & s1 & Hs).
        destruct (ssl_step_facts cfg s0 s1 l Hs) as (_ & _ & _ & _ & _ & E).
        rewrite E, (Hw l Hl). reflexivity.
  - assert (Hw : forall l, In l ls -> WSL.regular_w l = 0).
    { intros l Hl.
      destruct (wsl_run_steps cfg _ _ _ _ Hrun l Hl) as (s0 & s1 & Hs).
      destruct (wsl_step_facts cfg s0 s1 l Hs) as (_ & _ & _ & E & _).
      rewrite E. unfold WSL.applied_regular_w. cbv zeta.
      destruct (Z.gtb_spec (WSL.glob_it_read l)
                  (dict_get (wsl_cfg.iter_sup (weakly_supervised_learning cfg))
                     0%Z)) as [Hgt | _]; [| reflexivity].
      specialize (Hg l Hl). lia. }
    destruct (wsl_training_inv cfg s s' s' ls r Hrun Ht)
      as (_ & _ & _ & _ & front & last & Hsnoc & Hlast).
    destruct (wsl_training_sums cfg s s' s' ls r Hrun Ht) as (E1 & E2 & _).
    split.
    + rewrite Hlast. apply Hw. rewrite Hsnoc. apply in_or_app. right.
      left. reflexivity.
    + rewrite E1, E2.
      rewrite (rsum_affine WSL.loss WSL.loss_sup WSL.loss_reg 0 ls).
      * unfold Rdiv. ring.
      * intros l Hl.
        destruct (wsl_run_steps cfg _ _ _ _ Hrun l Hl) as (s0 & s1 & Hs).
        destruct (wsl_step_facts cfg s0 s1 l Hs) as (_ & _ & _ & _ & E & _).
        rewrite E, (Hw l Hl). reflexivity.
Qed.

(** X13.  When every iteration of a returned epoch reads the same global
    step, the entries of the record satisfy the equation of a single step:
    [loss = loss_sup + weight * loss_aux].  In both variants. *)
Theorem fixed_step_epoch_record (cfg : config) (g : Z) (s s' : Agent) :
  (forall (r : SSL.train_scalers.t) (ls : list SSL.locals),
     SSL.run cfg (Z.to_nat (iter_valid cfg)) (epoch_start s) = OK (s', ls) ->
     SSL.training cfg s = OK (s', r) ->
     (forall l, In l ls -> SSL.glob_it_read l = g) ->
     SSL.train_scalers.consis_w r = SSL.applied_consis_w cfg g /\
     SSL.train_scalers.loss r
     = SSL.train_scalers.loss_sup r
       + SSL.train_scalers.consis_w r * SSL.train_scalers.loss_unsup r) /\
  (forall (r : WSL.train_scalers.t) (ls : list WSL.locals),
     WSL.run cfg (Z.to_nat (iter_valid cfg)) (epoch_start s) = OK (s', ls) ->
     WSL.training cfg s = OK (s', r) ->
     (forall l, In l ls -> WSL.glob_it_read l = g) ->
     WSL.train_scalers.regular_w r = WSL.applied_regular_w cfg g /\
     WSL.train_scalers.loss r
     = WSL.train_scalers.loss_sup r
       + WSL.train_scalers.regular_w r * WSL.train_scalers.loss_reg r).
Proof.
  split; intros r ls Hrun Ht Hg.
  - assert (Hw : forall l, In l ls ->
              SSL.consis_w l = SSL.applied_consis_w cfg g /\
              SSL.loss l
              = SSL.loss_sup l + SSL.applied_consis_w cfg g * SSL.loss_unsup l).
    { intros l Hl.
      destruct (ssl_run_steps cfg _ _ _ _ Hrun l Hl) as (s0 & s1 & Hs).
      destruct (ssl_step_facts cfg s0 s1 l Hs) as (_ & _ & _ & _ & E & E').
      rewrite (Hg l Hl) in E. rewrite E', E. split; reflexivity. }
    destruct (ssl_training_inv cfg s s' s' ls r Hrun Ht)
      as (_ & _ & _ & _ & front & last & Hsnoc & Hlast).
    destruct (ssl_training_sums cfg s s' s' ls r Hrun Ht) as (E1 & E2 & E3).
    assert (Hr : SSL.train_scalers.consis_w r = SSL.applied_consis_w cfg g).
    { rewrite Hlast. apply Hw. rewrite Hsnoc. apply in_or_app. right.
      left. reflexivity. }
    split; [exact Hr |]. rewrite E1, E2, E3, Hr.
    rewrite (rsum_affine SSL.loss SSL.loss_sup SSL.loss_unsup
               (SSL.applied_consis_w cfg g) ls)
      by (intros l Hl; apply Hw; exact Hl).
    unfold Rdiv. ring.
  - assert (Hw : forall l, In l ls ->
              WSL.regular_w l = WSL.applied_regular_w cfg g /\
              WSL.loss l
              = WSL.loss_sup l + WSL.applied_regular_w cfg g * WSL.loss_reg l).
    { intros l Hl.
      destruct (wsl_run_steps cfg _ _ _ _ Hrun l Hl) as (s0 & s1 & Hs).
      destruct (wsl_step_facts cfg s0 s1 l Hs) as (_ & _ & _ & E & E' & _).
      rewrite (Hg l Hl) in E. rewrite E', E. split; reflexivity. }
    destruct (wsl_training_inv cfg s s' s' ls r Hrun Ht)
      as (_ & _ & _ & _ & front & last & Hsnoc & Hlast).
    destruct (wsl_training_sums cfg s s' s' ls r Hrun Ht) as (E1 & E2 & E3).
    assert (Hr : WSL.train_scalers.regular_w r = WSL.applied_regular_w cfg g).
    { rewrite Hlast. apply Hw. rewrite Hsnoc. apply in_or_app. right.
      left. reflexivity. }
    split; [exact Hr |]. rewrite E1, E2, E3, Hr.
    rewrite (rsum_affine WSL.loss WSL.loss_sup WSL.loss_reg
               (WSL.applied_regular_w cfg g) ls)
      by (intros l Hl; apply Hw; exact Hl).
    unfold Rdiv. ring.
Qed.

(** X14.  The two means commute: for per-step Dice vectors of one length,
    [avg_dice], the mean over the classes of the per-class means, is also
    the mean over the iterations of the per-step mean Dice.  In both
    variants. *)
Theorem avg_dice_is_mean_of_step_means (cfg : config) (K : nat)
    (s s' : Agent) :
  (forall (r : SSL.train_scalers.t) (ls : list SSL.locals),
     SSL.run cfg (Z.to_nat (iter_valid cfg)) (epoch_start s) = OK (s', ls) ->
     SSL.training cfg s = OK (s', r) ->
     (forall l, In l ls -> length (SSL.dice_list l) = K) ->
     SSL.train_scalers.avg_dice r
     = rsum (map (fun l => np_mean (SSL.dice_list l)) ls)
       / INR (length ls)) /\
  (forall (r : WSL.train_scalers.t) (ls : list WSL.locals),
     WSL.run cfg (Z.to_nat (iter_valid cfg)) (epoch_start s) = OK (s', ls) ->
     WSL.training cfg s = OK (s', r) ->
     (forall l, In l ls -> length (WSL.dice_list l) = K) ->
     WSL.train_scalers.avg_dice r
     = rsum (map (fun l => np_mean (WSL.dice_list l)) ls)
       / INR (length ls)).
Proof.
  assert (Hswap : forall (rows : list (list R)) (v : list R),
            rows <> [] ->
            (forall d, In d rows -> length d = K) ->
            np_mean_axis0 rows = OK v ->
            np_mean v = rsum (map np_mean rows) / INR (length rows)).
  { intros rows v Hne Hlen Hv.
    destruct (np_mean_axis0_uniform rows K Hne Hlen) as (v' & Hv' & HK & _).
    rewrite Hv in Hv'. injection Hv' as <-.
    unfold np_mean at 1. rewrite (np_mean_axis0_rsum rows K v Hlen Hv), HK.
    replace (map np_mean rows) with (map (fun d => rsum d / INR K) rows).
    - rewrite <- (map_map rsum (fun x => x / INR K)), rsum_map_div.
      unfold Rdiv. ring.
    - apply map_ext_in. intros d Hd. unfold np_mean.
      rewrite (Hlen d Hd). reflexivity. }
  split; intros r ls Hrun Ht Hlen.
  - destruct (ssl_training_inv cfg s s' s' ls r Hrun Ht)
      as (_ & _ & Hv & Havg & front & last & Hsnoc & _).
    assert (Hne : map SSL.dice_list ls <> []).
    { intros E. apply map_eq_nil in E. rewrite E in Hsnoc.
      destruct front; discriminate. }
    assert (Huni : forall d, In d (map SSL.dice_list ls) -> length d = K).
    { intros d Hd. apply in_map_iff in Hd. destruct Hd as (l & <- & Hl).
      exact (Hlen l Hl). }
    rewrite Havg, (Hswap _ _ Hne Huni Hv), map_map, length_map.
    reflexivity.
  - destruct (wsl_training_inv cfg s s' s' ls r Hrun Ht)
      as (_ & _ & Hv & Havg & front & last & Hsnoc & _).
    assert (Hne : map WSL.dice_list ls <> []).
    { intros E. apply map_eq_nil in E. rewrite E in Hsnoc.
      destruct front; discriminate. }
    assert (Huni : forall d, In d (map WSL.dice_list ls) -> length d = K).
    { intros d Hd. apply in_map_iff in Hd. destruct Hd as (l & <- & Hl).
      exact (Hlen l Hl). }
    rewrite Havg, (Hswap _ _ Hne Huni Hv), map_map, length_map.
    reflexivity.
Qed.

End EpochValues.

Lemma epoch_dice_in_unit_interval_witness :
  exists (s' : @Agent (toy false)) (r : SSL.train_scalers.t),
    SSL.training (toy_config 2 0 0) (toy_agent false 0) = OK (s', r) /\
    0 <= SSL.train_scalers.avg_dice r <= 1.
Proof.
  eassert (Hrun : @SSL.run (toy false) (toy_config 2 0 0)
                    (Z.to_nat (iter_valid (toy_config 2 0 0)))
                    (epoch_start (toy_agent false 0)) = OK (_, _))
    by reflexivity.
  destruct (@epoch_dice_in_unit_interval (toy false) (toy_config 2 0 0)
              eq_refl (Nat.lt_0_succ 1)) as [Hssl _].
  destruct (Hssl _ _ _ Hrun) as (r & Ht & _ & Havg).
  { intros l [<- | [<- | []]];
      (split; [reflexivity | intros x [<- | [<- | []]]; lra]). }
  eexists. exists r. split; [exact Ht | exact Havg].
Defined.

Lemma warmup_epoch_record_witness :
  exists (s' : @Agent (toy false)) (r : SSL.train_scalers.t),
    SSL.training (toy_config 2 5 0) (toy_agent false 0) = OK (s', r) /\
    SSL.train_scalers.consis_w r = 0 /\
    SSL.train_scalers.loss r = SSL.train_scalers.loss_sup r.
Proof.
  eassert (Hrun : @SSL.run (toy false) (toy_config 2 5 0)
                    (Z.to_nat (iter_valid (toy_config 2 5 0)))
                    (epoch_start (toy_agent false 0)) = OK (_, _))
    by reflexivity.
  eassert (Ht : @SSL.training (toy false) (toy_config 2 5 0)
                  (toy_agent false 0) = OK (_, _)) by reflexivity.
  destruct (proj1 (@warmup_epoch_record (toy false) (toy_config 2 5 0)
                     _ _) _ _ Hrun Ht) as [Hw Hloss].
  { intros l [<- | [<- | []]]; reflexivity. }
  eexists. eexists. split; [exact Ht |]. split; [exact Hw | exact Hloss].
Defined.

Lemma fixed_step_epoch_record_witness :
  exists (s' : @Agent (toy false)) (r : SSL.train_scalers.t),
    SSL.training (toy_config 2 0 0) (toy_agent false 7) = OK (s', r) /\
    SSL.train_scalers.consis_w r = 1 /\
    SSL.train_scalers.loss r
    = SSL.train_scalers.loss_sup r
      + SSL.train_scalers.consis_w r * SSL.train_scalers.loss_unsup r.
Proof.
  eassert (Hrun : @SSL.run (toy false) (toy_config 2 0 0)
                    (Z.to_nat (iter_valid (toy_config 2 0 0)))
                    (epoch_start (toy_agent false 7)) = OK (_, _))
    by reflexivity.
  eassert (Ht : @SSL.training (toy false) (toy_config 2 0 0)
                  (toy_agent false 7) = OK (_, _)) by reflexivity.
  destruct (proj1 (@fixed_step_epoch_record (toy false)
                     (toy_config 2 0 0) 7%Z _ _) _ _ Hrun Ht)
    as [Hw Hloss].
  { intros l [<- | [<- | []]]; reflexivity. }
  eexists. eexists. split; [exact Ht |]. split; [exact Hw | exact Hloss].
Defined.

Lemma avg_dice_is_mean_of_step_means_witness :
  exists (s' : @Agent (toy false)) (r : SSL.train_scalers.t),
    SSL.training (toy_config 2 0 0) (toy_agent false 0) = OK (s', r) /\
    SSL.train_scalers.avg_dice r
    = (np_mean [1; 1] + (np_mean [1; 1] + 0)) / INR 2.
Proof.
  eassert (Hrun : @SSL.run (toy false) (toy_config 2 0 0)
                    (Z.to_nat (iter_valid (toy_config 2 0 0)))
                    (epoch_start (toy_agent false 0)) = OK (_, _))
    by reflexivity.
  eassert (Ht : @SSL.training (toy false) (toy_config 2 0 0)
                  (toy_agent false 0) = OK (_, _)) by reflexivity.
  pose proof (proj1 (@avg_dice_is_mean_of_step_means (toy false)
                       (toy_config 2 0 0) 2%nat _ _) _ _ Hrun Ht) as Havg.
  eexists. eexists. split; [exact Ht |]. apply Havg.
  intros l [<- | [<- | []]]; reflexivity.
Defined.

(** * The data streams as cyclic sequences *)

Lemma skipn_cons_nth_error {A : Type} (l : list A) :
  forall r : nat, (r < length l)%nat ->
  exists b : A, nth_error l r = Some b /\ skipn r l = b :: skipn (S r) l.
Proof.
  induction l as [| x l IH]; intros r Hr; cbn in Hr; [lia |].
  destruct r as [| r].
  - exists x. split; reflexivity.
  - destruct (IH r ltac:(lia)) as (b & Hb & Hs). exists b.
    split; [exact Hb | exact Hs].
Qed.

Section CyclicStream.
Context {B : Type}.
Variable ld : Loader B.
Variable m : nat.
Hypothesis m_pos : (0 < m)%nat.
Hypothesis ld_length : forall k : nat, length (ld k) = m.

Lemma at_pos_pull (c : Cursor B) (q r : nat) :
  at_pos ld m c q r ->
  exists (b : B) (c1 : Cursor B) (q1 r1 : nat),
    next_or_restart ld c = OK (b, c1) /\
    nth_error (ld ((q * m + r) / m)%nat) ((q * m + r) mod m)%nat = Some b /\
    at_pos ld m c1 q1 r1 /\
    (q1 * m + r1 = q * m + r + 1)%nat /\
    (1 <= r1)%nat.
Proof.
  intros (Hp & Hm & Hr).
  destruct (Nat.eq_dec r m) as [-> | Hne].
  - assert (Hnil : pending c = []).
    { rewrite Hp. apply skipn_all2. rewrite ld_length. lia. }
    destruct (skipn_cons_nth_error (ld (S q)) 0) as (b & Hb & Hs).
    { rewrite ld_length. exact m_pos. }
    exists b, {| pending := skipn 1 (ld (S q)); made := S (S q) |},
      (S q), 1%nat.
    split.
    { pose proof (next_or_restart_exhausted ld c b (skipn 1 (ld (S q))) Hnil)
        as E.
      rewrite Hm in E. apply E. exact Hs. }
    replace (q * m + m)%nat with (0 + S q * m)%nat by lia.
    rewrite Nat.div_add, Nat.Div0.mod_add by lia.
    rewrite Nat.div_small, Nat.mod_small by lia.
    split; [exact Hb |].
    split; [| lia].
    split; [reflexivity | split; [reflexivity | lia]].
  - assert (Hlt : (r < m)%nat) by lia.
    destruct (skipn_cons_nth_error (ld q) r) as (b & Hb & Hs).
    { rewrite ld_length. exact Hlt. }
    exists b, {| pending := skipn (S r) (ld q); made := made c |}, q, (S r).
    split.
    { apply next_or_restart_pending. rewrite Hp. exact Hs. }
    replace (q * m + r)%nat with (r + q * m)%nat by lia.
    rewrite Nat.div_add, Nat.Div0.mod_add by lia.
    rewrite Nat.div_small, Nat.mod_small by lia.
    split; [exact Hb |].
    split; [| lia].
    split; [reflexivity | split; [exact Hm | lia]].
Qed.

Lemma at_pos_draw (n : nat) :
  forall (c : Cursor B) (q r : nat),
    at_pos ld m c q r ->
    exists (bs : list B) (c' : Cursor B) (q' r' : nat),
      draw ld n c = OK (bs, c') /\
      length bs = n /\
      (forall i : nat, (i < n)%nat ->
         nth_error bs i
         = nth_error (ld ((q * m + r + i) / m)%nat)
             ((q * m + r + i) mod m)%nat) /\
      at_pos ld m c' q' r' /\
      (q' * m + r' = q * m + r + n)%nat /\
      ((0 < n)%nat -> (1 <= r')%nat).
Proof.
  induction n as [| n IH]; intros c q r Hpos.
  - exists [], c, q, r. split; [reflexivity |]. split; [reflexivity |].
    split; [intros i Hi; lia |]. split; [exact Hpos |]. split; lia.
  - destruct (at_pos_pull c q r Hpos)
      as (b & c1 & q1 & r1 & E & Hb & P1 & I1 & R1).
    destruct (IH c1 q1 r1 P1) as (bs & c' & q' & r' & D & L & N & P' & I' & R').
    exists (b :: bs), c', q', r'.
    split; [cbn; rewrite E; cbn; rewrite D; reflexivity |].
    split; [cbn; rewrite L; reflexivity |].
    split.
    { intros [| i] Hi.
      - rewrite Nat.add_0_r. cbn. symmetry. exact Hb.
      - cbn [nth_error]. rewrite (N i) by lia.
        replace (q1 * m + r1 + i)%nat with (q * m + r + S i)%nat by lia.
        reflexivity. }
    split; [exact P' |]. split; [lia |].
    intros _. destruct n as [| n']; [| apply R'; lia].
    cbn in D. injection D as _ Ec. subst c'.
    destruct P' as (_ & Hm' & _). destruct P1 as (_ & Hm1 & _).
    assert (q' = q1) by congruence. subst q'. lia.
Qed.

End CyclicStream.

Lemma cyclic_index (m k i : nat) :
  (0 < m)%nat ->
  ((k * m + 0 + i) / m = k + i / m)%nat /\
  ((k * m + 0 + i) mod m = i mod m)%nat.
Proof.
  intros Hm. replace (k * m + 0 + i)%nat with (i + k * m)%nat by lia.
  rewrite Nat.div_add, Nat.Div0.mod_add by lia. split; lia.
Qed.

Lemma cyclic_made (m k n q r : nat) :
  (0 < m)%nat -> (0 < n)%nat -> (1 <= r)%nat -> (r <= m)%nat ->
  (q * m + r = k * m + 0 + n)%nat ->
  q = (k + (n - 1) / m)%nat.
Proof.
  intros Hm Hn Hr1 Hrm E.
  assert (Hk : (k <= q)%nat) by nia.
  assert (E' : ((n - 1) / m = q - k)%nat).
  { symmetry. apply (Nat.div_unique (n - 1) m (q - k) (r - 1)); [lia |].
    nia. }
  rewrite E'. lia.
Qed.

(** X9.  Over a loader whose iterators all yield [m > 0] batches, the pulls
    from its [k]-th iterator, restarted whenever it is exhausted, form the
    cyclic sequence of the loader's iterators: pull [i] is batch [i mod m] of
    iterator [k + i / m], and after [n > 0] pulls the loader has made
    [1 + (n - 1) / m] iterators more than the [k] before. *)
Theorem stream_is_cyclic {B : Type} (ld : Loader B) (m k n : nat) :
  (0 < m)%nat ->
  (forall j : nat, length (ld j) = m) ->
  exists (bs : list B) (c' : Cursor B),
    draw ld n (iter ld k) = OK (bs, c') /\
    length bs = n /\
    (forall i : nat, (i < n)%nat ->
       nth_error bs i = nth_error (ld (k + i / m)%nat) (i mod m)%nat) /\
    ((0 < n)%nat -> made c' = S (k + (n - 1) / m)%nat).
Proof.
  intros Hm Hlen.
  assert (P0 : at_pos ld m (iter ld k) k 0).
  { split; [reflexivity | split; [reflexivity | lia]]. }
  destruct (at_pos_draw ld m Hm Hlen n (iter ld k) k 0 P0)
    as (bs & c' & q' & r' & D & L & N & P' & I' & R').
  exists bs, c'. split; [exact D |]. split; [exact L |]. split.
  - intros i Hi. rewrite (N i Hi).
    destruct (cyclic_index m k i Hm) as [-> ->]. reflexivity.
  - intros Hn. destruct P' as (_ & Hmade & Hr'). rewrite Hmade. f_equal.
    exact (cyclic_made m k n q' r' Hm Hn (R' Hn) Hr' I').
Qed.

Lemma stream_is_cyclic_witness :
  exists (bs : list nat) (c' : Cursor nat),
    draw (fun j => [(10 * j)%nat; (10 * j + 1)%nat]) 5
      (iter (fun j => [(10 * j)%nat; (10 * j + 1)%nat]) 0)
    = OK (bs, c') /\
    nth_error bs 3 = Some 11%nat /\
    nth_error bs 4 = Some 20%nat /\
    made c' = 3%nat.
Proof.
  destruct (stream_is_cyclic (fun j => [(10 * j)%nat; (10 * j + 1)%nat])
              2 0 5 (Nat.lt_0_succ 1) (fun j => eq_refl))
    as (bs & c' & D & _ & N & M).
  exists bs, c'. split; [exact D |].
  split; [exact (N 3%nat ltac:(lia)) |].
  split; [exact (N 4%nat ltac:(lia)) |].
  exact (M (Nat.lt_0_succ 4)).
Defined.

Section EpochStreams.
Context {C : Collaborators}.

(** X15.  After [train_valid] has made the [k]-th iterator of an unlabeled
    loader whose iterators all yield [m > 0] batches, the unlabeled batch of
    iteration [i] of any completed run of iterations is batch [i mod m] of
    the loader's iterator [k + i / m], whatever the labeled stream does. *)
Theorem epoch_unlabeled_batches_cycle (cfg : config) (m k n : nat)
    (s s' : Agent) (ls : list SSL.locals) :
  (0 < m)%nat ->
  (forall j : nat, length (train_loader_unlab j) = m) ->
  SSL.run cfg n (ssl_train_valid_enter k s) = OK (s', ls) ->
  length ls = n /\
  (forall i : nat, (i < n)%nat ->
     nth_error (map SSL.data_unlab ls) i
     = nth_error (train_loader_unlab (k + i / m)%nat) (i mod m)%nat) /\
  ((0 < n)%nat -> made (trainIter_unlab s') = S (k + (n - 1) / m)%nat).
Proof.
  intros Hm Hlen Hrun.
  destruct (ssl_run_draw cfg n _ s' ls Hrun) as [_ D].
  cbn [ssl_train_valid_enter trainIter_unlab] in D.
  assert (P0 : at_pos train_loader_unlab m (iter train_loader_unlab k) k 0).
  { split; [reflexivity | split; [reflexivity | lia]]. }
  destruct (at_pos_draw train_loader_unlab m Hm Hlen n _ k 0 P0)
    as (bs & c' & q' & r' & D' & _ & N & P' & I' & R').
  rewrite D' in D. injection D as <- <-.
  split; [exact (ssl_run_length _ _ _ _ _ Hrun) |]. split.
  - intros i Hi. rewrite (N i Hi).
    destruct (cyclic_index m k i Hm) as [-> ->]. reflexivity.
  - intros Hn. destruct P' as (_ & Hmade & Hr'). rewrite Hmade. f_equal.
    exact (cyclic_made m k n q' r' Hm Hn (R' Hn) Hr' I').
Qed.

End EpochStreams.

Lemma epoch_unlabeled_batches_cycle_witness :
  exists (s' : @Agent (toy false))
         (ls : list (@SSL.locals (toy false))),
    SSL.run (toy_config 3 0 0) 3
      (ssl_train_valid_enter 4 (toy_agent false 0)) = OK (s', ls) /\
    made (trainIter_unlab s') = 7%nat.
Proof.
  eassert (Hrun : @SSL.run (toy false) (toy_config 3 0 0) 3
                    (ssl_train_valid_enter 4 (toy_agent false 0))
                  = OK (_, _)) by reflexivity.
  destruct (@epoch_unlabeled_batches_cycle (toy false)
              (toy_config 3 0 0) 1 4 3 _ _ _ (Nat.lt_0_succ 0)
              (fun j => eq_refl) Hrun) as (_ & _ & M).
  eexists. eexists. split; [exact Hrun |].
  exact (M (Nat.lt_0_succ 2)).
Defined.

(** * Building the unlabeled dataset *)

Section SetupProperties.
Context {T : Type}.
Variable lib : Setup.library T.
Variable d : Setup.transform_dict T.

Lemma append_transforms_defined (p : Setup.dataset_cfg)
    (names : list String.string) :
  (forall x, In x names -> Setup.lookup d x <> None) ->
  forall acc : list T,
  exists l : list T,
    Setup.append_transforms d p names acc = (acc ++ l, None) /\
    Forall2 (fun x t => exists cls, Setup.lookup d x = Some cls /\ t = cls p)
      names l.
Proof.
  induction names as [| x names IH]; intros Hdef acc.
  - exists []. rewrite app_nil_r. split; [reflexivity | constructor].
  - destruct (Setup.lookup d x) as [cls |] eqn:E.
    + destruct (IH (fun y Hy => Hdef y (or_intror Hy)) (acc ++ [cls p]))
        as (l & Hl & F).
      exists (cls p :: l). split.
      * cbn. rewrite E, Hl, <- app_assoc. reflexivity.
      * constructor; [exists cls; split; [exact E | reflexivity] | exact F].
    + exfalso. exact (Hdef x (or_introl eq_refl) E).
Qed.

Lemma append_transforms_undefined (p : Setup.dataset_cfg)
    (pre : list String.string) (bad : String.string)
    (post : list String.string) :
  (forall x, In x pre -> Setup.lookup d x <> None) ->
  Setup.lookup d bad = None ->
  forall acc : list T,
  exists l : list T,
    Setup.append_transforms d p (pre ++ bad :: post) acc
    = (acc ++ l, Some bad) /\
    Forall2 (fun x t => exists cls, Setup.lookup d x = Some cls /\ t = cls p)
      pre l.
Proof.
  induction pre as [| x pre IH]; intros Hdef Hbad acc.
  - exists []. rewrite app_nil_r. cbn. rewrite Hbad.
    split; [reflexivity | constructor].
  - destruct (Setup.lookup d x) as [cls |] eqn:E.
    + destruct (IH (fun y Hy => Hdef y (or_intror Hy)) Hbad (acc ++ [cls p]))
        as (l & Hl & F).
      exists (cls p :: l). split.
      * cbn. rewrite E, Hl, <- app_assoc. reflexivity.
      * constructor; [exists cls; split; [exact E | reflexivity] | exact F].
    + exfalso. exact (Hdef x (or_introl eq_refl) E).
Qed.

(** The outcome of a constructor call is an exception or the arguments. *)
Lemma construct_inv {A : Type} (init : A -> option Setup.raised) (args : A)
    (r : Setup.raised + A) :
  Setup.construct init args = r ->
  (exists e, init args = Some e /\ r = inl e) \/
  (init args = None /\ r = inr args).
Proof.
  unfold Setup.construct. intros <-.
  destruct (init args) as [e |].
  - left. exists e. split; reflexivity.
  - right. split; reflexivity.
Qed.

(** X16.  With the required keys present and a non-empty list of transform
    names that are all defined, one transform per name is built, in the order
    of the names, each by the class of its name from the configuration in
    which [task] is ['segmentation'], and the list is left in
    [self.transform_list]; the [NiftyDataset] constructor is then called
    without labels, with the root directory, the modality count and the csv
    file of the configuration and with these transforms, and the call returns
    the dataset when the constructor accepts the arguments and raises the
    constructor's exception otherwise. *)
Theorem unlabeled_transforms_in_order (a : Setup.agent T)
    (root : String.string) (modal : Z)
    (name : String.string) (names : list String.string) :
  Setup.root_dir (Setup.config_dataset a) = Some root ->
  Setup.modal_num (Setup.config_dataset a) = Some modal ->
  Setup.train_transform_unlab (Setup.config_dataset a)
  = Some (Some (name :: names)) ->
  (forall x, In x (name :: names) -> Setup.lookup d x <> None) ->
  exists (a' : Setup.agent T) (l : list T),
    let ds := {| Setup.NiftyDataset.root_dir := root;
                 Setup.NiftyDataset.csv_file :=
                   Setup.train_csv_unlab (Setup.config_dataset a);
                 Setup.NiftyDataset.modal_num := modal;
                 Setup.NiftyDataset.with_label := false;
                 Setup.NiftyDataset.transform := Some l |} in
    Setup.get_unlabeled_dataset_from_config lib d a
    = (a', Setup.construct (Setup.NiftyDataset_init lib) ds) /\
    (Setup.NiftyDataset_init lib ds = None ->
     Setup.get_unlabeled_dataset_from_config lib d a = (a', inr ds)) /\
    (forall e, Setup.NiftyDataset_init lib ds = Some e ->
     Setup.get_unlabeled_dataset_from_config lib d a = (a', inl e)) /\
    Setup.transform_list a' = l /\
    length l = length (name :: names) /\
    Forall2 (fun x t => exists cls,
               Setup.lookup d x = Some cls /\
               t = cls (Setup.set_task (Setup.config_dataset a)
                          "segmentation"%string))
      (name :: names) l.
Proof.
  intros Hroot Hmodal Hnames Hdef.
  destruct (append_transforms_defined
              (Setup.set_task (Setup.config_dataset a) "segmentation"%string)
              (name :: names) Hdef []) as (l & Hl & F).
  unfold Setup.get_unlabeled_dataset_from_config.
  rewrite Hroot, Hmodal, Hnames. cbv zeta.
  cbn [Setup.config_dataset Setup.set_transform_list].
  rewrite Hl. cbn [app Setup.config_dataset Setup.set_config_dataset
                   Setup.set_transform_list Setup.set_task
                   Setup.train_csv_unlab Setup.transform_list].
  eexists. exists l. split; [reflexivity |].
  split; [intros E; unfold Setup.construct; rewrite E; reflexivity |].
  split; [intros e E; unfold Setup.construct; rewrite E; reflexivity |].
  split; [reflexivity |].
  split; [symmetry; exact (Forall2_length F) | exact F].
Qed.

(** X17.  The first transform name that is not in the dictionary stops the
    construction with [ValueError("Undefined transform <name>")]: the
    transforms of the names before it have been built and are left in
    [self.transform_list], [task] has been written into the configuration,
    and no dataset is returned or stored. *)
Theorem undefined_transform_fails_fast (a : Setup.agent T)
    (root : String.string) (modal : Z)
    (pre : list String.string) (bad : String.string)
    (post : list String.string) :
  Setup.root_dir (Setup.config_dataset a) = Some root ->
  Setup.modal_num (Setup.config_dataset a) = Some modal ->
  Setup.train_transform_unlab (Setup.config_dataset a)
  = Some (Some (pre ++ bad :: post)) ->
  (forall x, In x pre -> Setup.lookup d x <> None) ->
  Setup.lookup d bad = None ->
  exists (a' : Setup.agent T) (l : list T),
    Setup.get_unlabeled_dataset_from_config lib d a
    = (a', inl (Setup.UndefinedTransform bad)) /\
    Setup.transform_list a' = l /\
    Forall2 (fun x t => exists cls,
               Setup.lookup d x = Some cls /\
               t = cls (Setup.set_task (Setup.config_dataset a)
                          "segmentation"%string))
      pre l /\
    Setup.config_dataset a'
    = Setup.set_task (Setup.config_dataset a) "segmentation"%string /\
    Setup.train_set_unlab a' = Setup.train_set_unlab a /\
    Setup.train_loader_unlab a' = Setup.train_loader_unlab a.
Proof.
  intros Hroot Hmodal Hnames Hdef Hbad.
  destruct (append_transforms_undefined
              (Setup.set_task (Setup.config_dataset a) "segmentation"%string)
              pre bad post Hdef Hbad []) as (l & Hl & F).
  unfold Setup.get_unlabeled_dataset_from_config.
  rewrite Hroot, Hmodal, Hnames. cbv zeta.
  cbn [Setup.config_dataset Setup.set_transform_list].
  destruct (pre ++ bad :: post) as [| x xs] eqn:E.
  { destruct pre; discriminate. }
  rewrite Hl. cbn.
  eexists. exists l. repeat split; try reflexivity. exact F.
Qed.

(** X18.  The configuration of the agent is shared with the transforms:
    [task = 'segmentation'] is written into [config['dataset']] exactly when
    the required keys are present and the list of transform names is not
    empty, also when the construction then fails; no other key changes, and
    with None or an empty list the configuration is unchanged,
    [self.transform_list] is emptied and the [NiftyDataset] constructor is
    called without a transform, its outcome being the outcome of the call.
    The method never touches the stored dataset or loader. *)
Theorem unlabeled_dataset_config_aliasing (a : Setup.agent T) :
  let c := Setup.config_dataset a in
  let a' := fst (Setup.get_unlabeled_dataset_from_config lib d a) in
  let r := snd (Setup.get_unlabeled_dataset_from_config lib d a) in
  (Setup.config_dataset a'
   = match Setup.root_dir c, Setup.modal_num c,
           Setup.train_transform_unlab c with
     | Some _, Some _, Some (Some (_ :: _)) =>
         Setup.set_task c "segmentation"%string
     | _, _, _ => c
     end) /\
  (forall (root : String.string) (modal : Z),
     Setup.root_dir c = Some root -> Setup.modal_num c = Some modal ->
     Setup.train_transform_unlab c = Some None \/
     Setup.train_transform_unlab c = Some (Some []) ->
     Setup.transform_list a' = [] /\
     r = Setup.construct (Setup.NiftyDataset_init lib)
           {| Setup.NiftyDataset.root_dir := root;
              Setup.NiftyDataset.csv_file := Setup.train_csv_unlab c;
              Setup.NiftyDataset.modal_num := modal;
              Setup.NiftyDataset.with_label := false;
              Setup.NiftyDataset.transform := None |}) /\
  Setup.train_set_unlab a' = Setup.train_set_unlab a /\
  Setup.train_loader_unlab a' = Setup.train_loader_unlab a /\
  Setup.stage a' = Setup.stage a.
Proof.
  intros c a' r. subst c a' r.
  unfold Setup.get_unlabeled_dataset_from_config.
  destruct (Setup.root_dir (Setup.config_dataset a)) as [root |];
    [| cbn; split; [reflexivity |];
       split; [intros ? ? E; discriminate E | repeat split]].
  destruct (Setup.modal_num (Setup.config_dataset a)) as [modal |];
    [| cbn; split; [reflexivity |];
       split; [intros ? ? _ E; discriminate E | repeat split]].
  destruct (Setup.train_transform_unlab (Setup.config_dataset a))
    as [[[| x xs] |] |]; cbv zeta.
  - cbn. split; [reflexivity |]. split; [| repeat split].
    intros root' modal' Er Em _. injection Er as <-. injection Em as <-.
    split; reflexivity.
  - cbn [Setup.config_dataset Setup.set_transform_list].
    destruct (Setup.append_transforms d _ (x :: xs) []) as [l [bad |]];
      cbn; (split; [reflexivity |]);
      (split; [intros ? ? _ _ [E | E]; discriminate E | repeat split]).
  - cbn. split; [reflexivity |]. split; [| repeat split].
    intros root' modal' Er Em _. injection Er as <-. injection Em as <-.
    split; reflexivity.
  - cbn. split; [reflexivity |].
    split; [intros ? ? _ _ [E | E]; discriminate E | repeat split].
Qed.

(** X19.  A missing required key raises [KeyError] for the first missing one
    of [root_dir], [modal_num], [train_transform_unlab], in that order, and
    leaves the agent as it was.  A missing [train_csv_unlab] raises no
    [KeyError]: it reaches the [NiftyDataset] constructor as [csv_file = None],
    so with a constructor that rejects a missing csv file the call never
    returns a dataset, and with the other keys present and no transform names
    it raises the constructor's exception after [self.transform_list] has
    been emptied. *)
Theorem unlabeled_dataset_missing_keys (a : Setup.agent T) :
  let c := Setup.config_dataset a in
  (Setup.root_dir c = None ->
   Setup.get_unlabeled_dataset_from_config lib d a
   = (a, inl (Setup.KeyError "root_dir"%string))) /\
  (Setup.root_dir c <> None -> Setup.modal_num c = None ->
   Setup.get_unlabeled_dataset_from_config lib d a
   = (a, inl (Setup.KeyError "modal_num"%string))) /\
  (Setup.root_dir c <> None -> Setup.modal_num c <> None ->
   Setup.train_transform_unlab c = None ->
   Setup.get_unlabeled_dataset_from_config lib d a
   = (a, inl (Setup.KeyError "train_transform_unlab"%string))) /\
  (Setup.train_csv_unlab c = None ->
   forall e : Setup.raised,
     (forall ds : Setup.NiftyDataset.t T,
        Setup.NiftyDataset.csv_file ds = None ->
        Setup.NiftyDataset_init lib ds = Some e) ->
     (forall (a' : Setup.agent T) (ds : Setup.NiftyDataset.t T),
        Setup.get_unlabeled_dataset_from_config lib d a <> (a', inr ds)) /\
     (Setup.root_dir c <> None -> Setup.modal_num c <> None ->
      Setup.train_transform_unlab c = Some None ->
      Setup.get_unlabeled_dataset_from_config lib d a
      = (Setup.set_transform_list a [], inl e))) /\
  (forall (a' : Setup.agent T) (key : String.string),
     Setup.get_unlabeled_dataset_from_config lib d a
     = (a', inl (Setup.KeyError key)) ->
     a' = a \/
     exists ds, Setup.NiftyDataset_init lib ds = Some (Setup.KeyError key)).
Proof.
  intros c. subst c.
  split; [| split; [| split; [| split]]].
  - intros E. unfold Setup.get_unlabeled_dataset_from_config. rewrite E.
    reflexivity.
  - intros Hr Em. unfold Setup.get_unlabeled_dataset_from_config.
    destruct (Setup.root_dir (Setup.config_dataset a)); [| contradiction].
    rewrite Em. reflexivity.
  - intros Hr Hm Et. unfold Setup.get_unlabeled_dataset_from_config.
    destruct (Setup.root_dir (Setup.config_dataset a)); [| contradiction].
    destruct (Setup.modal_num (Setup.config_dataset a)); [| contradiction].
    rewrite Et. reflexivity.
  - intros Ecsv e Hrej. split.
    + intros a' ds H.
      unfold Setup.get_unlabeled_dataset_from_config in H.
      destruct (Setup.root_dir (Setup.config_dataset a)); [| discriminate H].
      destruct (Setup.modal_num (Setup.config_dataset a)); [| discriminate H].
      destruct (Setup.train_transform_unlab (Setup.config_dataset a))
        as [[[| x xs] |] |]; cbv zeta in H;
        cbn [Setup.config_dataset Setup.set_transform_list] in H.
      * unfold Setup.construct in H. rewrite Hrej in H by exact Ecsv.
        discriminate H.
      * destruct (Setup.append_transforms d _ (x :: xs) []) as [l [bad |]];
          [discriminate H |].
        unfold Setup.construct in H.
        rewrite Hrej in H by exact Ecsv. discriminate H.
      * unfold Setup.construct in H. rewrite Hrej in H by exact Ecsv.
        discriminate H.
      * discriminate H.
    + intros Hr Hm Et. unfold Setup.get_unlabeled_dataset_from_config.
      destruct (Setup.root_dir (Setup.config_dataset a)); [| contradiction].
      destruct (Setup.modal_num (Setup.config_dataset a)); [| contradiction].
      rewrite Et. cbv zeta.
      cbn [Setup.config_dataset Setup.set_transform_list].
      unfold Setup.construct. rewrite Hrej by exact Ecsv. reflexivity.
  - intros a' key H.
    unfold Setup.get_unlabeled_dataset_from_config in H.
    destruct (Setup.root_dir (Setup.config_dataset a));
      [| injection H as <- _; left; reflexivity].
    destruct (Setup.modal_num (Setup.config_dataset a));
      [| injection H as <- _; left; reflexivity].
    destruct (Setup.train_transform_unlab (Setup.config_dataset a))
      as [[[| x xs] |] |]; cbv zeta in H;
      cbn [Setup.config_dataset Setup.set_transform_list] in H.
    + right. injection H as _ H.
      destruct (construct_inv _ _ _ H) as [(e & Hi & He) | (_ & He)];
        [| discriminate He].
      injection He as <-. eexists. exact Hi.
    + destruct (Setup.append_transforms d _ (x :: xs) []) as [l [bad |]];
        [discriminate H |].
      right. injection H as _ H.
      destruct (construct_inv _ _ _ H) as [(e & Hi & He) | (_ & He)];
        [| discriminate He].
      injection He as <-. eexists. exact Hi.
    + right. injection H as _ H.
      destruct (construct_inv _ _ _ H) as [(e & Hi & He) | (_ & He)];
        [| discriminate He].
      injection He as <-. eexists. exact Hi.
    + injection H as <- _. left. reflexivity.
Qed.

End SetupProperties.

Lemma unlabeled_transforms_in_order_witness :
  exists a' : Setup.agent (String.string * option String.string),
    Setup.get_unlabeled_dataset_from_config setup_library setup_dict
      (setup_agent
         (setup_config (Some ["RandomCrop"%string; "Rescale"%string])))
    = (a', inr {| Setup.NiftyDataset.root_dir := "data"%string;
                  Setup.NiftyDataset.csv_file := Some "unlab.csv"%string;
                  Setup.NiftyDataset.modal_num := 1%Z;
                  Setup.NiftyDataset.with_label := false;
                  Setup.NiftyDataset.transform :=
                    Some [ ("RandomCrop"%string, Some "segmentation"%string);
                           ("Rescale"%string, Some "segmentation"%string) ]
               |}) /\
    Setup.transform_list a'
    = [ ("RandomCrop"%string, Some "segmentation"%string);
        ("Rescale"%string, Some "segmentation"%string) ].
Proof.
  destruct (unlabeled_transforms_in_order setup_library setup_dict
              (setup_agent
                 (setup_config (Some ["RandomCrop"%string; "Rescale"%string])))
              "data"%string 1%Z "RandomCrop"%string ["Rescale"%string]
              eq_refl eq_refl eq_refl)
    as (a' & l & Hget & Hok & _ & Hl & _ & _).
  { intros x [<- | [<- | []]]; discriminate. }
  cbv zeta in Hget, Hok. specialize (Hok eq_refl).
  assert (El : l = [ ("RandomCrop"%string, Some "segmentation"%string);
                     ("Rescale"%string, Some "segmentation"%string) ]).
  { rewrite <- Hl. clear Hok Hl. cbv in Hget. injection Hget as <- _.
    reflexivity. }
  exists a'. rewrite Hok, Hl, El. split; reflexivity.
Defined.

Lemma undefined_transform_fails_fast_witness :
  exists a' : Setup.agent (String.string * option String.string),
    Setup.get_unlabeled_dataset_from_config setup_library setup_dict
      (setup_agent
         (setup_config (Some ["Rescale"%string; "Flip"%string;
                              "RandomCrop"%string])))
    = (a', inl (Setup.UndefinedTransform "Flip"%string)) /\
    Setup.transform_list a'
    = [ ("Rescale"%string, Some "segmentation"%string) ] /\
    Setup.train_set_unlab a' = None.
Proof.
  destruct (undefined_transform_fails_fast setup_library setup_dict
              (setup_agent
                 (setup_config (Some ["Rescale"%string; "Flip"%string;
                                      "RandomCrop"%string])))
              "data"%string 1%Z ["Rescale"%string] "Flip"%string
              ["RandomCrop"%string] eq_refl eq_refl eq_refl)
    as (a' & l & Hget & Hl & _ & _ & Hset & _).
  { intros x [<- | []]; discriminate. }
  { reflexivity. }
  exists a'. split; [exact Hget |]. split; [| exact Hset].
  cbv in Hget. injection Hget as <-. reflexivity.
Defined.

Lemma unlabeled_dataset_config_aliasing_witness :
  Setup.task
    (Setup.config_dataset
       (fst (Setup.get_unlabeled_dataset_from_config setup_library setup_dict
               (setup_agent (setup_config (Some ["Flip"%string]))))))
  = Some "segmentation"%string /\
  Setup.config_dataset
    (fst (Setup.get_unlabeled_dataset_from_config setup_library setup_dict
            (setup_agent (setup_config (Some [])))))
  = setup_config (Some []) /\
  snd (Setup.get_unlabeled_dataset_from_config setup_library setup_dict
         (setup_agent (setup_config (Some []))))
  = inr {| Setup.NiftyDataset.root_dir := "data"%string;
           Setup.NiftyDataset.csv_file := Some "unlab.csv"%string;
           Setup.NiftyDataset.modal_num := 1%Z;
           Setup.NiftyDataset.with_label := false;
           Setup.NiftyDataset.transform := None |}.
Proof.
  destruct (unlabeled_dataset_config_aliasing setup_library setup_dict
              (setup_agent (setup_config (Some ["Flip"%string]))))
    as (H1 & _).
  destruct (unlabeled_dataset_config_aliasing setup_library setup_dict
              (setup_agent (setup_config (Some [])))) as (H2 & H3 & _).
  destruct (H3 "data"%string 1%Z eq_refl eq_refl (or_intror eq_refl))
    as [_ Hr].
  split; [rewrite H1; reflexivity |].
  split; [rewrite H2; reflexivity | rewrite Hr; reflexivity].
Defined.

Lemma unlabeled_dataset_missing_keys_witness :
  Setup.get_unlabeled_dataset_from_config setup_library setup_dict
    (setup_agent setup_config_no_modal)
  = (setup_agent setup_config_no_modal,
     inl (Setup.KeyError "modal_num"%string)) /\
  Setup.get_unlabeled_dataset_from_config setup_library setup_dict
    (setup_agent (setup_config_with None None 4))
  = (setup_agent (setup_config_with None None 4),
     inl (Setup.LibraryError "ValueError"%string)).
Proof.
  split.
  - destruct (unlabeled_dataset_missing_keys setup_library setup_dict
                (setup_agent setup_config_no_modal)) as (_ & Hmodal & _).
    apply Hmodal; [discriminate | reflexivity].
  - destruct (unlabeled_dataset_missing_keys setup_library setup_dict
                (setup_agent (setup_config_with None None 4)))
      as (_ & _ & _ & Hcsv & _).
    destruct (Hcsv eq_refl (Setup.LibraryError "ValueError"%string))
      as [_ Hraise].
    + intros ds E. cbn. rewrite E. reflexivity.
    + apply Hraise; [discriminate | discriminate | reflexivity].
Defined.

(** * Creating the unlabeled loader *)

Section CreateDataset.
Context {T : Type}.
Variable lib : Setup.library T.
Variable d : Setup.transform_dict T.

(** What building the dataset leaves alone, and what it returns. *)
Lemma get_unlabeled_dataset_frame (a a' : Setup.agent T)
    (r : Setup.raised + Setup.NiftyDataset.t T) :
  Setup.get_unlabeled_dataset_from_config lib d a = (a', r) ->
  Setup.stage a' = Setup.stage a /\
  Setup.deterministic a' = Setup.deterministic a /\
  Setup.random_seed a' = Setup.random_seed a /\
  Setup.train_set_unlab a' = Setup.train_set_unlab a /\
  Setup.train_loader_unlab a' = Setup.train_loader_unlab a /\
  Setup.train_batch_size_unlab (Setup.config_dataset a')
  = Setup.train_batch_size_unlab (Setup.config_dataset a) /\
  Setup.num_workder (Setup.config_dataset a')
  = Setup.num_workder (Setup.config_dataset a) /\
  (forall ds, r = inr ds -> Setup.NiftyDataset.with_label ds = false).
Proof.
  assert (Hc : forall (args : Setup.NiftyDataset.t T) ds,
            Setup.NiftyDataset.with_label args = false ->
            Setup.construct (Setup.NiftyDataset_init lib) args = inr ds ->
            Setup.NiftyDataset.with_label ds = false).
  { intros args ds Hargs E. unfold Setup.construct in E.
    destruct (Setup.NiftyDataset_init lib args); [discriminate E |].
    injection E as <-. exact Hargs. }
  unfold Setup.get_unlabeled_dataset_from_config. intros H.
  destruct (Setup.root_dir (Setup.config_dataset a));
    [| injection H as <- <-; repeat split; intros; discriminate].
  destruct (Setup.modal_num (Setup.config_dataset a));
    [| injection H as <- <-; repeat split; intros; discriminate].
  destruct (Setup.train_transform_unlab (Setup.config_dataset a))
    as [[[| x xs] |] |]; cbv zeta in H;
    cbn [Setup.config_dataset Setup.set_transform_list] in H.
  - injection H as <- <-. repeat split. intros ds E.
    eapply Hc; [| exact E]. reflexivity.
  - destruct (Setup.append_transforms d _ (x :: xs) []) as [l [bad |]];
      injection H as <- <-; repeat split; intros ds E;
      [discriminate E | eapply Hc; [| exact E]; reflexivity].
  - injection H as <- <-. repeat split. intros ds E.
    eapply Hc; [| exact E]. reflexivity.
  - injection H as <- <-. repeat split. intros; discriminate.
Qed.

Ltac setup_fields :=
  cbn [Setup.stage Setup.train_set_unlab Setup.config_dataset
       Setup.deterministic Setup.random_seed Setup.transform_list
       Setup.train_loader_unlab Setup.set_train_loader_unlab
       Setup.set_train_set_unlab Setup.set_config_dataset
       Setup.set_transform_list Setup.DataLoader.dataset
       Setup.DataLoader.batch_size Setup.DataLoader.shuffle
       Setup.DataLoader.num_workers Setup.DataLoader.worker_init_fn].

(** X20.  Creating the unlabeled dataset and loader is idempotent: once a
    call has succeeded, a second call leaves the agent exactly as the first
    did; the stored dataset is reused, not rebuilt, and the configuration is
    not consulted for transforms again. *)
Theorem create_dataset_unlab_idempotent (a a1 : Setup.agent T) :
  Setup.create_dataset_unlab lib d a = (a1, inr tt) ->
  Setup.create_dataset_unlab lib d a1 = (a1, inr tt).
Proof.
  unfold Setup.create_dataset_unlab.
  destruct (String.eqb (Setup.stage a) "train") eqn:Es.
  2:{ intros H. injection H as <-. rewrite Es. reflexivity. }
  destruct (Setup.train_set_unlab a) as [ds |] eqn:Eset.
  - destruct (Setup.train_batch_size_unlab (Setup.config_dataset a))
      as [bn |] eqn:Eb; [| discriminate].
    destruct (Setup.construct (Setup.DataLoader_init lib) _) as [e | ld]
      eqn:Eld; [discriminate |].
    intros H. injection H as <-. setup_fields. rewrite Es, Eset.
    setup_fields. rewrite Eb, Eld. reflexivity.
  - destruct (Setup.get_unlabeled_dataset_from_config lib d a)
      as [a2 [e | ds]] eqn:Eget; [discriminate |].
    destruct (get_unlabeled_dataset_frame a a2 _ Eget)
      as (Hs & Hd & _ & _ & _ & _ & _ & _).
    setup_fields.
    destruct (Setup.train_batch_size_unlab (Setup.config_dataset a2))
      as [bn |] eqn:Eb; [| discriminate].
    destruct (Setup.construct (Setup.DataLoader_init lib) _) as [e | ld]
      eqn:Eld; [discriminate |].
    intros H. injection H as <-. setup_fields. rewrite Hs, Es.
    setup_fields. rewrite Eb, Eld. reflexivity.
Qed.

(** X21.  How creating the unlabeled loader fails or does nothing.  Outside
    the train stage the agent is left as it is.  In the train stage without a
    stored dataset, an exception of the dataset construction is passed on
    and neither a dataset nor a loader is stored; a missing
    [train_batch_size_unlab] raises [KeyError] only after the dataset has
    been built and stored, and no loader is stored; an exception of the
    [DataLoader] constructor is passed on, also after the dataset has been
    stored.  An exception of the base agent's [create_dataset] is passed on
    before any of this runs. *)
Theorem create_dataset_failures (a : Setup.agent T) :
  (String.eqb (Setup.stage a) "train" = false ->
   Setup.create_dataset_unlab lib d a = (a, inr tt)) /\
  (String.eqb (Setup.stage a) "train" = true ->
   Setup.train_set_unlab a = None ->
   forall (a' : Setup.agent T) (e : Setup.raised),
     Setup.get_unlabeled_dataset_from_config lib d a = (a', inl e) ->
     Setup.create_dataset_unlab lib d a = (a', inl e) /\
     Setup.train_set_unlab a' = None /\
     Setup.train_loader_unlab a' = Setup.train_loader_unlab a) /\
  (String.eqb (Setup.stage a) "train" = true ->
   Setup.train_set_unlab a = None ->
   Setup.train_batch_size_unlab (Setup.config_dataset a) = None ->
   forall (a' : Setup.agent T) (ds : Setup.NiftyDataset.t T),
     Setup.get_unlabeled_dataset_from_config lib d a = (a', inr ds) ->
     Setup.create_dataset_unlab lib d a
     = (Setup.set_train_set_unlab a' (Some ds),
        inl (Setup.KeyError "train_batch_size_unlab"%string)) /\
     Setup.train_loader_unlab (Setup.set_train_set_unlab a' (Some ds))
     = Setup.train_loader_unlab a) /\
  (String.eqb (Setup.stage a) "train" = true ->
   Setup.train_set_unlab a = None ->
   forall (a' : Setup.agent T) (ds : Setup.NiftyDataset.t T)
          (bn : Z) (e : Setup.raised),
     Setup.get_unlabeled_dataset_from_config lib d a = (a', inr ds) ->
     Setup.train_batch_size_unlab (Setup.config_dataset a) = Some bn ->
     Setup.DataLoader_init lib
       {| Setup.DataLoader.dataset := ds;
          Setup.DataLoader.batch_size := bn;
          Setup.DataLoader.shuffle := true;
          Setup.DataLoader.num_workers :=
            dict_get (Setup.num_workder (Setup.config_dataset a)) 16%Z;
          Setup.DataLoader.worker_init_fn := Setup.deterministic a |}
     = Some e ->
     Setup.create_dataset_unlab lib d a
     = (Setup.set_train_set_unlab a' (Some ds), inl e) /\
     Setup.train_loader_unlab (Setup.set_train_set_unlab a' (Some ds))
     = Setup.train_loader_unlab a) /\
  (forall (super : Setup.agent T -> Setup.agent T * (Setup.raised + unit))
          (a0 : Setup.agent T) (e : Setup.raised),
     super a = (a0, inl e) ->
     Setup.create_dataset super lib d a = (a0, inl e)).
Proof.
  split; [| split; [| split; [| split]]].
  - intros Es. unfold Setup.create_dataset_unlab. rewrite Es. reflexivity.
  - intros Es Eset a' e Eget.
    destruct (get_unlabeled_dataset_frame a a' _ Eget)
      as (_ & _ & _ & Hset & Hld & _).
    unfold Setup.create_dataset_unlab. rewrite Es, Eset, Eget.
    split; [reflexivity |]. split; [rewrite Hset; exact Eset | exact Hld].
  - intros Es Eset Eb a' ds Eget.
    destruct (get_unlabeled_dataset_frame a a' _ Eget)
      as (_ & _ & _ & _ & Hld & Hb & _).
    unfold Setup.create_dataset_unlab. rewrite Es, Eset, Eget.
    setup_fields. rewrite Hb, Eb.
    split; [reflexivity | exact Hld].
  - intros Es Eset a' ds bn e Eget Eb Einit.
    destruct (get_unlabeled_dataset_frame a a' _ Eget)
      as (_ & Hd & _ & _ & Hld & Hb & Hw & _).
    unfold Setup.create_dataset_unlab. rewrite Es, Eset, Eget.
    setup_fields. rewrite Hb, Eb, Hw, Hd.
    unfold Setup.construct. rewrite Einit.
    split; [reflexivity | exact Hld].
  - intros super a0 e Hs. unfold Setup.create_dataset. rewrite Hs.
    reflexivity.
Qed.

(** X22.  The loader a successful call stores in the train stage: it shuffles,
    takes its batch size from [train_batch_size_unlab] and its worker count
    from the key [num_workder], 16 when that key is absent, seeds its workers
    exactly when the agent is deterministic, and iterates the stored dataset,
    which is the one found when there was one and otherwise a dataset built
    without labels.  The seeds of different workers differ. *)
Theorem create_dataset_loader (a a1 : Setup.agent T) :
  String.eqb (Setup.stage a) "train" = true ->
  Setup.create_dataset_unlab lib d a = (a1, inr tt) ->
  exists ld : Setup.DataLoader.t T,
    Setup.train_loader_unlab a1 = Some ld /\
    Setup.train_set_unlab a1 = Some (Setup.DataLoader.dataset ld) /\
    Setup.DataLoader.shuffle ld = true /\
    Some (Setup.DataLoader.batch_size ld)
    = Setup.train_batch_size_unlab (Setup.config_dataset a) /\
    Setup.DataLoader.num_workers ld
    = dict_get (Setup.num_workder (Setup.config_dataset a)) 16%Z /\
    Setup.DataLoader.worker_init_fn ld = Setup.deterministic a /\
    (forall ds, Setup.train_set_unlab a = Some ds ->
       Setup.DataLoader.dataset ld = ds) /\
    (Setup.train_set_unlab a = None ->
     Setup.NiftyDataset.with_label (Setup.DataLoader.dataset ld) = false) /\
    (forall w1 w2 : Z,
       Setup.worker_seed a1 w1 = Setup.worker_seed a1 w2 -> w1 = w2).
Proof.
  intros Es. unfold Setup.create_dataset_unlab. rewrite Es.
  assert (Hinj : forall (x : Setup.agent T) (w1 w2 : Z),
            Setup.worker_seed x w1 = Setup.worker_seed x w2 -> w1 = w2).
  { intros x w1 w2. unfold Setup.worker_seed. lia. }
  destruct (Setup.train_set_unlab a) as [ds |] eqn:Eset.
  - destruct (Setup.train_batch_size_unlab (Setup.config_dataset a))
      as [bn |] eqn:Eb; [| discriminate].
    destruct (Setup.construct (Setup.DataLoader_init lib) _) as [e | ld]
      eqn:Eld; [discriminate |].
    destruct (construct_inv _ _ _ Eld) as [(e & _ & He) | (_ & He)];
      [discriminate He |].
    injection He as He. subst ld.
    intros H. injection H as <-. eexists. setup_fields.
    split; [reflexivity |]. split; [exact Eset |].
    split; [reflexivity |]. split; [reflexivity |].
    split; [reflexivity |]. split; [reflexivity |].
    split; [intros ds' E; injection E as <-; reflexivity |].
    split; [intros E; discriminate E | apply Hinj].
  - destruct (Setup.get_unlabeled_dataset_from_config lib d a)
      as [a2 [e | ds]] eqn:Eget; [discriminate |].
    destruct (get_unlabeled_dataset_frame a a2 _ Eget)
      as (_ & Hd & _ & _ & _ & Hb & Hw & Hlab).
    setup_fields.
    destruct (Setup.train_batch_size_unlab (Setup.config_dataset a2))
      as [bn |] eqn:Eb; [| discriminate].
    destruct (Setup.construct (Setup.DataLoader_init lib) _) as [e | ld]
      eqn:Eld; [discriminate |].
    destruct (construct_inv _ _ _ Eld) as [(e & _ & He) | (_ & He)];
      [discriminate He |].
    injection He as He. subst ld.
    intros H. injection H as <-. eexists. setup_fields.
    split; [reflexivity |]. split; [reflexivity |].
    split; [reflexivity |]. split; [rewrite <- Hb; reflexivity |].
    split; [rewrite Hw; reflexivity |]. split; [exact Hd |].
    split; [intros ds' E; discriminate E |].
    split; [intros _; apply Hlab; reflexivity | apply Hinj].
Qed.

End CreateDataset.

Lemma create_dataset_unlab_idempotent_witness :
  exists a1 : Setup.agent (String.string * option String.string),
    Setup.create_dataset_unlab setup_library setup_dict
      (setup_agent (setup_config (Some ["Rescale"%string])))
    = (a1, inr tt) /\
    Setup.create_dataset_unlab setup_library setup_dict a1 = (a1, inr tt).
Proof.
  eassert (H : Setup.create_dataset_unlab setup_library setup_dict
                 (setup_agent (setup_config (Some ["Rescale"%string])))
               = (_, inr tt)) by reflexivity.
  eexists. split; [exact H |].
  exact (create_dataset_unlab_idempotent setup_library setup_dict _ _ H).
Defined.

Lemma create_dataset_failures_witness :
  (exists a' : Setup.agent (String.string * option String.string),
     Setup.create_dataset_unlab setup_library setup_dict
       (setup_agent (setup_config (Some ["Flip"%string])))
     = (a', inl (Setup.UndefinedTransform "Flip"%string)) /\
     Setup.train_set_unlab a' = None /\
     Setup.train_loader_unlab a' = None) /\
  (exists a' : Setup.agent (String.string * option String.string),
     Setup.create_dataset_unlab setup_library setup_dict
       (setup_agent (setup_config_with None (Some "unlab.csv"%string) 0))
     = (a', inl (Setup.LibraryError "ValueError"%string)) /\
     Setup.train_set_unlab a' <> None /\
     Setup.train_loader_unlab a' = None).
Proof.
  split.
  - eassert (Hget : Setup.get_unlabeled_dataset_from_config setup_library
                      setup_dict
                      (setup_agent (setup_config (Some ["Flip"%string])))
                    = (_, inl (Setup.UndefinedTransform "Flip"%string)))
      by reflexivity.
    destruct (create_dataset_failures setup_library setup_dict
                (setup_agent (setup_config (Some ["Flip"%string]))))
      as (_ & Hfail & _).
    destruct (Hfail eq_refl eq_refl _ _ Hget) as (H & Hset & Hld).
    eexists. split; [exact H |]. split; [exact Hset | exact Hld].
  - eassert (Hget : Setup.get_unlabeled_dataset_from_config setup_library
                      setup_dict
                      (setup_agent
                         (setup_config_with None (Some "unlab.csv"%string) 0))
                    = (_, inr _))
      by reflexivity.
    destruct (create_dataset_failures setup_library setup_dict
                (setup_agent
                   (setup_config_with None (Some "unlab.csv"%string) 0)))
      as (_ & _ & _ & Hfail & _).
    destruct (Hfail eq_refl eq_refl _ _ 0%Z
                (Setup.LibraryError "ValueError"%string) Hget eq_refl eq_refl)
      as (H & Hld).
    eexists. split; [exact H |]. split; [discriminate | exact Hld].
Defined.

Lemma create_dataset_loader_witness :
  exists (a1 : Setup.agent (String.string * option String.string))
         (ld : Setup.DataLoader.t (String.string * option String.string)),
    Setup.create_dataset_unlab setup_library setup_dict
      (setup_agent (setup_config None)) = (a1, inr tt) /\
    Setup.train_loader_unlab a1 = Some ld /\
    Setup.DataLoader.num_workers ld = 16%Z /\
    Setup.DataLoader.worker_init_fn ld = true.
Proof.
  eassert (H : Setup.create_dataset_unlab setup_library setup_dict
                 (setup_agent (setup_config None)) = (_, inr tt))
    by reflexivity.
  destruct (create_dataset_loader setup_library setup_dict
              (setup_agent (setup_config None)) _ eq_refl H)
    as (ld & Hld & _ & _ & _ & Hw & Hi & _).
  eexists. exists ld. split; [exact H |]. split; [exact Hld |].
  split; [exact Hw | exact Hi].
Defined.

(** * Reporting *)

Lemma string_length_append (a b : String.string) :
  String.length (String.append a b)
  = (String.length a + String.length b)%nat.
Proof.
  induction a as [| x a IH]; cbn; [reflexivity | now rewrite IH].
Qed.

Lemma string_append_cancel_r (s : String.string) (a : String.string) :
  forall b : String.string,
    String.append a s = String.append b s -> a = b.
Proof.
  induction a as [| x a IH]; intros b H.
  - destruct b as [| y b]; [reflexivity |].
    apply (f_equal String.length) in H. cbn in H.
    rewrite string_length_append in H. lia.
  - destruct b as [| y b].
    + apply (f_equal String.length) in H. cbn in H.
      rewrite string_length_append in H. lia.
    + cbn in H. injection H as -> H. f_equal. exact (IH b H).
Qed.

(** The series of different classes have different names. *)
Lemma class_tag_inj (a b : nat) : class_tag a = class_tag b -> a = b.
Proof.
  unfold class_tag. intros H. cbn [String.append] in H.
  injection H as H.
  apply string_append_cancel_r in H.
  apply DecimalNat.Unsigned.to_uint_inj.
  pose proof (DecimalString.NilEmpty.usu (Nat.to_uint a)) as Ha.
  rewrite H, DecimalString.NilEmpty.usu in Ha. congruence.
Qed.

Lemma class_tag_not_fixed (c : nat) :
  ~ In (class_tag c)
      ["loss"%string; "loss_sup"%string; "loss_unsup"%string;
       "consis_w"%string; "dice"%string].
Proof.
  unfold class_tag. cbn [String.append].
  intros [H | [H | [H | [H | [H | []]]]]]; discriminate H.
Qed.

Lemma class_tags_NoDup (cs : list nat) :
  NoDup cs -> NoDup (map class_tag cs).
Proof.
  induction 1 as [| c cs Hc Hcs IH]; cbn; constructor; [| exact IH].
  intros Hin. apply in_map_iff in Hin. destruct Hin as (c' & E & Hc').
  apply class_tag_inj in E. subst c'. contradiction.
Qed.

Lemma write_class_scalars_ok (train valid : list R) (g : Z) (cs : list nat) :
  (forall c, In c cs -> (c < length train)%nat /\ (c < length valid)%nat) ->
  write_class_scalars train valid g cs
  = (map (class_event train valid g) cs, OK tt).
Proof.
  induction cs as [| c cs IH]; intros H; [reflexivity |].
  destruct (H c (or_introl eq_refl)) as [Ht Hv].
  cbn [write_class_scalars map].
  rewrite (nth_error_nth' train 0 Ht), (nth_error_nth' valid 0 Hv).
  rewrite IH by (intros c' Hc'; apply H; right; exact Hc').
  reflexivity.
Qed.

Lemma write_class_scalars_fail (train valid : list R) (g : Z) (n : nat) :
  forall start : nat,
    let j := Nat.min (length train) (length valid) in
    (start <= j)%nat -> (j < start + n)%nat ->
    write_class_scalars train valid g (seq start n)
    = (map (class_event train valid g) (seq start (j - start)),
       Error IndexError).
Proof.
  induction n as [| n IH]; intros start j Hs Hj; [lia |].
  cbn [seq write_class_scalars].
  destruct (Nat.eq_dec start j) as [E | Hne].
  - replace (j - start)%nat with 0%nat by lia. cbn [seq map].
    destruct (nth_error train start) as [t |] eqn:Et;
      [| reflexivity].
    destruct (nth_error valid start) as [v |] eqn:Ev; [| reflexivity].
    exfalso.
    assert (start < length train)%nat
      by (apply nth_error_Some; congruence).
    assert (start < length valid)%nat
      by (apply nth_error_Some; congruence).
    subst j. lia.
  - assert (Ht : (start < length train)%nat) by (subst j; lia).
    assert (Hv : (start < length valid)%nat) by (subst j; lia).
    rewrite (nth_error_nth' train 0 Ht), (nth_error_nth' valid 0 Hv).
    fold j. rewrite (IH (S start)) by (fold j; lia). fold j.
    replace (j - start)%nat with (S (j - S start)) by lia.
    reflexivity.
Qed.

Lemma event_tags_app (u v : list event) :
  event_tags (u ++ v) = event_tags u ++ event_tags v.
Proof. unfold event_tags. apply flat_map_app. Qed.

Lemma event_tags_class (train valid : list R) (g : Z) (cs : list nat) :
  event_tags (map (class_event train valid g) cs) = map class_tag cs.
Proof.
  induction cs as [| c cs IH]; [reflexivity |].
  cbn [map]. change (event_tags (class_event train valid g c :: ?l))
    with (class_tag c :: event_tags l).
  unfold event_tags in *. cbn. f_equal. exact IH.
Qed.

Lemma write_scalars_completes (cfg : config) (t : SSL.train_scalers.t)
    (v : valid_scalers.t) (g : Z) :
  (Z.to_nat (class_num cfg) <= length (SSL.train_scalers.class_dice t))%nat ->
  (Z.to_nat (class_num cfg) <= length (valid_scalers.class_dice v))%nat ->
  snd (write_scalars cfg t v g) = OK tt /\
  length (fst (write_scalars cfg t v g))
  = (5 + Z.to_nat (class_num cfg) + 2)%nat.
Proof.
  intros Ht Hv.
  assert (Hw : write_class_scalars (SSL.train_scalers.class_dice t)
                 (valid_scalers.class_dice v) g
                 (seq 0 (Z.to_nat (class_num cfg)))
               = (map (class_event (SSL.train_scalers.class_dice t)
                         (valid_scalers.class_dice v) g)
                    (seq 0 (Z.to_nat (class_num cfg))), OK tt)).
  { apply write_class_scalars_ok. intros c Hc. apply in_seq in Hc. lia. }
  unfold write_scalars. cbv zeta. rewrite Hw. cbn [fst snd].
  split; [reflexivity |].
  rewrite !length_app, length_map, length_seq. cbn. lia.
Qed.

(** X23.  When both Dice vectors have at least [class_num] entries,
    [write_scalars] completes: it sends the five series [loss], [loss_sup],
    [loss_unsup], [consis_w] and [dice], then one series per class carrying
    the training and validation Dice of that class, all at the given global
    step, and then prints the two summaries; the names of the series are
    pairwise different, so no series is written twice. *)
Theorem write_scalars_series (cfg : config) (t : SSL.train_scalers.t)
    (v : valid_scalers.t) (g : Z) :
  let K := Z.to_nat (class_num cfg) in
  (K <= length (SSL.train_scalers.class_dice t))%nat ->
  (K <= length (valid_scalers.class_dice v))%nat ->
  exists first prints : list event,
    write_scalars cfg t v g
    = (first
       ++ map (class_event (SSL.train_scalers.class_dice t)
                 (valid_scalers.class_dice v) g) (seq 0 K)
       ++ prints, OK tt) /\
    event_tags first
    = ["loss"%string; "loss_sup"%string; "loss_unsup"%string;
       "consis_w"%string; "dice"%string] /\
    length prints = 2%nat /\ event_tags prints = [] /\
    length (fst (write_scalars cfg t v g)) = (5 + K + 2)%nat /\
    NoDup (event_tags (fst (write_scalars cfg t v g))) /\
    (forall e st, In e (fst (write_scalars cfg t v g)) ->
       event_step e = Some st -> st = g).
Proof.
  intros K Ht Hv.
  assert (Hw : write_class_scalars (SSL.train_scalers.class_dice t)
                 (valid_scalers.class_dice v) g (seq 0 K)
               = (map (class_event (SSL.train_scalers.class_dice t)
                         (valid_scalers.class_dice v) g) (seq 0 K), OK tt)).
  { apply write_class_scalars_ok. intros c Hc. apply in_seq in Hc. lia. }
  unfold write_scalars. cbv zeta. fold K. rewrite Hw.
  eexists. eexists. split; [reflexivity |].
  split; [reflexivity |]. split; [reflexivity |]. split; [reflexivity |].
  cbn [fst].
  split.
  { rewrite !length_app, length_map, length_seq. cbn. lia. }
  split.
  { rewrite !event_tags_app, event_tags_class.
    change (event_tags [print_summary _ _ _ _; print_summary _ _ _ _])
      with (@nil String.string).
    rewrite app_nil_r.
    apply NoDup_app.
    - cbn. repeat constructor; cbn; intuition discriminate.
    - apply class_tags_NoDup. apply seq_NoDup.
    - intros tag Hin Hc. apply in_map_iff in Hc.
      destruct Hc as (c & <- & _). exact (class_tag_not_fixed c Hin). }
  intros e st Hin Hst. apply in_app_or in Hin. destruct Hin as [Hin | Hin].
  - cbn in Hin.
    destruct Hin as [<- | [<- | [<- | [<- | [<- | []]]]]];
      cbn in Hst; congruence.
  - apply in_app_or in Hin. destruct Hin as [Hin | Hin].
    + apply in_map_iff in Hin. destruct Hin as (c & <- & _).
      cbn in Hst. congruence.
    + cbn in Hin. destruct Hin as [<- | [<- | []]]; discriminate Hst.
Qed.

(** X24.  When one of the two Dice vectors has fewer than [class_num]
    entries, [write_scalars] raises [IndexError] at the first class that is
    missing: the five series and the series of the classes before it have
    been sent, and nothing is printed. *)
Theorem write_scalars_index_error (cfg : config) (t : SSL.train_scalers.t)
    (v : valid_scalers.t) (g : Z) :
  let K := Z.to_nat (class_num cfg) in
  let j := Nat.min (length (SSL.train_scalers.class_dice t))
             (length (valid_scalers.class_dice v)) in
  (j < K)%nat ->
  snd (write_scalars cfg t v g) = Error IndexError /\
  length (fst (write_scalars cfg t v g)) = (5 + j)%nat /\
  event_tags (fst (write_scalars cfg t v g))
  = ["loss"%string; "loss_sup"%string; "loss_unsup"%string;
     "consis_w"%string; "dice"%string] ++ map class_tag (seq 0 j) /\
  (forall e, In e (fst (write_scalars cfg t v g)) -> event_tag e <> None).
Proof.
  intros K j Hj.
  pose proof (write_class_scalars_fail (SSL.train_scalers.class_dice t)
                (valid_scalers.class_dice v) g K 0 (Nat.le_0_l _) Hj) as Hw.
  fold j in Hw. rewrite Nat.sub_0_r in Hw.
  unfold write_scalars. cbv zeta. fold K. rewrite Hw. cbn [fst snd].
  split; [reflexivity |].
  split.
  { rewrite length_app, length_map, length_seq. reflexivity. }
  split.
  { rewrite event_tags_app, event_tags_class. reflexivity. }
  intros e Hin. apply in_app_or in Hin. destruct Hin as [Hin | Hin].
  - cbn in Hin.
    destruct Hin as [<- | [<- | [<- | [<- | [<- | []]]]]]; discriminate.
  - apply in_map_iff in Hin. destruct Hin as (c & <- & _). discriminate.
Qed.

Section ReportAfterTraining.
Context {C : Collaborators}.

(** X25.  The record of a training epoch can always be reported: when the
    per-step Dice vectors have [class_num] entries, the record [training]
    returns and any validation record with at least [class_num] Dice entries
    make [write_scalars] complete without [IndexError]. *)
Theorem training_record_is_reportable (cfg : config) (s s' : Agent)
    (ls : list SSL.locals) (r : SSL.train_scalers.t)
    (v : valid_scalers.t) (g : Z) :
  SSL.run cfg (Z.to_nat (iter_valid cfg)) (epoch_start s) = OK (s', ls) ->
  SSL.training cfg s = OK (s', r) ->
  (forall l, In l ls ->
     length (SSL.dice_list l) = Z.to_nat (class_num cfg)) ->
  (Z.to_nat (class_num cfg) <= length (valid_scalers.class_dice v))%nat ->
  snd (write_scalars cfg r v g) = OK tt /\
  length (fst (write_scalars cfg r v g))
  = (5 + Z.to_nat (class_num cfg) + 2)%nat.
Proof.
  intros Hrun Ht Hdice Hv.
  destruct (ssl_training_inv cfg s s' s' ls r Hrun Ht)
    as (_ & _ & Hmean & _ & front & last & Hsnoc & _).
  destruct (np_mean_axis0_uniform (map SSL.dice_list ls)
              (Z.to_nat (class_num cfg))) as (cd & Hcd & Hlen & _).
  { intros E. apply map_eq_nil in E. rewrite E in Hsnoc.
    destruct front; discriminate. }
  { intros x Hx. apply in_map_iff in Hx. destruct Hx as (l & <- & Hl).
    exact (Hdice l Hl). }
  rewrite Hmean in Hcd. injection Hcd as <-.
  apply write_scalars_completes; [| exact Hv].
  rewrite Hlen. apply Nat.le_refl.
Qed.

End ReportAfterTraining.

(** * The command line *)

(** X26.  [main] never reads [sys.argv] out of range: with fewer than two
    arguments after the program name it prints the two usage lines and exits
    without making an agent; with two or more it runs one agent with the
    first as stage and the second as configuration file, and ignores the
    rest. *)
Theorem main_arguments (argv : list String.string) :
  main argv <> Error IndexError /\
  ((length argv < 3)%nat ->
   exists usage1 usage2,
     main argv = OK [print_line usage1; print_line usage2; exit]) /\
  (forall (prog stage cfg_file : String.string)
          (rest : list String.string),
     argv = prog :: stage :: cfg_file :: rest ->
     main argv = OK [run_agent stage cfg_file]).
Proof.
  split; [| split].
  - unfold main. destruct (Nat.ltb_spec (length argv) 3) as [Hlt | Hge];
      [discriminate |].
    destruct argv as [| a0 [| a1 [| a2 rest]]]; cbn in Hge; try lia.
    discriminate.
  - intros Hlt. unfold main.
    destruct (Nat.ltb_spec (length argv) 3) as [_ | Hge]; [| lia].
    eexists. eexists. reflexivity.
  - intros prog stage cfg_file rest ->. reflexivity.
Qed.

Lemma write_scalars_series_witness :
  snd (write_scalars (toy_config 1 0 0) report_train (report_valid [1; 1]) 40)
  = OK tt /\
  event_tags
    (fst (write_scalars (toy_config 1 0 0) report_train
            (report_valid [1; 1]) 40))
  = ["loss"%string; "loss_sup"%string; "loss_unsup"%string;
     "consis_w"%string; "dice"%string;
     "class_0_dice"%string; "class_1_dice"%string] /\
  NoDup
    (event_tags
       (fst (write_scalars (toy_config 1 0 0) report_train
               (report_valid [1; 1]) 40))).
Proof.
  destruct (write_scalars_series (toy_config 1 0 0) report_train
              (report_valid [1; 1]) 40 (Nat.le_refl 2) (Nat.le_refl 2))
    as (first & prints & Hw & _ & _ & _ & _ & Hnd & _).
  split; [rewrite Hw; reflexivity |]. split; [reflexivity | exact Hnd].
Defined.

Lemma write_scalars_index_error_witness :
  snd (write_scalars (toy_config 1 0 0) report_train (report_valid [1]) 40)
  = Error IndexError /\
  event_tags
    (fst (write_scalars (toy_config 1 0 0) report_train
            (report_valid [1]) 40))
  = ["loss"%string; "loss_sup"%string; "loss_unsup"%string;
     "consis_w"%string; "dice"%string; "class_0_dice"%string].
Proof.
  destruct (write_scalars_index_error (toy_config 1 0 0) report_train
              (report_valid [1]) 40 (Nat.lt_succ_diag_r 1))
    as (Herr & _ & Htags & _).
  split; [exact Herr | exact Htags].
Defined.

Lemma training_record_is_reportable_witness :
  exists (s' : @Agent (toy false)) (r : SSL.train_scalers.t),
    SSL.training (toy_config 2 0 0) (toy_agent false 0) = OK (s', r) /\
    snd (write_scalars (toy_config 2 0 0) r (report_valid [1; 1]) 2) = OK tt.
Proof.
  eassert (Hrun : @SSL.run (toy false) (toy_config 2 0 0)
                    (Z.to_nat (iter_valid (toy_config 2 0 0)))
                    (epoch_start (toy_agent false 0)) = OK (_, _))
    by reflexivity.
  eassert (Ht : @SSL.training (toy false) (toy_config 2 0 0)
                  (toy_agent false 0) = OK (_, _)) by reflexivity.
  eexists. eexists. split; [exact Ht |].
  refine (proj1 (@training_record_is_reportable (toy false)
                   (toy_config 2 0 0) _ _ _ _ (report_valid [1; 1]) 2
                   Hrun Ht _ (Nat.le_refl 2))).
  intros l [<- | [<- | []]]; reflexivity.
Defined.

Lemma main_arguments_witness :
  main ["pymic_net_run"%string; "train"%string; "config.cfg"%string;
        "more"%string]
  = OK [run_agent "train"%string "config.cfg"%string] /\
  exists usage1 usage2,
    main ["pymic_net_run"%string; "train"%string]
    = OK [print_line usage1; print_line usage2; exit].
Proof.
  destruct (main_arguments ["pymic_net_run"%string; "train"%string;
                            "config.cfg"%string; "more"%string])
    as (_ & _ & Hrun).
  destruct (main_arguments ["pymic_net_run"%string; "train"%string])
    as (_ & Husage & _).
  split; [exact (Hrun _ _ _ _ eq_refl) |].
  apply Husage. cbn. lia.
Defined.
